(** * mm-export-api: the export pipeline of [app.py]

    A shallow embedding of the Mattermost export service: channel listing
    ([select_channel]) and channel export ([export_channel]), with the
    Python built-ins they rely on ([str.split], [str.find], [str.rfind],
    [str.count], slicing, [sorted], [datetime] rendering).

    Conventions of the embedding.
    - A Python [str] is a [string]; one character stands for one code point,
      of the first 256 (the characters of Latin-1).
    - A Python [dict] decoded from JSON is a [gmap string value].
    - An exception is a value of [exn]; a computation that may raise, or
      that loops, returns a [result].
    - [print] calls write to standard output only and are left out.
    - Seconds obtained by true division ([create_at / 1000]) are kept as
      exact rationals.

    - The time zone of the host is a function from instants to offsets, so
      that a zone with daylight saving is a host like any other.

    [select_channel] and [export_channel] come first, with the user index
    as an input; [connect], [get_users], [select_team] and the HTTP
    endpoint follow, over a client of the chat server. *)

From Stdlib Require Import ZArith QArith String Ascii List Lia Permutation.
From stdpp Require Import gmap strings list fin_maps sorting.

Local Open Scope Z_scope.

(** ** Exceptions and fallible computations *)

Inductive exn : Type :=
  | KeyError (key : string)
  | IndexError
  | AttributeError
  | TypeError
  | ValueError
  | DriverError (what : string).

Inductive result (A : Type) : Type :=
  | Ok (a : A)
  | Raise (e : exn)
  | OutOfFuel.

Arguments Ok {A} a.
Arguments Raise {A} e.
Arguments OutOfFuel {A}.

#[global] Instance result_ret : MRet result := fun A a => Ok a.

#[global] Instance result_bind : MBind result := fun A B k m =>
  match m with
  | Ok a => k a
  | Raise e => Raise e
  | OutOfFuel => OutOfFuel
  end.

#[global] Instance result_fmap : FMap result := fun A B f m =>
  match m with
  | Ok a => Ok (f a)
  | Raise e => Raise e
  | OutOfFuel => OutOfFuel
  end.

(** [[f(x) for x in l]] where [f] may raise: left to right, first failure wins. *)
Fixpoint mapM {A B : Type} (f : A -> result B) (l : list A) : result (list B) :=
  match l with
  | [] => Ok []
  | x :: l' => y ← f x; ys ← mapM f l'; Ok (y :: ys)
  end.

(** ** Python strings *)

Module Py.

(** [s[n:]] for [0 <= n]. *)
Fixpoint drop (n : nat) (s : string) : string :=
  match n, s with
  | O, _ => s
  | S _, EmptyString => EmptyString
  | S n', String _ s' => drop n' s'
  end.

(** [s.startswith(sub)] *)
Definition startswith (sub s : string) : bool := String.prefix sub s.

(** [s.find(sub)], scanning from offset [i]: the lowest index at which [sub]
    starts, [-1] when there is none. *)
Fixpoint find_from (sub s : string) (i : Z) : Z :=
  if startswith sub s then i
  else match s with
       | EmptyString => -1
       | String _ s' => find_from sub s' (i + 1)
       end.

Definition find (s sub : string) : Z := find_from sub s 0.

(** [s.rfind(sub)]: the highest index at which [sub] starts, [-1] when there
    is none. *)
Fixpoint rfind_from (sub s : string) (i : Z) : Z :=
  match s with
  | EmptyString => if startswith sub s then i else -1
  | String _ s' =>
      let r := rfind_from sub s' (i + 1) in
      if 0 <=? r then r else if startswith sub s then i else -1
  end.

Definition rfind (s sub : string) : Z := rfind_from sub s 0.

(** [s.count(sub)] for a non-empty [sub]: occurrences are counted left to
    right without overlap; [skip] is the number of characters of the last
    counted occurrence still to be passed over. *)
Fixpoint count_from (sub : string) (skip : nat) (s : string) : nat :=
  match s with
  | EmptyString => O
  | String _ s' =>
      match skip with
      | S k => count_from sub k s'
      | O =>
          if startswith sub s
          then S (count_from sub (String.length sub - 1) s')
          else count_from sub O s'
      end
  end.

Definition count (s sub : string) : nat := count_from sub O s.

(** [s.split(sep)] for a non-empty [sep]: [cur] holds the characters of the
    current part, most recent first. *)
Fixpoint split_from (sep : string) (skip : nat) (cur : list ascii) (s : string)
  : list string :=
  match s with
  | EmptyString => [string_of_list_ascii (rev cur)]
  | String c s' =>
      match skip with
      | S k => split_from sep k cur s'
      | O =>
          if startswith sep s
          then string_of_list_ascii (rev cur)
                 :: split_from sep (String.length sep - 1) [] s'
          else split_from sep O (c :: cur) s'
      end
  end.

Definition split (s sep : string) : list string := split_from sep O [] s.

(** Slice bounds as Python clamps them: a negative bound counts from the
    end, and both are brought into [0, len]. *)
Definition clamp (len i : Z) : Z :=
  if i <? 0 then Z.max 0 (len + i) else Z.min i len.

(** [s[start:stop]] *)
Definition slice (s : string) (start stop : Z) : string :=
  let len := Z.of_nat (String.length s) in
  let a := clamp len start in
  let b := clamp len stop in
  String.substring (Z.to_nat a) (Z.to_nat (b - a)) s.

(** [c.lower()] of one character: the capital letters among the first 256
    code points are [A] to [Z] (65 to 90) and the accented capitals 192 to
    222 without the multiplication sign 215; each has its small letter 32
    places further on, and every other character is left as it is. *)
Definition lower_char (c : ascii) : ascii :=
  let n := nat_of_ascii c in
  if ((65 <=? n) && (n <=? 90)
      || (192 <=? n) && (n <=? 214)
      || (216 <=? n) && (n <=? 222))%nat
  then ascii_of_nat (n + 32) else c.

(** [s.lower()] *)
Fixpoint lower (s : string) : string :=
  match s with
  | EmptyString => EmptyString
  | String c s' => String (lower_char c) (lower s')
  end.

(** [sorted(l, key=key)]: stable, ascending in the keys, which are compared
    as Python compares strings (character by character, then by length). *)
Fixpoint insert_by {A : Type} (key : A -> string) (x : A) (l : list A) : list A :=
  match l with
  | [] => [x]
  | y :: l' =>
      if String.ltb (key y) (key x) then y :: insert_by key x l'
      else x :: y :: l'
  end.

Definition sorted {A : Type} (key : A -> string) (l : list A) : list A :=
  foldr (fun x acc => insert_by key x acc) [] l.

End Py.


(** ** Calendar dates: the part of [datetime] that the export uses

    Instants are whole seconds since the epoch. The proleptic Gregorian
    calendar is computed with the usual era/day-of-era arithmetic. A
    [datetime] exists only for the years 1 to 9999. *)

Module Datetime.

Record datetime : Type := mk_datetime {
  year : Z; month : Z; day : Z; hour : Z; minute : Z; second : Z
}.

Definition days_from_civil (y m d : Z) : Z :=
  let y' := if m <=? 2 then y - 1 else y in
  let era := y' / 400 in
  let yoe := y' - era * 400 in
  let mp := if 2 <? m then m - 3 else m + 9 in
  let doy := (153 * mp + 2) / 5 + d - 1 in
  let doe := yoe * 365 + yoe / 4 - yoe / 100 + doy in
  era * 146097 + doe - 719468.

Definition civil_from_days (z : Z) : Z * Z * Z :=
  let z' := z + 719468 in
  let era := z' / 146097 in
  let doe := z' - era * 146097 in
  let yoe := (doe - doe / 1460 + doe / 36524 - doe / 146096) / 365 in
  let doy := doe - (365 * yoe + yoe / 4 - yoe / 100) in
  let mp := (5 * doy + 2) / 153 in
  let d := doy - (153 * mp + 2) / 5 + 1 in
  let m := if mp <? 10 then mp + 3 else mp - 9 in
  let y := yoe + era * 400 in
  (if m <=? 2 then y + 1 else y, m, d).

(** The broken-down time shown by a clock that runs [offset] seconds ahead of
    UTC, at the instant [t]; [ValueError] outside the years 1..9999. *)
Definition fromtimestamp (offset t : Z) : result datetime :=
  let local := t + offset in
  let '(y, m, d) := civil_from_days (local / 86400) in
  let sod := local mod 86400 in
  if (1 <=? y) && (y <=? 9999)
  then Ok (mk_datetime y m d (sod / 3600) (sod mod 3600 / 60) (sod mod 60))
  else Raise ValueError.

(** [datetime.utcfromtimestamp(t)] *)
Definition utcfromtimestamp (t : Z) : result datetime := fromtimestamp 0 t.

Definition digit (n : Z) : ascii := ascii_of_nat (48 + Z.to_nat (n mod 10)).

Definition pad2 (n : Z) : string :=
  String (digit (n / 10)) (String (digit n) EmptyString).

Definition pad4 (n : Z) : string :=
  String (digit (n / 1000)) (String (digit (n / 100)) (pad2 n)).

(** [%Y] as the C library of Linux writes it: the decimal numeral of the
    year, so that a year below 1000 has fewer than four digits. *)
Definition year_text (y : Z) : string :=
  if y <? 10 then String (digit y) EmptyString
  else if y <? 100 then pad2 y
  else if y <? 1000 then String (digit (y / 100)) (pad2 y)
  else pad4 y.

(** [dt.strftime('%Y-%m-%dT%H:%M:%SZ')]: the trailing [Z] is a literal of the
    format, it is written whatever clock [dt] was read from. *)
Definition strftime (dt : datetime) : string :=
  year_text (year dt) +:+ "-" +:+ pad2 (month dt) +:+ "-" +:+ pad2 (day dt) +:+ "T"
  +:+ pad2 (hour dt) +:+ ":" +:+ pad2 (minute dt) +:+ ":" +:+ pad2 (second dt)
  +:+ "Z".

Definition digit_val (c : ascii) : option Z :=
  let n := nat_of_ascii c in
  if ((48 <=? n) && (n <=? 57))%nat then Some (Z.of_nat (n - 48)) else None.

(** [%Y]: exactly four digits. *)
Definition parse_year (s : string) : option (Z * string) :=
  match s with
  | String a (String b (String c (String d rest))) =>
      match digit_val a, digit_val b, digit_val c, digit_val d with
      | Some a, Some b, Some c, Some d =>
          Some (1000 * a + 100 * b + 10 * c + d, rest)
      | _, _, _, _ => None
      end
  | _ => None
  end.

(** One or two digits denoting a number of [1..hi], the two-digit reading
    first ([%m] with [hi = 12], [%d] with [hi = 31]). *)
Definition parse_upto (hi : Z) (s : string) : option (Z * string) :=
  let one :=
    match s with
    | String a rest =>
        match digit_val a with
        | Some a => if 1 <=? a then Some (a, rest) else None
        | None => None
        end
    | EmptyString => None
    end in
  match s with
  | String a (String b rest) =>
      match digit_val a, digit_val b with
      | Some a, Some b =>
          let n := 10 * a + b in
          if (1 <=? n) && (n <=? hi) then Some (n, rest) else one
      | _, _ => one
      end
  | _ => one
  end.

(** [%d] also accepts a space in place of a leading zero. *)
Definition parse_day (s : string) : option (Z * string) :=
  match parse_upto 31 s with
  | Some r => Some r
  | None =>
      match s with
      | String " " (String b rest) =>
          match digit_val b with
          | Some b => if 1 <=? b then Some (b, rest) else None
          | None => None
          end
      | _ => None
      end
  end.

Definition expect (c : ascii) (s : string) : option string :=
  match s with
  | String c' rest => if Ascii.eqb c c' then Some rest else None
  | EmptyString => None
  end.

Definition is_leap (y : Z) : bool :=
  (y mod 4 =? 0) && (negb (y mod 100 =? 0) || (y mod 400 =? 0)).

Definition days_in_month (y m : Z) : Z :=
  if m =? 2 then (if is_leap y then 29 else 28)
  else if (m =? 4) || (m =? 6) || (m =? 9) || (m =? 11) then 30 else 31.

(** [datetime.strptime(s, '%Y-%m-%d')]: midnight of the given day. *)
Definition strptime (s : string) : result datetime :=
  let parsed :=
    '(y, s1) ← parse_year s;
    s2 ← expect "-" s1;
    '(m, s3) ← parse_upto 12 s2;
    s4 ← expect "-" s3;
    '(d, s5) ← parse_day s4;
    match s5 with
    | EmptyString => Some (y, m, d)
    | String _ _ => None
    end in
  match parsed with
  | Some (y, m, d) =>
      if (1 <=? y) && (d <=? days_in_month y m)
      then Ok (mk_datetime y m d 0 0 0)
      else Raise ValueError
  | None => Raise ValueError
  end.

(** [(dt - epoch) // timedelta(0, 1)]: the seconds from the epoch to [dt],
    both read on the same clock. *)
Definition seconds_from_epoch (dt : datetime) : Z :=
  days_from_civil (year dt) (month dt) (day dt) * 86400
  + hour dt * 3600 + minute dt * 60 + second dt.

(** A time zone gives, for each instant, the seconds by which local time
    is ahead of UTC at that instant. *)
Definition zone : Type := Z -> Z.

(** [local(u)] of [datetime._mktime]: the local time at the instant [u], as
    seconds from the epoch; [ValueError] when its year is outside 1..9999. *)
Definition local (tz : zone) (u : Z) : result Z :=
  seconds_from_epoch <$> fromtimestamp (tz u) u.

(** [dt.timestamp()] for a [dt] without time zone (and with [fold = 0], as
    [strptime] makes it): [datetime._mktime] looks for an instant [u] whose
    local time is [dt], trying the offset in force at [t] and the one in
    force a day before; when [dt] is skipped by the local clock it settles
    for the later of its two candidates. *)
Definition timestamp (tz : zone) (dt : datetime) : result Z :=
  let t := seconds_from_epoch dt in
  lt ← local tz t;
  let a := lt - t in
  let u1 := t - a in
  t1 ← local tz u1;
  let second_try (b : Z) : result Z :=
    let u2 := t - b in
    t2 ← local tz u2;
    if t2 =? t then Ok u2
    else if t1 =? t then Ok u1
    else Ok (Z.max u1 u2) in
  if t1 =? t then
    let u2 := u1 - 86400 in
    lt ← local tz u2;
    let b := lt - u2 in
    if a =? b then Ok u1 else second_try b
  else second_try (t1 - u1).

End Datetime.

(** ** Data of the chat server *)

(** A JSON scalar as [json] decodes it. *)
Inductive value : Type :=
  | VStr (s : string)
  | VNum (n : Z)
  | VNull.

#[global] Instance value_eq_dec : EqDecision value.
Proof. solve_decision. Defined.

(** [d[k]] *)
Definition getitem {V : Type} (d : gmap string V) (k : string) : result V :=
  match d !! k with
  | Some v => Ok v
  | None => Raise (KeyError k)
  end.

(** [l[i]] for [0 <= i] *)
Definition index {A : Type} (l : list A) (i : nat) : result A :=
  match l !! i with
  | Some x => Ok x
  | None => Raise IndexError
  end.

(** The receiver of a [str] method call: anything but a string has no such
    attribute. *)
Definition as_str (v : value) : result string :=
  match v with
  | VStr s => Ok s
  | _ => Raise AttributeError
  end.

Record file_info : Type := mk_file { file_id : string; file_name : string }.

(** A raw post; [metadata_files] is [post["metadata"]["files"]], [None] when
    the metadata has no such key. *)
Record post : Type := mk_post {
  post_id : string;
  post_user_id : string;
  create_at : Z;
  message : string;
  metadata_files : option (list file_info)
}.

(** One page of posts: an ordering array and an id-to-post mapping. *)
Record posts_page : Type := mk_page {
  order : list string;
  posts : gmap string post
}.

(** The exported record of one post; [code] and [files] are the optional
    keys of the dictionary. *)
Record simple_post : Type := mk_simple {
  idx : nat;
  id : string;
  created : string;
  username : value;
  sp_message : string;
  code : option string;
  files : option (list string)
}.

Record channel_block : Type := mk_block {
  cb_name : value;
  cb_display_name : value;
  cb_header : value;
  cb_id : value;
  cb_team : value;
  cb_team_id : value;
  exported_at : string
}.

Record output : Type := mk_output {
  out_channel : channel_block;
  out_posts : list simple_post
}.

(** ** The collaborators *)

(** The [mattermostdriver] endpoints that the pipeline calls. A call may
    raise. [get_file n fid] tells whether the request for [fid] succeeds
    when it is the [n]-th file request of the session, which lets a
    download fail a few times and then go through. *)
Record Driver : Type := mk_driver {
  get_channels_for_user : string -> string -> result (list (gmap string value));
  get_posts_for_channel : value -> nat -> nat -> result posts_page;
  get_user : string -> result (gmap string value);
  get_team : value -> result (gmap string value);
  get_file : nat -> string -> bool
}.

(** The machine that runs the service: its time zone, which gives the
    offset of local time from UTC in seconds at each instant, and the
    instant at which the export reads the clock. *)
Record Host : Type := mk_host { utcoffset : Datetime.zone; clock : Z }.

(** What an export changes: the shared user index, and the count of file
    requests issued so far. *)
Record session : Type := mk_session {
  user_id_to_name : gmap string value;
  file_requests : nat
}.

(** ** [select_channel] *)

(** The body of the labelling loop: a channel whose type is not ["D"] is
    skipped, a direct-message channel gets the other participant's name. *)
Definition label_channel (my_user_id : string) (names : gmap string value)
    (channel : gmap string value) : result (gmap string value) :=
  ty ← getitem channel "type";
  if decide (ty = VStr "D") then
    name ← getitem channel "name";
    name ← as_str name;
    let user_ids := Py.split name "__" in
    first ← index user_ids 0;
    other_user_id ←
      (if decide (first = my_user_id) then index user_ids 1 else Ok first);
    display ← getitem names other_user_id;
    Ok (<["display_name" := display]> channel)
  else Ok channel.

(** The sort key [x["display_name"].lower()]. *)
Definition sort_key (channel : gmap string value) : result string :=
  dn ← getitem channel "display_name";
  s ← as_str dn;
  Ok (Py.lower s).

Definition select_channel (d : Driver) (team_id my_user_id : string)
    (names : gmap string value) : result (list (gmap string value)) :=
  channels ← get_channels_for_user d my_user_id team_id;
  channels ← mapM (label_channel my_user_id names) channels;
  keys ← mapM sort_key channels;
  Ok (snd <$> Py.sorted fst (zip keys channels)).

(** ** [export_channel] *)

(** The conversion of a date boundary: [if after: after = strptime(after,
    '%Y-%m-%d').timestamp()]. A missing or empty argument is left as it is;
    both are falsy in the filter below and are rendered as [None]. *)
Definition to_instant (h : Host) (arg : option string) : result (option Z) :=
  match arg with
  | Some (String _ _ as s) =>
      dt ← Datetime.strptime s;
      t ← Datetime.timestamp (utcoffset h) dt;
      Ok (Some t)
  | _ => Ok None
  end.

(** [bound and test(bound)]: the test is looked at only for a truthy bound,
    and a number is truthy unless it is zero. *)
Definition and_then (bound : option Z) (test : Z -> bool) : bool :=
  match bound with
  | Some t => if t =? 0 then false else test t
  | None => false
  end.

(** [post["create_at"] / 1000]: true division, kept exact. *)
Definition seconds (ms : Z) : Q := (ms # 1000)%Q.

Definition Qgtb (a b : Q) : bool := negb (Qle_bool a b).
Definition Qltb (a b : Q) : bool := negb (Qle_bool b a).

(** The test of the date filter; [true] means the post is skipped. *)
Definition out_of_range (p : post) (before after : option Z) : bool :=
  let created := seconds (create_at p) in
  and_then before (fun b => Qgtb created (inject_Z b))
  || and_then after (fun a => Qltb created (inject_Z a)).

(** The pagination loop. Besides the posts it returns the page numbers it
    asked for, in the order of the requests. *)
Fixpoint fetch_pages (fuel : nat) (d : Driver) (channel_id : value)
    (page : nat) (all_posts : list post) (asked : list nat)
  : result (list post * list nat) :=
  match fuel with
  | O => OutOfFuel
  | S fuel' =>
      resp ← get_posts_for_channel d channel_id 200 page;
      if (size (posts resp) =? 0)%nat then Ok (all_posts, asked ++ [page])
      else
        fetched ← mapM (getitem (posts resp)) (order resp);
        fetch_pages fuel' d channel_id (S page)
          (all_posts ++ fetched) (asked ++ [page])
  end.

Definition fetch_all_posts (fuel : nat) (d : Driver) (channel_id : value)
  : result (list post * list nat) :=
  fetch_pages fuel d channel_id 0 [] [].

(** The code block of a message, when it has one. *)
Definition extract_code (msg : string) : option string :=
  if (1 <? Py.count msg "```")%nat then
    let start_pos := Py.find msg "```" + 3 in
    let end_pos := Py.rfind msg "```" in
    let cut := Py.slice msg start_pos end_pos in
    if (String.length cut =? 0)%nat then None else Some cut
  else None.

(** [while True: try: d.files.get_file(id); break; except: ...]: asks until
    a request succeeds; returns the count of requests issued by then. *)
Fixpoint get_file_retry (fuel : nat) (d : Driver) (n : nat) (fid : string)
  : result nat :=
  match fuel with
  | O => OutOfFuel
  | S fuel' =>
      if get_file d n fid then Ok (S n)
      else get_file_retry fuel' d (S n) fid
  end.

(** The loop over [post["metadata"]["files"]]: the name of a file is
    appended inside the [if download_files:] block, after its download. *)
Fixpoint attach_files (fuel : nat) (d : Driver) (download_files : bool)
    (n : nat) (fs : list file_info) (filenames : list string)
  : result (list string * nat) :=
  match fs with
  | [] => Ok (filenames, n)
  | file :: fs' =>
      if download_files then
        n' ← get_file_retry fuel d n (file_id file);
        attach_files fuel d download_files n' fs' (filenames ++ [file_name file])
      else attach_files fuel d download_files n fs' filenames
  end.

(** The author's name: from the index, or fetched and added to it. *)
Definition resolve (d : Driver) (names : gmap string value) (user_id : string)
  : result (value * gmap string value) :=
  match names !! user_id with
  | Some name => Ok (name, names)
  | None =>
      user ← get_user d user_id;
      name ← getitem user "username";
      Ok (name, <[user_id := name]> names)
  end.

(** One turn of the loop over [enumerate(reversed(all_posts))]: [None] for a
    post that the date filter skips. *)
Definition simplify_post (fuel : nat) (d : Driver) (download_files : bool)
    (before after : option Z) (st : session) (i_post : nat) (p : post)
  : result (option simple_post * session) :=
  if out_of_range p before after then Ok (None, st)
  else
    '(name, names) ← resolve d (user_id_to_name st) (post_user_id p);
    dt ← Datetime.utcfromtimestamp (create_at p / 1000);
    let sp := mk_simple i_post (post_id p) (Datetime.strftime dt) name
                (message p) (extract_code (message p)) in
    match metadata_files p with
    | Some fs =>
        '(filenames, n) ← attach_files fuel d download_files (file_requests st) fs [];
        Ok (Some (sp (Some filenames)), mk_session names n)
    | None => Ok (Some (sp None), mk_session names (file_requests st))
    end.

Fixpoint simplify_posts (fuel : nat) (d : Driver) (download_files : bool)
    (before after : option Z) (st : session) (i_post : nat) (ps : list post)
    (simple_posts : list simple_post) : result (list simple_post * session) :=
  match ps with
  | [] => Ok (simple_posts, st)
  | p :: ps' =>
      '(sp, st') ← simplify_post fuel d download_files before after st i_post p;
      simplify_posts fuel d download_files before after st' (S i_post) ps'
        (match sp with
         | Some sp => simple_posts ++ [sp]
         | None => simple_posts
         end)
  end.

(** The channel block of the document; the export time is read from the
    local clock with [datetime.now()]. *)
Definition assemble (h : Host) (d : Driver) (channel : gmap string value)
    (simple_posts : list simple_post) : result output :=
  name ← getitem channel "name";
  display_name ← getitem channel "display_name";
  header ← getitem channel "header";
  cid ← getitem channel "id";
  team_id ← getitem channel "team_id";
  team ← get_team d team_id;
  team_name ← getitem team "name";
  team_id ← getitem channel "team_id";
  now ← Datetime.fromtimestamp (utcoffset h (clock h)) (clock h);
  Ok (mk_output
        (mk_block name display_name header cid team_name team_id
           (Datetime.strftime now))
        simple_posts).

Definition export_channel (fuel : nat) (h : Host) (d : Driver) (st : session)
    (channel : gmap string value) (download_files : bool)
    (before after : option string) : result (output * session) :=
  dn ← getitem channel "display_name";
  _ ← as_str dn;
  after ← to_instant h after;
  before ← to_instant h before;
  cid ← getitem channel "id";
  '(all_posts, _) ← fetch_all_posts fuel d cid;
  '(simple_posts, st') ←
    simplify_posts fuel d download_files before after st 0 (reverse all_posts) [];
  out ← assemble h d channel simple_posts;
  Ok (out, st').

(** ** A collaborator for the tests of the specification *)

(** The page with number [page] of a channel that holds the posts [ps],
    newest first, served [per_page] posts at a time. *)
Definition serve (ps : list post) (per_page page : nat) : posts_page :=
  let chunk := take per_page (drop (page * per_page) ps) in
  mk_page (post_id <$> chunk)
          (list_to_map ((fun p => (post_id p, p)) <$> chunk)).

(** A server with the channels [chans], the posts [ps] in every channel,
    the users [users], one team, and file requests that fail [flaky] times
    before they go through. *)
Definition fake_driver (chans : list (gmap string value)) (ps : list post)
    (users : gmap string value) (flaky : nat) : Driver :=
  mk_driver
    (fun _ _ => Ok chans)
    (fun _ per_page page => Ok (serve ps per_page page))
    (fun uid =>
       match users !! uid with
       | Some name => Ok {[ "username" := name ]}
       | None => Raise (DriverError "NotFound")
       end)
    (fun _ => Ok {[ "name" := VStr "team" ]})
    (fun n _ => (flaky <=? n)%nat).

(** [ceil(n / p)] *)
Definition ceil_div (n p : nat) : nat := ((n + p - 1) / p)%nat.

(** [enumerate(l, start=i)] *)
Fixpoint enumerate_from {A : Type} (i : nat) (l : list A) : list (nat * A) :=
  match l with
  | [] => []
  | x :: l' => (i, x) :: enumerate_from (S i) l'
  end.

(** The posts of [ps] that pass the date filter, each with its position
    in [ps]. *)
Definition retained (before after : option Z) (ps : list post)
  : list (nat * post) :=
  List.filter (fun ip => negb (out_of_range (snd ip) before after))
              (enumerate_from 0 ps).

(** [exported_as download_files i p sp]: the record [sp] is what the loop
    builds from the post [p] at the position [i]. *)
Definition exported_as (download_files : bool) (i : nat) (p : post)
    (sp : simple_post) : Prop :=
  idx sp = i
  /\ id sp = post_id p
  /\ Datetime.strftime <$> Datetime.utcfromtimestamp (create_at p / 1000)
     = Ok (created sp)
  /\ sp_message sp = message p
  /\ code sp = extract_code (message p)
  /\ files sp = (fun fs => if download_files then file_name <$> fs else [])
                  <$> metadata_files p.

(** [free_of c s]: the character [c] does not occur in [s]. *)
Fixpoint free_of (c : ascii) (s : string) : bool :=
  match s with
  | EmptyString => true
  | String c' s' => negb (Ascii.eqb c c') && free_of c s'
  end.

(** What channel listing may change in a channel: nothing but the value
    under ["display_name"], and nothing at all unless the type is ["D"]. *)
Definition frame (channel channel' : gmap string value) : Prop :=
  (forall k, k <> "display_name" -> channel' !! k = channel !! k)
  /\ (channel !! "type" <> Some (VStr "D") -> channel' = channel).

(** ** Sample data *)

Definition sample_channel : gmap string value :=
  {[ "id" := VStr "c1"; "name" := VStr "town-square";
     "display_name" := VStr "Town Square"; "header" := VStr "news";
     "team_id" := VStr "t1"; "type" := VStr "O" ]}.

Definition sample_users : gmap string value :=
  {[ "u1" := VStr "alice"; "u2" := VStr "bob" ]}.

(** Three posts, newest first: 3, 2 and 1 January 2024, midnight UTC. *)
Definition sample_posts : list post :=
  [ mk_post "p3" "u2" 1704240000000 "see ```x = 1``` above" None;
    mk_post "p2" "u1" 1704153600000 "two files"
      (Some [mk_file "f1" "a.txt"; mk_file "f2" "b.png"]);
    mk_post "p1" "u1" 1704067200000 "hello" None ].

(** The sample server; a file request fails twice before it goes through. *)
Definition sample_driver : Driver := fake_driver [] sample_posts sample_users 2.

Definition sample_session : session := mk_session sample_users 0.

(** A host on UTC, and one an hour ahead of it, both read at the epoch. *)
Definition utc_host : Host := mk_host (fun _ => 0) 0.
Definition cet_host : Host := mk_host (fun _ => 3600) 0.

(** Direct-message channels: a well-formed one, one whose name has a
    single part, and one between two users other than the caller. *)
Definition dm_channel : gmap string value :=
  {[ "type" := VStr "D"; "name" := VStr "u1__u2";
     "display_name" := VStr EmptyString ]}.

Definition dm_one_part : gmap string value :=
  {[ "type" := VStr "D"; "name" := VStr "u2";
     "display_name" := VStr EmptyString ]}.

Definition dm_strangers : gmap string value :=
  {[ "type" := VStr "D"; "name" := VStr "u2__u3";
     "display_name" := VStr EmptyString ]}.

(** [occurs_at sub s i]: an occurrence of [sub] starts at the index [i]
    of [s]. *)
Definition occurs_at (sub s : string) (i : nat) : bool :=
  Py.startswith sub (Py.drop i s).

(** A channel with [n] posts, newest first, one second apart. *)
Definition numbered_posts (n : nat) : list post :=
  (fun i => mk_post (Datetime.pad4 (Z.of_nat i)) "u1"
              (Z.of_nat (n - i) * 1000) "post" None) <$> seq 0 n.

Definition many_driver : Driver :=
  fake_driver [] (numbered_posts 201) sample_users 0.

(** The listing of the sample channel and the well-formed direct-message
    channel for the caller [u1], and the server that holds them. *)
Definition listing_driver : Driver :=
  fake_driver [sample_channel; dm_channel] [] sample_users 0.

Definition sample_listing : list (gmap string value) :=
  [ <["display_name" := VStr "bob"]> dm_channel; sample_channel ].

(** The export of the sample channel on the host on UTC, with downloads and
    without boundaries. *)
Definition sample_output : output :=
  mk_output
    (mk_block (VStr "town-square") (VStr "Town Square") (VStr "news")
       (VStr "c1") (VStr "team") (VStr "t1") "1970-01-01T00:00:00Z")
    [ mk_simple 0 "p1" "2024-01-01T00:00:00Z" (VStr "alice") "hello" None None;
      mk_simple 1 "p2" "2024-01-02T00:00:00Z" (VStr "alice") "two files" None
        (Some ["a.txt"; "b.png"]);
      mk_simple 2 "p3" "2024-01-03T00:00:00Z" (VStr "bob")
        "see ```x = 1``` above" (Some "x = 1") None ].

(** The same export without downloads and with [after = 2024-01-02]. *)
Definition bounded_output : output :=
  mk_output
    (mk_block (VStr "town-square") (VStr "Town Square") (VStr "news")
       (VStr "c1") (VStr "team") (VStr "t1") "1970-01-01T00:00:00Z")
    [ mk_simple 1 "p2" "2024-01-02T00:00:00Z" (VStr "alice") "two files" None
        (Some []);
      mk_simple 2 "p3" "2024-01-03T00:00:00Z" (VStr "bob")
        "see ```x = 1``` above" (Some "x = 1") None ].

(** ** The session: [connect], [get_users], [select_team] and the endpoint *)

(** The endpoints that the rest of [app.py] calls, besides those of
    [Driver]: [d.login()], [d.users.get_users], [d.teams.get_user_teams]
    and [d.channels.get_channel]. *)
Record Client : Type := mk_client {
  driver : Driver;
  login : result unit;
  list_users : nat -> nat -> result (list (gmap string value));
  get_user_teams : string -> result (list (gmap string value));
  get_channel : string -> result (gmap string value)
}.

(** The servers that can be reached: the client that [Driver({...})] gives
    for a host (on port 443), a token, a user name and a password. *)
Definition Network : Type :=
  string -> option string -> option string -> option string -> Client.

Definition connect (net : Network) (host : string)
    (login_token username password : option string) : result Client :=
  let d := net host login_token username password in
  _ ← login d;
  Ok d.

(** An identifier used as a key of the user index. The identifiers of the
    chat server are JSON strings and the index is keyed by strings; an
    identifier of another JSON type is outside the embedding and is
    rendered as [TypeError]. *)
Definition as_key (v : value) : result string :=
  match v with
  | VStr s => Ok s
  | _ => Raise TypeError
  end.

(** [for user in users_resp: user_id_to_name[user["id"]] = user["username"]]:
    the right-hand side is evaluated before the subscript. *)
Fixpoint add_users (users_resp : list (gmap string value))
    (names : gmap string value) : result (gmap string value) :=
  match users_resp with
  | [] => Ok names
  | user :: rest =>
      name ← getitem user "username";
      uid ← getitem user "id";
      uid ← as_key uid;
      add_users rest (<[uid := name]> names)
  end.

(** The loop of [get_users] over the pages of users; besides the index it
    returns the page numbers it asked for. *)
Fixpoint users_pages (fuel : nat) (c : Client) (page : nat)
    (names : gmap string value) (asked : list nat)
  : result (gmap string value * list nat) :=
  match fuel with
  | O => OutOfFuel
  | S fuel' =>
      users_resp ← list_users c 200 page;
      if (length users_resp =? 0)%nat then Ok (names, asked ++ [page])
      else
        names' ← add_users users_resp names;
        users_pages fuel' c (S page) names' (asked ++ [page])
  end.

Definition get_users (fuel : nat) (c : Client)
  : result (gmap string value * string) :=
  my_user ← get_user (driver c) "me";
  _ ← getitem my_user "username";
  my_user_id ← getitem my_user "id";
  my_user_id ← as_key my_user_id;
  '(names, _) ← users_pages fuel c 0 ∅ [];
  Ok (names, my_user_id).

Definition select_team (c : Client) (my_user_id : string)
  : result (list (gmap string value)) :=
  teams ← get_user_teams c my_user_id;
  Ok teams.

(** The body of a request to [/export]: [None] stands for a key that the
    JSON object does not have. *)
Record config : Type := mk_config {
  cfg_host : option string;
  cfg_token : option string;
  cfg_username : option string;
  cfg_password : option string;
  cfg_download_files : option bool;
  cfg_before : option string;
  cfg_after : option string
}.

Record job : Type := mk_job {
  job_config : option config;
  job_team_id : option string;
  job_channels : option (list string)
}.

(** [config[k]] *)
Definition required {A : Type} (k : string) (field : option A) : result A :=
  match field with
  | Some x => Ok x
  | None => Raise (KeyError k)
  end.

(** The loop of the endpoint over the requested channel ids. [hosts i] is
    the host as it is when the [i]-th channel is exported. *)
Fixpoint export_loop (fuel : nat) (hosts : nat -> Host) (c : Client)
    (cfg : config) (st : session) (i : nat) (channels : list string)
    (results : list output) : result (list output * session) :=
  match channels with
  | [] => Ok (results, st)
  | channel_id :: rest =>
      channel ← get_channel c channel_id;
      download_files ← required "download_files" (cfg_download_files cfg);
      '(out, st') ←
        export_channel fuel (hosts i) (driver c) st channel download_files
          (cfg_before cfg) (cfg_after cfg);
      export_loop fuel hosts c cfg st' (S i) rest (results ++ [out])
  end.

(** The endpoint [export]. [data.get('config')] is [None] when the key is
    missing, and subscripting [None] is a [TypeError], as is the loop over
    a missing list of channels. *)
Definition export (fuel : nat) (net : Network) (hosts : nat -> Host)
    (data : job) : result (list output) :=
  cfg ← match job_config data with
        | Some cfg => Ok cfg
        | None => Raise TypeError
        end;
  host ← required "host" (cfg_host cfg);
  d ← connect net host (cfg_token cfg) (cfg_username cfg) (cfg_password cfg);
  '(names, _) ← get_users fuel d;
  channels ← match job_channels data with
             | Some channels => Ok channels
             | None => Raise TypeError
             end;
  '(results, _) ← export_loop fuel hosts d cfg (mk_session names 0) 0 channels [];
  Ok results.

(** The page with number [page] of a server with the users [us]. *)
Definition serve_users (us : list (gmap string value)) (per_page page : nat)
  : list (gmap string value) :=
  take per_page (drop (page * per_page) us).

(** The index that the assignments [names[id] = username] build from the
    pairs [(id, username)], in order: a later pair overrides an earlier one
    with the same id. *)
Definition index_of (pairs : list (string * value)) (names : gmap string value)
  : gmap string value :=
  foldl (fun m kv => <[fst kv := snd kv]> m) names pairs.

(** The user record [{"id": uid, "username": name}]. *)
Definition user_record (kv : string * value) : gmap string value :=
  {[ "id" := VStr (fst kv); "username" := snd kv ]}.

(** [key_le a b]: the string [a] does not come after [b] in the order in
    which Python compares strings. *)
Definition key_le (a b : string) : Prop := String.ltb b a = false.

(** [has_key k channel]: the sort key of [channel] is [k]. *)
Definition has_key (k : string) (channel : gmap string value) : bool :=
  match sort_key channel with
  | Ok k' => String.eqb k' k
  | _ => false
  end.

(** The number of file names listed in a sequence of exported records. *)
Definition listed_files (sps : list simple_post) : nat :=
  sum_list ((fun sp => length (default [] (files sp))) <$> sps).

(** [grown d names names']: the index [names'] holds [names] and, besides,
    only names that [get_user] gives. *)
Definition grown (d : Driver) (names names' : gmap string value) : Prop :=
  names ⊆ names'
  /\ forall k v, names' !! k = Some v ->
       names !! k = Some v
       \/ exists user, get_user d k = Ok user /\ user !! "username" = Some v.

(** [sep.join(parts)] *)
Definition join (sep : string) (parts : list string) : string :=
  String.concat sep parts.

(** ** More sample data *)

(** A server like the sample one, but for its pages of posts and the
    outcome of its file requests. *)
Definition driver_with (pages : nat -> nat -> result posts_page)
    (files : nat -> string -> bool) : Driver :=
  mk_driver (get_channels_for_user sample_driver) (fun _ => pages)
    (get_user sample_driver) (get_team sample_driver) files.

(** Every file request fails. *)
Definition offline_files_driver : Driver :=
  driver_with (fun per_page page => Ok (serve sample_posts per_page page))
    (fun _ _ => false).

(** Every page is the first page of the sample posts. *)
Definition endless_driver : Driver :=
  driver_with (fun per_page _ => Ok (serve sample_posts per_page 0))
    (fun _ _ => true).

(** The first page is served, every other page fails. *)
Definition failing_driver : Driver :=
  driver_with
    (fun per_page page =>
       if (page =? 0)%nat then Ok (serve sample_posts per_page 0)
       else Raise (DriverError "FetchFailed"))
    (fun _ _ => true).

Definition sample_pairs : list (string * value) :=
  [("u1", VStr "alice"); ("u2", VStr "bob")].

(** The sample server as the session sees it: [me] is the user [u1]. *)
Definition me_driver : Driver :=
  mk_driver (get_channels_for_user sample_driver)
    (get_posts_for_channel sample_driver)
    (fun uid =>
       if String.eqb uid "me" then Ok (user_record ("u1", VStr "alice"))
       else get_user sample_driver uid)
    (get_team sample_driver) (get_file sample_driver).

Definition client_of (d : Driver) : Client :=
  mk_client d (Ok tt)
    (fun per_page page => Ok (serve_users (user_record <$> sample_pairs) per_page page))
    (fun _ => Ok [ {[ "id" := VStr "t1"; "name" := VStr "team" ]} ])
    (fun cid =>
       if String.eqb cid "c1" then Ok sample_channel
       else Raise (DriverError "NotFound")).

Definition sample_client : Client := client_of me_driver.

(** A client whose [me] record has an id and no name. *)
Definition nameless_client : Client :=
  client_of (mk_driver (get_channels_for_user sample_driver)
               (get_posts_for_channel sample_driver)
               (fun _ => Ok {[ "id" := VStr "u1" ]})
               (get_team sample_driver) (get_file sample_driver)).

Definition sample_network : Network := fun _ _ _ _ => sample_client.

Definition sample_config (download_files : option bool) : config :=
  mk_config (Some "chat.example.org") (Some "token") None None
    download_files None None.

(** The export of the sample channel without downloads and without
    boundaries. *)
Definition plain_output : output :=
  mk_output
    (mk_block (VStr "town-square") (VStr "Town Square") (VStr "news")
       (VStr "c1") (VStr "team") (VStr "t1") "1970-01-01T00:00:00Z")
    [ mk_simple 0 "p1" "2024-01-01T00:00:00Z" (VStr "alice") "hello" None None;
      mk_simple 1 "p2" "2024-01-02T00:00:00Z" (VStr "alice") "two files" None
        (Some []);
      mk_simple 2 "p3" "2024-01-03T00:00:00Z" (VStr "bob")
        "see ```x = 1``` above" (Some "x = 1") None ].

(** Two channels whose display names differ in case only, and the server
    that holds them after the sample channel. *)
Definition channel_named (cid display_name : string) : gmap string value :=
  {[ "id" := VStr cid; "name" := VStr cid; "type" := VStr "O";
     "display_name" := VStr display_name ]}.



(** Display names with an accented letter: the capital E with acute accent
    is the code point 201, and its small letter the code point 233. The
    server lists four channels, two of which differ in case only. *)
Definition e_acute_capital : string := String (ascii_of_nat 201) EmptyString.
Definition e_acute : string := String (ascii_of_nat 233) EmptyString.

Definition accent_driver : Driver :=
  fake_driver
    [ channel_named "c1" (e_acute_capital +:+ "z");
      channel_named "c2" (e_acute +:+ "a");
      channel_named "c3" e_acute_capital;
      channel_named "c4" e_acute ]
    [] sample_users 0.

Definition accent_listing : list (gmap string value) :=
  [ channel_named "c3" e_acute_capital;
    channel_named "c4" e_acute;
    channel_named "c2" (e_acute +:+ "a");
    channel_named "c1" (e_acute_capital +:+ "z") ].



(** The text [YYYY-MM-DD] of a date. *)
Definition iso_date (y m d : Z) : string :=
  Datetime.pad4 y +:+ "-" +:+ Datetime.pad2 m +:+ "-" +:+ Datetime.pad2 d.

(** A zone with daylight saving: three hours behind UTC, and two hours
    behind it from the instant 1541300400 on, which is midnight of
    4 November 2018 on its clock. *)
Definition summer_zone : Datetime.zone :=
  fun u => if u <? 1541300400 then -10800 else -7200.

(** * Properties *)

(** ** The built-ins on small inputs *)

Example find_first : Py.find "hello ```code``` world" "```" = 6.
Proof. reflexivity. Qed.

Example find_absent : Py.find "hello" "```" = -1.
Proof. reflexivity. Qed.

Example rfind_last : Py.rfind "hello ```code``` world" "```" = 13.
Proof. reflexivity. Qed.

Example count_no_overlap : Py.count "````````" "```" = 2%nat.
Proof. reflexivity. Qed.

Example split_two : Py.split "u1__u2" "__" = ["u1"; "u2"].
Proof. reflexivity. Qed.

Example split_left_to_right :
  Py.split "a___b__" "__" = ["a"; "_b"; EmptyString].
Proof. reflexivity. Qed.

Example slice_between : Py.slice "hello ```code``` world" 9 13 = "code".
Proof. reflexivity. Qed.

Example sorted_stable :
  Py.sorted Py.lower ["b"; "A"; "a"; "C"] = ["A"; "a"; "b"; "C"].
Proof. reflexivity. Qed.

Example sorted_accented :
  Py.sorted Py.lower
    [String (ascii_of_nat 233) "a"; String (ascii_of_nat 201) "z"]
  = [String (ascii_of_nat 233) "a"; String (ascii_of_nat 201) "z"].
Proof. reflexivity. Qed.

Example select_channel_accented :
  select_channel accent_driver "t1" "u1" sample_users = Ok accent_listing
  /\ List.filter (has_key e_acute) accent_listing
     = [channel_named "c3" e_acute_capital; channel_named "c4" e_acute].
Proof. split; vm_compute; reflexivity. Qed.

Example strftime_2023 :
  Datetime.strftime <$> Datetime.utcfromtimestamp 1700000000
  = Ok "2023-11-14T22:13:20Z".
Proof. reflexivity. Qed.

Example strftime_before_epoch :
  Datetime.strftime <$> Datetime.utcfromtimestamp (-1)
  = Ok "1969-12-31T23:59:59Z".
Proof. reflexivity. Qed.

Example strftime_short_year :
  Datetime.strftime (Datetime.mk_datetime 999 1 2 0 0 0) = "999-01-02T00:00:00Z".
Proof. reflexivity. Qed.

Example lower_accented :
  Py.lower (String (ascii_of_nat 201) "COLE") = String (ascii_of_nat 233) "cole".
Proof. reflexivity. Qed.

Example strptime_utc :
  Datetime.strptime "2023-11-14" ≫= Datetime.timestamp (fun _ => 0)
  = Ok 1699920000.
Proof. reflexivity. Qed.

Example strptime_unpadded_east :
  Datetime.strptime "1970-1-1" ≫= Datetime.timestamp (fun _ => 3600)
  = Ok (-3600).
Proof. reflexivity. Qed.

Example timestamp_first_day :
  Datetime.strptime "0001-01-01" ≫= Datetime.timestamp (fun _ => 0)
  = Raise ValueError.
Proof. reflexivity. Qed.

Example timestamp_second_day :
  Datetime.strptime "0001-01-02" ≫= Datetime.timestamp (fun _ => 0)
  = Ok (-62135510400).
Proof. reflexivity. Qed.

Example timestamp_skipped_midnight :
  Datetime.strptime "2018-11-04" ≫= Datetime.timestamp summer_zone
  = Ok 1541300400
  /\ Datetime.strftime <$> Datetime.fromtimestamp (summer_zone 1541300400) 1541300400
     = Ok "2018-11-04T01:00:00Z".
Proof. split; reflexivity. Qed.

Example timestamp_day_after_change :
  Datetime.strptime "2018-11-05" ≫= Datetime.timestamp summer_zone
  = Ok 1541383200.
Proof. reflexivity. Qed.

Example strptime_no_such_day : Datetime.strptime "2023-02-29" = Raise ValueError.
Proof. reflexivity. Qed.

Example strptime_leap_day :
  Datetime.strptime "2024-02-29" ≫= Datetime.timestamp (fun _ => 0)
  = Ok 1709164800.
Proof. reflexivity. Qed.

Example export_sample :
  export_channel 10 utc_host sample_driver sample_session sample_channel
    true None None
  = Ok (sample_output, mk_session sample_users 4).
Proof. vm_compute. reflexivity. Qed.

Example export_out_of_fuel :
  export_channel 1 utc_host sample_driver sample_session sample_channel
    true None None
  = OutOfFuel.
Proof. vm_compute. reflexivity. Qed.

(** ** Helper lemmas on [result] and [mapM] *)

Lemma bind_Ok {A B : Type} (a : A) (k : A -> result B) : (Ok a ≫= k) = k a.
Proof. reflexivity. Qed.

(** Runs the binds and lookups whose outcome is known. *)
Ltac run :=
  repeat first
    [ rewrite bind_Ok
    | progress cbn [mbind result_bind mret result_ret fmap result_fmap
                    getitem index as_str lookup list_lookup] ].

Lemma mapM_length {A B : Type} (f : A -> result B) (l : list A) (ys : list B) :
  mapM f l = Ok ys -> length ys = length l.
Proof.
  revert ys. induction l as [|x l IH]; intros ys; simpl.
  - intros [= <-]. reflexivity.
  - destruct (f x) as [y| |]; try discriminate. simpl.
    destruct (mapM f l) as [zs| |]; try discriminate. simpl.
    intros [= <-]. simpl. f_equal. now apply IH.
Qed.

Lemma mapM_total {A B : Type} (f : A -> result B) (l : list A) :
  (forall x, x ∈ l -> exists y, f x = Ok y) -> exists ys, mapM f l = Ok ys.
Proof.
  induction l as [|x l IH]; intros H; simpl.
  - now exists [].
  - destruct (H x) as [y Hy]; [left|]. rewrite Hy. simpl.
    destruct IH as [ys Hys]. { intros z Hz. apply H. now right. }
    rewrite Hys. simpl. now exists (y :: ys).
Qed.

Lemma mapM_Forall2 {A B : Type} (f : A -> result B) (l : list A) (ys : list B) :
  mapM f l = Ok ys -> Forall2 (fun x y => f x = Ok y) l ys.
Proof.
  revert ys. induction l as [|x l IH]; intros ys; simpl.
  - intros [= <-]. constructor.
  - destruct (f x) as [y| |] eqn:E; try discriminate. simpl.
    destruct (mapM f l) as [zs| |]; try discriminate. simpl.
    intros [= <-]. constructor; auto.
Qed.

Lemma mapM_section {A B : Type} (f : A -> result B) (g : B -> A) (l : list B) :
  (forall x, x ∈ l -> f (g x) = Ok x) -> mapM f (g <$> l) = Ok l.
Proof.
  induction l as [|x l IH]; intros H; csimpl; [reflexivity|].
  rewrite H by left. csimpl. rewrite IH; [reflexivity|].
  intros y Hy. apply H. now right.
Qed.

(** ** Pagination *)

Lemma ceil_div_gt (n page : nat) :
  (page < ceil_div n 200)%nat <-> (page * 200 < n)%nat.
Proof.
  unfold ceil_div.
  pose proof (Nat.div_mod_eq (n + 200 - 1) 200) as E.
  pose proof (Nat.mod_upper_bound (n + 200 - 1) 200) as B.
  lia.
Qed.

Section Pagination.

Variable d : Driver.
Variable cid : value.
Variable ps : list post.
Hypothesis served :
  forall page, get_posts_for_channel d cid 200 page = Ok (serve ps 200 page).

Lemma serve_size_zero page :
  size (posts (serve ps 200 page)) = 0%nat <-> (length ps <= page * 200)%nat.
Proof.
  unfold serve. simpl. rewrite map_size_empty_iff.
  destruct (take 200 (drop (page * 200) ps)) as [|p chunk] eqn:E.
  - simpl. split; [intros _|reflexivity].
    apply (f_equal length) in E. rewrite length_take, length_drop in E.
    change (length (@nil post)) with 0%nat in E. lia.
  - split.
    + simpl. intros H. exfalso. revert H. apply insert_non_empty.
    + intros H. rewrite drop_ge in E by lia. now rewrite take_nil in E.
Qed.

Lemma serve_expand page :
  exists fetched,
    mapM (getitem (posts (serve ps 200 page))) (order (serve ps 200 page))
      = Ok fetched
    /\ length fetched = length (take 200 (drop (page * 200) ps))
    /\ (NoDup (post_id <$> ps) -> fetched = take 200 (drop (page * 200) ps)).
Proof.
  unfold serve. simpl.
  set (chunk := take 200 (drop (page * 200) ps)).
  destruct (mapM_total
              (getitem (list_to_map ((fun p => (post_id p, p)) <$> chunk) : gmap string post))
              (post_id <$> chunk)) as [fetched Hf].
  { intros k Hk. unfold getitem.
    destruct (list_to_map _ !! k) as [v|] eqn:E; [now exists v|].
    exfalso. apply not_elem_of_list_to_map in E. apply E.
    rewrite <- list_fmap_compose. exact Hk. }
  exists fetched. split; [exact Hf|]. split.
  - rewrite (mapM_length _ _ _ Hf). now rewrite length_fmap.
  - intros Hnd.
    assert (Hc : NoDup (post_id <$> chunk)).
    { unfold chunk. rewrite fmap_take, fmap_drop.
      eapply sublist_NoDup; [exact Hnd|].
      etransitivity; [apply sublist_take|apply sublist_drop]. }
    rewrite mapM_section in Hf; [now injection Hf|].
    intros p Hp. unfold getitem.
    erewrite elem_of_list_to_map_1; [reflexivity| |].
    + now rewrite <- list_fmap_compose.
    + apply list_elem_of_fmap. now exists p.
Qed.

Lemma fetch_pages_served (n : nat) :
  forall page all_posts asked fuel,
    (n + page)%nat = ceil_div (length ps) 200 ->
    (n < fuel)%nat ->
    exists all_posts',
      fetch_pages fuel d cid page all_posts asked
        = Ok (all_posts', asked ++ seq page (S n))
      /\ length all_posts' = (length all_posts + (length ps - page * 200))%nat
      /\ (NoDup (post_id <$> ps) ->
          all_posts' = all_posts ++ drop (page * 200) ps).
Proof.
  induction n as [|n IH]; intros page all_posts asked fuel Hn Hfuel;
    (destruct fuel as [|fuel]; [lia|]); simpl fetch_pages;
    rewrite served, bind_Ok.
  - assert (Hz : size (posts (serve ps 200 page)) = 0%nat).
    { apply serve_size_zero.
      pose proof (ceil_div_gt (length ps) page). lia. }
    rewrite Hz. exists all_posts. split; [reflexivity|].
    apply serve_size_zero in Hz. split; [lia|].
    intros _. rewrite drop_ge by lia. now rewrite app_nil_r.
  - assert (Hlt : (page * 200 < length ps)%nat).
    { apply ceil_div_gt. lia. }
    destruct (size (posts (serve ps 200 page)) =? 0)%nat eqn:Hz.
    { apply Nat.eqb_eq, serve_size_zero in Hz. lia. }
    destruct (serve_expand page) as (fetched & -> & Hlen & Heq).
    rewrite bind_Ok.
    destruct (IH (S page) (all_posts ++ fetched) (asked ++ [page]) fuel)
      as (all' & -> & Hlen' & Heq'); [lia|lia|].
    exists all'. split; [|split].
    + now rewrite <- app_assoc.
    + rewrite Hlen', length_app, Hlen, length_take, length_drop. lia.
    + intros Hnd. rewrite (Heq' Hnd), (Heq Hnd), <- app_assoc. f_equal.
      replace (S page * 200)%nat with (page * 200 + 200)%nat by lia.
      rewrite <- drop_drop. apply take_drop.
Qed.

End Pagination.

(** C1. A collaborator that serves the [N] posts of a channel 200 to a page
    is asked for the pages [0, 1, ..., ceil(N/200)], in this order and once
    each, that is [ceil(N/200) + 1] requests; every page before the last
    one holds posts, the last one holds none and ends the loop. The posts
    come back [N] in number, and as served when their ids are distinct. *)
Theorem fetch_all_posts_page_count (d : Driver) (cid : value) (ps : list post)
    (fuel : nat) :
  (forall page, get_posts_for_channel d cid 200 page = Ok (serve ps 200 page)) ->
  (ceil_div (length ps) 200 < fuel)%nat ->
  exists all_posts asked,
    fetch_all_posts fuel d cid = Ok (all_posts, asked)
    /\ asked = seq 0 (ceil_div (length ps) 200 + 1)
    /\ length asked = (ceil_div (length ps) 200 + 1)%nat
    /\ (forall page, (page < ceil_div (length ps) 200)%nat ->
          size (posts (serve ps 200 page)) <> 0%nat)
    /\ size (posts (serve ps 200 (ceil_div (length ps) 200))) = 0%nat
    /\ length all_posts = length ps
    /\ (NoDup (post_id <$> ps) -> all_posts = ps).
Proof.
  intros Hserved Hfuel.
  destruct (fetch_pages_served d cid ps Hserved (ceil_div (length ps) 200)
              0%nat [] [] fuel) as (all' & Hrun & Hlen & Heq); [lia|lia|].
  exists all', (seq 0 (ceil_div (length ps) 200 + 1)).
  split; [|split; [|split; [|split; [|split; [|split]]]]].
  - unfold fetch_all_posts. rewrite Hrun.
    now rewrite Nat.add_1_r.
  - reflexivity.
  - apply length_seq.
  - intros page Hp Hz. apply serve_size_zero in Hz.
    apply ceil_div_gt in Hp. lia.
  - apply serve_size_zero.
    pose proof (ceil_div_gt (length ps) (ceil_div (length ps) 200)). lia.
  - simpl in Hlen. lia.
  - intros Hnd. now rewrite (Heq Hnd).
Qed.

(** The counts named in the specification: 1 request for no post, 2 for one
    post and for 200 posts, 3 for 201 posts. *)
Lemma page_count_examples :
  (ceil_div 0 200 + 1 = 1 /\ ceil_div 1 200 + 1 = 2
   /\ ceil_div 200 200 + 1 = 2 /\ ceil_div 201 200 + 1 = 3)%nat.
Proof. repeat split. Qed.


(** ** Channel listing *)

Lemma insert_by_Permutation {A : Type} (key : A -> string) (x : A) (l : list A) :
  Py.insert_by key x l ≡ₚ x :: l.
Proof.
  induction l as [|y l IH]; simpl; [reflexivity|].
  destruct (String.ltb (key y) (key x)); [|reflexivity].
  rewrite IH. apply Permutation_swap.
Qed.

Lemma sorted_Permutation {A : Type} (key : A -> string) (l : list A) :
  Py.sorted key l ≡ₚ l.
Proof.
  induction l as [|x l IH]; simpl; [reflexivity|].
  unfold Py.sorted in *. simpl. rewrite insert_by_Permutation. now rewrite IH.
Qed.

Lemma mapM_elem_of {A B : Type} (f : A -> result B) (l : list A) (ys : list B) (x : A) :
  mapM f l = Ok ys -> x ∈ l -> exists y, f x = Ok y /\ y ∈ ys.
Proof.
  intros H Hx. apply mapM_Forall2 in H.
  induction H as [|a b l ys Hab H IH]; [now apply elem_of_nil in Hx|].
  apply elem_of_cons in Hx as [->|Hx].
  - exists b. split; [exact Hab|left].
  - destruct (IH Hx) as (y & Hy & Hin). exists y. split; [exact Hy|now right].
Qed.

(** What a successful listing returns: the fetched channels, labelled one
    by one, in some order. *)
Lemma select_channel_inv (d : Driver) (team_id my_user_id : string)
    (names : gmap string value) (listed : list (gmap string value)) :
  select_channel d team_id my_user_id names = Ok listed ->
  exists fetched labelled,
    get_channels_for_user d my_user_id team_id = Ok fetched
    /\ mapM (label_channel my_user_id names) fetched = Ok labelled
    /\ listed ≡ₚ labelled.
Proof.
  unfold select_channel.
  destruct (get_channels_for_user d my_user_id team_id) as [fetched| |];
    try discriminate.
  rewrite bind_Ok.
  destruct (mapM (label_channel my_user_id names) fetched) as [labelled| |]
    eqn:Hl; try discriminate.
  rewrite bind_Ok.
  destruct (mapM sort_key labelled) as [keys| |] eqn:Hk; try discriminate.
  rewrite bind_Ok. intros [= <-].
  exists fetched, labelled. split; [reflexivity|]. split; [exact Hl|].
  rewrite sorted_Permutation.
  rewrite snd_zip; [reflexivity|].
  apply mapM_length in Hk. lia.
Qed.

(** C5. A direct-message channel whose raw name splits on ["__"] into the
    two identifiers [u1] and [u2], one of them the caller's, is labelled
    with the name that the user index holds for the other one: [u2]'s for
    the caller [u1], [u1]'s for the caller [u2]. The labelling of the
    channel yields this result, and the listing returned for a fetched
    list with this channel contains the channel so labelled. *)
Theorem dm_display_name (d : Driver) (team_id my_user_id : string)
    (names : gmap string value) (fetched listed : list (gmap string value))
    (channel : gmap string value) (raw u1 u2 : string) (uname : value) :
  channel !! "type" = Some (VStr "D") ->
  channel !! "name" = Some (VStr raw) ->
  Py.split raw "__" = [u1; u2] ->
  my_user_id = u1 \/ my_user_id = u2 ->
  names !! (if decide (u1 = my_user_id) then u2 else u1) = Some uname ->
  get_channels_for_user d my_user_id team_id = Ok fetched ->
  channel ∈ fetched ->
  select_channel d team_id my_user_id names = Ok listed ->
  label_channel my_user_id names channel
    = Ok (<["display_name" := uname]> channel)
  /\ <["display_name" := uname]> channel ∈ listed.
Proof.
  intros Hty Hname Hsplit Hmine Hother Hfetch Hin Hsel.
  assert (Hlabel : label_channel my_user_id names channel
                   = Ok (<["display_name" := uname]> channel)).
  { unfold label_channel, getitem. rewrite Hty. run.
    rewrite decide_True by reflexivity.
    rewrite Hname. run. rewrite Hsplit. run.
    destruct (decide (u1 = my_user_id)) as [E|E]; run; now rewrite Hother. }
  split; [exact Hlabel|].
  destruct (select_channel_inv _ _ _ _ _ Hsel) as (f' & labelled & Hf' & Hmap & Hperm).
  rewrite Hfetch in Hf'. injection Hf' as <-.
  destruct (mapM_elem_of _ _ _ _ Hmap Hin) as (y & Hy & Hyin).
  rewrite Hlabel in Hy. injection Hy as <-.
  now rewrite Hperm.
Qed.

Lemma append_cons (c : ascii) (s t : string) :
  String c s +:+ t = String c (s +:+ t).
Proof. reflexivity. Qed.

Lemma append_empty_l (s : string) : EmptyString +:+ s = s.
Proof. reflexivity. Qed.

Lemma append_empty_r (s : string) : s +:+ EmptyString = s.
Proof. induction s as [|c s IH]; [reflexivity|]. now rewrite append_cons, IH. Qed.

Lemma startswith_cons_ne (a c : ascii) (s t : string) :
  a <> c -> Py.startswith (String a s) (String c t) = false.
Proof.
  intros H. unfold Py.startswith. cbn [String.prefix].
  now destruct (ascii_dec a c).
Qed.

Lemma startswith_cons_eq (a : ascii) (s t : string) :
  Py.startswith (String a s) (String a t) = Py.startswith s t.
Proof.
  unfold Py.startswith. cbn [String.prefix].
  now destruct (ascii_dec a a).
Qed.

Lemma startswith_empty (s : string) : Py.startswith EmptyString s = true.
Proof. now destruct s. Qed.

Lemma string_of_list_ascii_snoc (l : list ascii) (c : ascii) (s : string) :
  string_of_list_ascii (l ++ [c]) +:+ s = string_of_list_ascii l +:+ String c s.
Proof.
  induction l as [|a l IH]; simpl; [reflexivity|].
  now rewrite !append_cons, IH.
Qed.

Lemma split_from_free (b : string) :
  free_of "_" b = true ->
  forall cur, Py.split_from "__" 0 cur b = [string_of_list_ascii (rev cur) +:+ b].
Proof.
  induction b as [|c b IH]; intros Hfree cur.
  - simpl. now rewrite append_empty_r.
  - cbn [free_of] in Hfree. apply andb_true_iff in Hfree as [Hc Hb].
    apply negb_true_iff, Ascii.eqb_neq in Hc.
    cbn [Py.split_from]. rewrite startswith_cons_ne by exact Hc.
    rewrite (IH Hb). simpl rev. now rewrite string_of_list_ascii_snoc.
Qed.

(** Two identifiers without underscore, joined by the separator, are what
    the split gives back. *)
Lemma split_joined (a b : string) :
  free_of "_" a = true -> free_of "_" b = true ->
  Py.split (a +:+ "__" +:+ b) "__" = [a; b].
Proof.
  intros Ha Hb. unfold Py.split.
  assert (H : forall cur,
             Py.split_from "__" 0 cur (a +:+ "__" +:+ b)
             = [string_of_list_ascii (rev cur) +:+ a; b]).
  { induction a as [|c a IH]; intros cur.
    - rewrite append_empty_l, append_empty_r, !append_cons, append_empty_l.
      cbn [Py.split_from]. rewrite !startswith_cons_eq, startswith_empty.
      cbn [Py.split_from String.length Nat.sub].
      now rewrite (split_from_free b Hb).
    - cbn [free_of] in Ha. apply andb_true_iff in Ha as [Hc Ha].
      apply negb_true_iff, Ascii.eqb_neq in Hc.
      rewrite append_cons.
      cbn [Py.split_from]. rewrite startswith_cons_ne by exact Hc.
      rewrite (IH Ha). simpl rev. now rewrite string_of_list_ascii_snoc. }
  apply H.
Qed.

Lemma label_channel_frame (my_user_id : string) (names : gmap string value)
    (channel channel' : gmap string value) :
  label_channel my_user_id names channel = Ok channel' -> frame channel channel'.
Proof.
  unfold label_channel, getitem.
  destruct (channel !! "type") as [ty|] eqn:Hty; [|discriminate]. run.
  destruct (decide (ty = VStr "D")) as [->|Hne].
  - destruct (channel !! "name") as [name|]; [|discriminate]. run.
    destruct (as_str name) as [raw| |]; try discriminate. run.
    destruct (index (Py.split raw "__") 0) as [first| |]; try discriminate. run.
    destruct (if decide (first = my_user_id) then _ else _) as [other| |];
      try discriminate. run.
    destruct (names !! other) as [display|]; [|discriminate]. run.
    intros [= <-]. split.
    + intros k Hk. now rewrite lookup_insert_ne.
    + intros H. now contradict H.
  - intros [= <-]. split; [reflexivity|]. reflexivity.
Qed.

Lemma label_channel_terminates (my_user_id : string) (names : gmap string value)
    (channel : gmap string value) :
  label_channel my_user_id names channel <> OutOfFuel.
Proof.
  unfold label_channel, getitem.
  destruct (channel !! "type") as [ty|]; [|discriminate]. run.
  destruct (decide (ty = VStr "D")); [|discriminate].
  destruct (channel !! "name") as [[raw| |]|]; try discriminate. run.
  unfold index.
  destruct (Py.split raw "__" !! 0%nat) as [first|]; [|discriminate]. run.
  destruct (decide (first = my_user_id)).
  - destruct (Py.split raw "__" !! 1%nat) as [second|]; [|discriminate]. run.
    destruct (names !! second); discriminate.
  - run. destruct (names !! first); discriminate.
Qed.

Lemma mapM_raises {A B : Type} (f : A -> result B) (l : list A) (x : A) (e : exn) :
  (forall y, f y <> OutOfFuel) -> x ∈ l -> f x = Raise e ->
  exists e', mapM f l = Raise e'.
Proof.
  intros Hterm Hx Hfx. induction l as [|a l IH]; [now apply elem_of_nil in Hx|].
  cbn [mapM]. destruct (f a) as [b|e'|] eqn:Ha.
  - run. apply elem_of_cons in Hx as [->|Hx]; [congruence|].
    destruct (IH Hx) as [e' ->]. now exists e'.
  - now exists e'.
  - now apply Hterm in Ha.
Qed.

(** C10. A listing that is returned holds the fetched channels, each
    labelled, in some order: a labelled channel differs from the fetched one
    at most under ["display_name"], and not at all unless its type is
    ["D"]. The listing has as many channels as were fetched, and is a
    reordering of the fetched list itself when that has no channel of type
    ["D"]. *)
Theorem select_channel_frame (d : Driver) (team_id my_user_id : string)
    (names : gmap string value) (fetched listed : list (gmap string value)) :
  get_channels_for_user d my_user_id team_id = Ok fetched ->
  select_channel d team_id my_user_id names = Ok listed ->
  (exists labelled, Forall2 frame fetched labelled /\ listed ≡ₚ labelled)
  /\ length listed = length fetched
  /\ (Forall (fun channel => channel !! "type" <> Some (VStr "D")) fetched ->
      listed ≡ₚ fetched).
Proof.
  intros Hfetch Hsel.
  destruct (select_channel_inv _ _ _ _ _ Hsel) as (f' & labelled & Hf' & Hmap & Hperm).
  rewrite Hfetch in Hf'. injection Hf' as <-.
  assert (HF : Forall2 frame fetched labelled).
  { apply mapM_Forall2 in Hmap. eapply Forall2_impl; [exact Hmap|].
    intros ch ch'. apply label_channel_frame. }
  split; [now exists labelled|]. split.
  - rewrite Hperm. symmetry. eapply Forall2_length, HF.
  - intros Hnd. rewrite Hperm.
    assert (labelled = fetched) as ->; [|reflexivity].
    clear -HF Hnd. induction HF as [|ch ch' l l' [_ Hsame] _ IH]; [reflexivity|].
    apply Forall_cons in Hnd as [Hch Hl]. f_equal; auto.
Qed.

(** C6, as the code has it. A direct-message name is not checked for its
    shape. With [first :: rest] the parts of the raw name, the identifier
    looked up is the second part when the first is the caller's id, and the
    first part otherwise. The labelling fails with [IndexError] when that
    part is missing (a name of one part, the caller's id), with [KeyError]
    when the identifier is not in the user index, and the listing fails
    with it; in every other case the channel is labelled with the name of
    that identifier, whatever the number of parts. *)
Theorem dm_name_lookup_failures (d : Driver) (team_id my_user_id : string)
    (names : gmap string value) (fetched : list (gmap string value))
    (channel : gmap string value) (raw first : string) (rest : list string) :
  channel !! "type" = Some (VStr "D") ->
  channel !! "name" = Some (VStr raw) ->
  Py.split raw "__" = first :: rest ->
  get_channels_for_user d my_user_id team_id = Ok fetched ->
  channel ∈ fetched ->
  match (if decide (first = my_user_id) then head rest else Some first) with
  | None =>
      label_channel my_user_id names channel = Raise IndexError
      /\ exists e, select_channel d team_id my_user_id names = Raise e
  | Some uid =>
      match names !! uid with
      | None =>
          label_channel my_user_id names channel = Raise (KeyError uid)
          /\ exists e, select_channel d team_id my_user_id names = Raise e
      | Some display =>
          label_channel my_user_id names channel
          = Ok (<["display_name" := display]> channel)
      end
  end.
Proof.
  intros Hty Hname Hsplit Hfetch Hin.
  assert (Hfails : forall e,
             label_channel my_user_id names channel = Raise e ->
             exists e', select_channel d team_id my_user_id names = Raise e').
  { intros e Hfail. unfold select_channel. rewrite Hfetch. run.
    destruct (mapM_raises (label_channel my_user_id names) fetched channel e)
      as [e' ->]; auto using label_channel_terminates.
    now exists e'. }
  assert (Hrun : label_channel my_user_id names channel
                 = match (if decide (first = my_user_id)
                          then head rest else Some first) with
                   | None => Raise IndexError
                   | Some uid =>
                       match names !! uid with
                       | Some display => Ok (<["display_name" := display]> channel)
                       | None => Raise (KeyError uid)
                       end
                   end).
  { unfold label_channel, getitem. rewrite Hty. run.
    rewrite decide_True by reflexivity. rewrite Hname. run.
    rewrite Hsplit. run.
    destruct (decide (first = my_user_id)).
    - unfold index. destruct rest as [|second rest]; run; [reflexivity|].
      cbn [head]. now destruct (names !! second).
    - run. now destruct (names !! first). }
  destruct (if decide (first = my_user_id) then head rest else Some first)
    as [uid|]; [destruct (names !! uid)|]; eauto.
Qed.

(** C6, as the specification states it, fails: a name of one part that is
    not the caller's id, and a name of two parts neither of which is the
    caller's id, are both accepted when the first part is a known user. *)
Lemma malformed_dm_name_accepted :
  Py.split "u2" "__" = ["u2"]
  /\ select_channel (fake_driver [dm_one_part] [] ∅ 0) "t1" "u1" sample_users
     = Ok [ <["display_name" := VStr "bob"]> dm_one_part ]
  /\ Py.split "u2__u3" "__" = ["u2"; "u3"]
  /\ select_channel (fake_driver [dm_strangers] [] ∅ 0) "t1" "u1" sample_users
     = Ok [ <["display_name" := VStr "bob"]> dm_strangers ].
Proof. repeat split; vm_compute; reflexivity. Qed.

(** A split always has a first part. *)
Lemma split_nonempty (raw sep : string) :
  exists first rest, Py.split raw sep = first :: rest.
Proof.
  unfold Py.split. generalize 0%nat (@nil ascii).
  induction raw as [|c raw IH]; intros skip cur; cbn [Py.split_from].
  - eauto.
  - destruct skip; [destruct (Py.startswith sep (String c raw))|]; eauto.
Qed.

(** ** The transformation of posts *)

Lemma attach_files_spec (fuel : nat) (d : Driver) (download_files : bool)
    (fs : list file_info) :
  forall (n n' : nat) (acc filenames : list string),
    attach_files fuel d download_files n fs acc = Ok (filenames, n') ->
    filenames = acc ++ (if download_files then file_name <$> fs else []).
Proof.
  induction fs as [|file fs IH]; intros n n' acc filenames; cbn [attach_files].
  - intros [= <- _]. destruct download_files; now rewrite app_nil_r.
  - destruct download_files.
    + destruct (get_file_retry fuel d n (file_id file)) as [m| |];
        try discriminate. run.
      intros H. apply IH in H. rewrite H, <- app_assoc. reflexivity.
    + apply IH.
Qed.

Lemma simplify_post_spec (fuel : nat) (d : Driver) (download_files : bool)
    (before after : option Z) (st st' : session) (i : nat) (p : post)
    (osp : option simple_post) :
  simplify_post fuel d download_files before after st i p = Ok (osp, st') ->
  if out_of_range p before after then osp = None
  else exists sp, osp = Some sp /\ exported_as download_files i p sp.
Proof.
  unfold simplify_post.
  destruct (out_of_range p before after); [now intros [= <- _]|].
  destruct (resolve d (user_id_to_name st) (post_user_id p)) as [[name names]| |];
    try discriminate. run.
  destruct (Datetime.utcfromtimestamp (create_at p / 1000)) as [dt| |] eqn:Hdt;
    try discriminate. run.
  destruct (metadata_files p) as [fs|] eqn:Hfs.
  - destruct (attach_files fuel d download_files (file_requests st) fs [])
      as [[filenames n]| |] eqn:Hat; try discriminate. run.
    intros [= <- _]. eexists. split; [reflexivity|].
    apply attach_files_spec in Hat. subst filenames.
    unfold exported_as. cbn [idx id created sp_message code files].
    rewrite Hfs, Hdt. now repeat split.
  - intros [= <- _]. eexists. split; [reflexivity|].
    unfold exported_as. cbn [idx id created sp_message code files].
    rewrite Hfs, Hdt. now repeat split.
Qed.

Lemma simplify_posts_spec (fuel : nat) (d : Driver) (download_files : bool)
    (before after : option Z) (ps : list post) :
  forall (st st' : session) (i : nat) (acc out : list simple_post),
    simplify_posts fuel d download_files before after st i ps acc = Ok (out, st') ->
    exists new,
      out = acc ++ new
      /\ Forall2 (fun ip sp => exported_as download_files (fst ip) (snd ip) sp)
           (List.filter (fun ip => negb (out_of_range (snd ip) before after))
                        (enumerate_from i ps))
           new.
Proof.
  induction ps as [|p ps IH]; intros st st' i acc out; cbn [simplify_posts].
  - intros [= <- _]. exists []. split; [now rewrite app_nil_r|constructor].
  - destruct (simplify_post fuel d download_files before after st i p)
      as [[osp st1]| |] eqn:Hp; try discriminate. run.
    intros H. apply IH in H as (new & -> & HF).
    apply simplify_post_spec in Hp. cbn [enumerate_from List.filter snd].
    destruct (out_of_range p before after); cbn [negb].
    + subst osp. now exists new.
    + destruct Hp as (sp & -> & Hsp). exists (sp :: new).
      split; [now rewrite <- app_assoc|]. now constructor.
Qed.

(** The stages of a successful export. *)
Lemma export_channel_inv (fuel : nat) (h : Host) (d : Driver) (st st' : session)
    (channel : gmap string value) (download_files : bool)
    (before after : option string) (out : output) :
  export_channel fuel h d st channel download_files before after = Ok (out, st') ->
  exists before' after' cid all_posts asked now,
    to_instant h before = Ok before'
    /\ to_instant h after = Ok after'
    /\ channel !! "id" = Some cid
    /\ fetch_all_posts fuel d cid = Ok (all_posts, asked)
    /\ simplify_posts fuel d download_files before' after' st 0
         (reverse all_posts) [] = Ok (out_posts out, st')
    /\ Datetime.fromtimestamp (utcoffset h (clock h)) (clock h) = Ok now
    /\ exported_at (out_channel out) = Datetime.strftime now.
Proof.
  unfold export_channel, assemble, getitem.
  destruct (channel !! "display_name") as [dn|]; [|discriminate]. run.
  destruct (as_str dn) as [?| |]; try discriminate. run.
  destruct (to_instant h after) as [after'| |]; try discriminate. run.
  destruct (to_instant h before) as [before'| |]; try discriminate. run.
  destruct (channel !! "id") as [cid|] eqn:Hcid; [|discriminate]. run.
  destruct (fetch_all_posts fuel d cid) as [[all_posts asked]| |] eqn:Hf;
    try discriminate. run.
  destruct (simplify_posts _ _ _ _ _ _ _ _ _) as [[sps st1]| |] eqn:Hs;
    try discriminate. run.
  destruct (channel !! "name"); [|discriminate]. run.
  destruct (channel !! "header"); [|discriminate]. run.
  destruct (channel !! "team_id") as [tid|]; [|discriminate]. run.
  destruct (get_team d tid) as [team| |]; try discriminate. run.
  destruct (team !! "name"); [|discriminate]. run.
  destruct (Datetime.fromtimestamp (utcoffset h (clock h)) (clock h)) as [now| |] eqn:Hn;
    try discriminate. run.
  intros [= <- <-]. cbn [out_posts out_channel exported_at].
  exists before', after', cid, all_posts, asked, now. now repeat split.
Qed.

Lemma enumerate_from_snd {A : Type} (l : list A) :
  forall i, snd <$> enumerate_from i l = l.
Proof. induction l as [|x l IH]; intros i; csimpl; [reflexivity|]. now rewrite IH. Qed.

Lemma enumerate_from_fst {A : Type} (l : list A) :
  forall i, fst <$> enumerate_from i l = seq i (length l).
Proof. induction l as [|x l IH]; intros i; csimpl; [reflexivity|]. now rewrite IH. Qed.

Lemma enumerate_from_lookup {A : Type} (l : list A) :
  forall i k x, (k, x) ∈ enumerate_from i l ->
                (i <= k)%nat /\ l !! (k - i)%nat = Some x.
Proof.
  induction l as [|y l IH]; intros i k x; cbn [enumerate_from].
  - intros H. now apply elem_of_nil in H.
  - intros H. apply elem_of_cons in H as [[= -> ->]|H].
    + split; [lia|]. now rewrite Nat.sub_diag.
    + apply IH in H as [Hle Hl]. split; [lia|].
      replace (k - i)%nat with (S (k - S i)) by lia. exact Hl.
Qed.

Lemma filter_snd_sublist {A B : Type} (f : A * B -> bool) (l : list (A * B)) :
  snd <$> List.filter f l `sublist_of` snd <$> l.
Proof.
  induction l as [|x l IH]; csimpl; [constructor|].
  destruct (f x); csimpl; now constructor.
Qed.

Lemma kept_sublist (f : nat * post -> bool) (ps : list post) :
  snd <$> List.filter f (enumerate_from 0 ps) `sublist_of` ps.
Proof.
  pose proof (filter_snd_sublist f (enumerate_from 0 ps)) as H.
  now rewrite enumerate_from_snd in H.
Qed.

Lemma StronglySorted_sublist {A : Type} (R : relation A) (l k : list A) :
  StronglySorted R l -> k `sublist_of` l -> StronglySorted R k.
Proof.
  intros Hl Hs. induction Hs as [|x k l Hs IH|x k l Hs IH].
  - constructor.
  - apply StronglySorted_inv in Hl as [Hl Hx]. constructor; [auto|].
    rewrite Forall_forall in *. intros y Hy. apply Hx.
    eapply sublist_subseteq; eauto.
  - apply StronglySorted_inv in Hl as [Hl _]. auto.
Qed.

(** C2. Posts that the aggregator delivers newest first are exported oldest
    first: the exported records stem, one by one and in order, from posts
    [kept] that form a subsequence of the reversed aggregate, and the
    creation instants of [kept] never decrease, in milliseconds as in the
    whole seconds that the records show. *)
Theorem export_chronological (fuel : nat) (h : Host) (d : Driver)
    (st st' : session) (channel : gmap string value) (download_files : bool)
    (before after : option string) (out : output) (cid : value)
    (all_posts : list post) (asked : list nat) :
  channel !! "id" = Some cid ->
  fetch_all_posts fuel d cid = Ok (all_posts, asked) ->
  Sorted (flip Z.le) (create_at <$> all_posts) ->
  export_channel fuel h d st channel download_files before after = Ok (out, st') ->
  exists kept : list post,
    kept `sublist_of` reverse all_posts
    /\ Forall2 (fun p sp => exists i, exported_as download_files i p sp)
         kept (out_posts out)
    /\ Sorted Z.le (create_at <$> kept)
    /\ Sorted Z.le ((fun p => create_at p / 1000) <$> kept).
Proof.
  intros Hcid Hfetch Hsorted Hexp.
  destruct (export_channel_inv _ _ _ _ _ _ _ _ _ _ Hexp)
    as (before' & after' & cid' & all' & asked' & now
        & _ & _ & Hcid' & Hfetch' & Hsimp & _).
  rewrite Hcid in Hcid'. injection Hcid' as <-.
  rewrite Hfetch in Hfetch'. injection Hfetch' as <- <-.
  apply simplify_posts_spec in Hsimp as (new & Hnew & HF).
  rewrite app_nil_l in Hnew. subst new.
  set (kept := List.filter
                 (fun ip => negb (out_of_range (snd ip) before' after'))
                 (enumerate_from 0 (reverse all_posts))) in *.
  assert (Hms : Sorted Z.le (create_at <$> (snd <$> kept))).
  { apply StronglySorted_Sorted.
    eapply StronglySorted_sublist.
    + apply Sorted_StronglySorted; [intros x y z; apply Z.le_trans|].
      apply Sorted_reverse in Hsorted. rewrite <- fmap_reverse in Hsorted.
      exact Hsorted.
    + apply fmap_sublist, kept_sublist. }
  exists (snd <$> kept). split; [|split; [|split]].
  - apply kept_sublist.
  - apply Forall2_fmap_l. eapply Forall2_impl; [exact HF|].
    intros [i p] sp Hsp. now exists i.
  - exact Hms.
  - change (fun p => create_at p / 1000) with ((fun z => z / 1000) ∘ create_at).
    rewrite list_fmap_compose.
    eapply Sorted_fmap; [|exact Hms].
    intros x y Hxy. apply Z.div_le_mono; lia.
Qed.

(** ** The sequence index *)

Lemma retained_lookup (before after : option Z) (ps : list post) (i : nat) (p : post) :
  (i, p) ∈ retained before after ps ->
  ps !! i = Some p /\ out_of_range p before after = false.
Proof.
  unfold retained. rewrite list_elem_of_In, filter_In, <- list_elem_of_In.
  intros [Hin Hf]. apply enumerate_from_lookup in Hin as [_ Hl].
  rewrite Nat.sub_0_r in Hl. split; [exact Hl|].
  now apply negb_true_iff in Hf.
Qed.

Lemma retained_unbounded (ps : list post) :
  fst <$> retained None None ps = seq 0 (length ps).
Proof.
  unfold retained. rewrite <- enumerate_from_fst. f_equal.
  induction (enumerate_from 0 ps) as [|x l IH]; [reflexivity|].
  cbn [List.filter].
  change (negb (out_of_range (snd x) None None)) with true. cbv iota.
  now rewrite IH.
Qed.

Lemma retained_increasing (before after : option Z) (ps : list post) :
  StronglySorted lt (fst <$> retained before after ps).
Proof.
  unfold retained. generalize 0%nat.
  induction ps as [|p ps IH]; intros i; cbn [enumerate_from List.filter].
  - constructor.
  - destruct (negb _); [|apply IH]. csimpl. constructor; [apply IH|].
    apply Forall_forall. intros k Hk.
    apply list_elem_of_fmap in Hk as ([k' q] & -> & Hin).
    rewrite list_elem_of_In, filter_In, <- list_elem_of_In in Hin.
    destruct Hin as [Hin _]. apply enumerate_from_lookup in Hin as [Hle _].
    cbn. lia.
Qed.

(** C3, as the code has it. The index of an exported record is the position
    of its post in the reversed aggregate before the date filter is
    applied: the exported indices are the positions of the retained posts,
    they increase strictly, each one points to the post of its record, and
    they are [0, 1, 2, ...] when no boundary is given. *)
Theorem idx_is_unfiltered_position (fuel : nat) (h : Host) (d : Driver)
    (st st' : session) (channel : gmap string value) (download_files : bool)
    (before after : option string) (out : output) :
  export_channel fuel h d st channel download_files before after = Ok (out, st') ->
  exists (before' after' : option Z) (cid : value) (all_posts : list post)
         (asked : list nat),
    to_instant h before = Ok before'
    /\ to_instant h after = Ok after'
    /\ channel !! "id" = Some cid
    /\ fetch_all_posts fuel d cid = Ok (all_posts, asked)
    /\ idx <$> out_posts out
       = fst <$> retained before' after' (reverse all_posts)
    /\ StronglySorted lt (idx <$> out_posts out)
    /\ (forall sp, sp ∈ out_posts out ->
          exists p, reverse all_posts !! idx sp = Some p
                    /\ post_id p = id sp
                    /\ out_of_range p before' after' = false)
    /\ (before = None -> after = None ->
        idx <$> out_posts out = seq 0 (length all_posts)).
Proof.
  intros Hexp.
  destruct (export_channel_inv _ _ _ _ _ _ _ _ _ _ Hexp)
    as (before' & after' & cid & all_posts & asked & now
        & Hb & Ha & Hcid & Hfetch & Hsimp & _).
  exists before', after', cid, all_posts, asked.
  do 4 (split; [assumption|]).
  apply simplify_posts_spec in Hsimp as (new & Hnew & HF).
  rewrite app_nil_l in Hnew. subst new.
  fold (retained before' after' (reverse all_posts)) in HF.
  assert (Hidx : idx <$> out_posts out
                 = fst <$> retained before' after' (reverse all_posts)).
  { clear -HF. induction HF as [|[i p] sp l l' Hsp _ IH]; [reflexivity|].
    csimpl. rewrite IH. f_equal. apply Hsp. }
  split; [exact Hidx|]. split; [|split].
  - rewrite Hidx. apply retained_increasing.
  - intros sp Hsp.
    apply list_elem_of_lookup_1 in Hsp as [j Hj].
    destruct (Forall2_lookup_r _ _ _ _ _ HF Hj) as ([i p] & Hip & Hex).
    apply list_elem_of_lookup_2, retained_lookup in Hip as [Hl Hr].
    destruct Hex as (Hi & Hid & _). cbn [fst snd] in *.
    exists p. rewrite Hi. now repeat split.
  - intros -> ->. cbn in Hb, Ha. injection Hb as <-. injection Ha as <-.
    now rewrite Hidx, retained_unbounded, length_reverse.
Qed.

(** C3, as the specification states it, fails: with the boundary
    [after = 2024-01-02] the oldest sample post is skipped, and the two
    exported records carry the indices 1 and 2, not 0 and 1. *)
Lemma idx_counts_filtered_posts :
  (fun r => idx <$> out_posts (fst r))
    <$> export_channel 10 utc_host sample_driver sample_session sample_channel
          false None (Some "2024-01-02")
  = Ok [1%nat; 2%nat]
  /\ [1%nat; 2%nat] <> seq 0 2.
Proof. split; [vm_compute; reflexivity|discriminate]. Qed.

(** ** The date filter *)

Lemma Qgtb_seconds (ms b : Z) :
  Qgtb (seconds ms) (inject_Z b) = true <-> 1000 * b < ms.
Proof.
  unfold Qgtb, seconds, Qle_bool, inject_Z. cbn [Qnum Qden].
  rewrite negb_true_iff, Z.leb_gt. lia.
Qed.

Lemma Qltb_seconds (ms a : Z) :
  Qltb (seconds ms) (inject_Z a) = true <-> ms < 1000 * a.
Proof.
  unfold Qltb, seconds, Qle_bool, inject_Z. cbn [Qnum Qden].
  rewrite negb_true_iff, Z.leb_gt. lia.
Qed.

(** For boundaries other than the epoch itself the filter is the inclusive
    range test: a post is kept when it is not newer than [before] and not
    older than [after], and a missing boundary does not constrain. *)
Lemma date_filter_inclusive (p : post) (before after : option Z) :
  before <> Some 0 -> after <> Some 0 ->
  out_of_range p before after = false <->
  (forall b, before = Some b -> create_at p <= 1000 * b)
  /\ (forall a, after = Some a -> 1000 * a <= create_at p).
Proof.
  intros Hb Ha. unfold out_of_range, and_then.
  rewrite orb_false_iff.
  assert (Hgt : forall b, Qgtb (seconds (create_at p)) (inject_Z b) = false
                          <-> create_at p <= 1000 * b).
  { intros b. rewrite <- not_true_iff_false, Qgtb_seconds. lia. }
  assert (Hlt : forall a, Qltb (seconds (create_at p)) (inject_Z a) = false
                          <-> 1000 * a <= create_at p).
  { intros a. rewrite <- not_true_iff_false, Qltb_seconds. lia. }
  destruct before as [b|], after as [a|];
    repeat match goal with
           | |- context [?t =? 0] =>
               destruct (Z.eqb_spec t 0); [subst; congruence|]
           end;
    rewrite ?Hgt, ?Hlt; split.
  all: try (intros [H1 H2]; split; intros ? [= <-]; assumption).
  all: try (intros [H1 H2]; split; auto).
  all: try (intros [H1 H2]; split; try reflexivity; intros ? ?; discriminate).
Qed.

(** C4 at the boundary the code misses. On a host on UTC the date
    [1970-01-01] is the instant 0, which the filter takes for a missing
    boundary: a post one second after [before] is kept, as is a post one
    second before [after], and an export bounded by [before = 1970-01-01]
    returns the three sample posts of January 2024. *)
Theorem epoch_boundary_ignored :
  to_instant utc_host (Some "1970-01-01") = Ok (Some 0)
  /\ out_of_range (mk_post "p" "u1" 1000 "late" None) (Some 0) None = false
  /\ out_of_range (mk_post "p" "u1" (-1000) "early" None) None (Some 0) = false
  /\ (fun r => id <$> out_posts (fst r))
       <$> export_channel 10 utc_host sample_driver sample_session
             sample_channel false (Some "1970-01-01") None
     = Ok ["p1"; "p2"; "p3"].
Proof. repeat split; vm_compute; reflexivity. Qed.

(** ** Attachments *)

Lemma attach_files_without_download (fuel : nat) (d : Driver) (n : nat)
    (fs : list file_info) (acc : list string) :
  attach_files fuel d false n fs acc = Ok (acc, n).
Proof. induction fs as [|file fs IH]; [reflexivity|exact IH]. Qed.

(** C8 where the code departs from it. Without [download_files] the
    names of the attached files are not collected: the sample post with the
    files [a.txt] and [b.png] is exported with an empty list, and with the
    two names only when the files are downloaded. *)
Theorem files_empty_without_download :
  (fun r => files <$> out_posts (fst r))
    <$> export_channel 10 utc_host sample_driver sample_session sample_channel
          false None None
  = Ok [None; Some []; None]
  /\ (fun r => files <$> out_posts (fst r))
       <$> export_channel 10 utc_host sample_driver sample_session
             sample_channel true None None
     = Ok [None; Some ["a.txt"; "b.png"]; None].
Proof. split; vm_compute; reflexivity. Qed.

(** ** The export time *)

Lemma exported_at_local (fuel : nat) (h : Host) (d : Driver) (st st' : session)
    (channel : gmap string value) (download_files : bool)
    (before after : option string) (out : output) :
  export_channel fuel h d st channel download_files before after = Ok (out, st') ->
  Datetime.strftime <$> Datetime.fromtimestamp (utcoffset h (clock h)) (clock h)
  = Ok (exported_at (out_channel out)).
Proof.
  intros Hexp.
  destruct (export_channel_inv _ _ _ _ _ _ _ _ _ _ Hexp)
    as (? & ? & ? & ? & ? & now & _ & _ & _ & _ & _ & Hnow & ->).
  now rewrite Hnow.
Qed.

(** C9 where the code departs from it. The export time is read from the
    local clock and written with the suffix [Z]: on a host one hour ahead
    of UTC an export at the epoch is stamped [01:00:00Z], while the instant
    is [00:00:00Z] in UTC, the form the posts are stamped in. *)
Theorem exported_at_is_local_time :
  (fun r => exported_at (out_channel (fst r)))
    <$> export_channel 10 cet_host sample_driver sample_session sample_channel
          false None None
  = Ok "1970-01-01T01:00:00Z"
  /\ Datetime.strftime <$> Datetime.utcfromtimestamp (clock cet_host)
     = Ok "1970-01-01T00:00:00Z".
Proof. split; vm_compute; reflexivity. Qed.

(** ** Code blocks *)

Section Occurrences.

Variable a : ascii.
Variable sub' : string.
Let sub := String a sub'.

Lemma occurs_at_empty (i : nat) : occurs_at sub EmptyString i = false.
Proof. unfold occurs_at. now destruct i. Qed.

Lemma occurs_at_S (c : ascii) (s : string) (i : nat) :
  occurs_at sub (String c s) (S i) = occurs_at sub s i.
Proof. reflexivity. Qed.

Lemma find_from_spec (s : string) :
  forall i : Z,
    (Py.find_from sub s i = -1 /\ forall j, occurs_at sub s j = false)
    \/ exists k : nat,
         Py.find_from sub s i = i + Z.of_nat k
         /\ occurs_at sub s k = true
         /\ forall j, (j < k)%nat -> occurs_at sub s j = false.
Proof.
  induction s as [|c s IH]; intros i; cbn [Py.find_from].
  - left. split; [reflexivity|]. apply occurs_at_empty.
  - destruct (Py.startswith sub (String c s)) eqn:E.
    + right. exists 0%nat. split; [lia|]. split; [exact E|]. lia.
    + destruct (IH (i + 1)) as [[Hr Hn]|(k & Hr & Hk & Hn)].
      * left. split; [exact Hr|]. intros [|j]; [exact E|apply Hn].
      * right. exists (S k). split; [lia|]. split; [exact Hk|].
        intros [|j] Hj; [exact E|]. apply Hn. lia.
Qed.

Lemma rfind_from_spec (s : string) :
  forall i : Z, 0 <= i ->
    (Py.rfind_from sub s i = -1 /\ forall j, occurs_at sub s j = false)
    \/ exists k : nat,
         Py.rfind_from sub s i = i + Z.of_nat k
         /\ occurs_at sub s k = true
         /\ forall j, (k < j)%nat -> occurs_at sub s j = false.
Proof.
  induction s as [|c s IH]; intros i Hi; cbn [Py.rfind_from].
  - left. split; [reflexivity|]. apply occurs_at_empty.
  - destruct (IH (i + 1)) as [[Hr Hn]|(k & Hr & Hk & Hn)]; [lia| |].
    + rewrite Hr. cbn [Z.leb Z.compare].
      destruct (Py.startswith sub (String c s)) eqn:E.
      * right. exists 0%nat. split; [lia|]. split; [exact E|].
        intros [|j] Hj; [lia|apply Hn].
      * left. split; [reflexivity|]. intros [|j]; [exact E|apply Hn].
    + rewrite Hr. destruct (Z.leb_spec 0 (i + 1 + Z.of_nat k)); [|lia].
      right. exists (S k). split; [lia|]. split; [exact Hk|].
      intros [|j] Hj; [lia|]. apply Hn. lia.
Qed.

Lemma count_from_occurs (s : string) :
  forall skip, (1 <= Py.count_from sub skip s)%nat ->
               exists q, (skip <= q)%nat /\ occurs_at sub s q = true.
Proof.
  induction s as [|c s IH]; intros skip; cbn [Py.count_from]; [lia|].
  destruct skip as [|k].
  - destruct (Py.startswith sub (String c s)) eqn:E.
    + intros _. exists 0%nat. split; [lia|exact E].
    + intros H. destruct (IH _ H) as (q & _ & Hq). exists (S q).
      split; [lia|exact Hq].
  - intros H. destruct (IH _ H) as (q & Hle & Hq). exists (S q).
    split; [lia|exact Hq].
Qed.

Lemma count_from_two (s : string) :
  (2 <= Py.count_from sub 0 s)%nat ->
  exists p q, occurs_at sub s p = true /\ occurs_at sub s q = true
              /\ (p + String.length sub <= q)%nat.
Proof.
  induction s as [|c s IH]; cbn [Py.count_from]; [lia|].
  destruct (Py.startswith sub (String c s)) eqn:E.
  - intros H. destruct (count_from_occurs s (String.length sub - 1)) as (q & Hle & Hq);
      [lia|].
    exists 0%nat, (S q). split; [exact E|]. split; [exact Hq|].
    unfold sub in *. cbn [String.length] in *. lia.
  - intros H. destruct (IH H) as (p & q & Hp & Hq & Hle).
    exists (S p), (S q). split; [exact Hp|]. split; [exact Hq|]. lia.
Qed.

Lemma startswith_length (s : string) :
  forall t, Py.startswith t s = true -> (String.length t <= String.length s)%nat.
Proof.
  unfold Py.startswith.
  induction s as [|c s IH]; intros [|b t]; cbn [String.prefix String.length];
    try lia; try discriminate.
  destruct (ascii_dec b c); [|discriminate].
  intros H. apply IH in H. lia.
Qed.

Lemma occurs_at_length (s : string) :
  forall i, occurs_at sub s i = true ->
            (i + String.length sub <= String.length s)%nat.
Proof.
  induction s as [|c s IH]; intros i H.
  - now rewrite occurs_at_empty in H.
  - destruct i as [|i].
    + unfold occurs_at in H. cbn [Py.drop] in H.
      apply startswith_length in H. lia.
    + rewrite occurs_at_S in H. apply IH in H. cbn [String.length]. lia.
Qed.

(** With two counted occurrences, [find] gives the start of the first
    occurrence and [rfind] the start of the last one, and the first one
    ends before the last one starts. *)
Lemma first_and_last_occurrence (s : string) :
  (2 <= Py.count s sub)%nat ->
  exists first last : nat,
    Py.find s sub = Z.of_nat first
    /\ Py.rfind s sub = Z.of_nat last
    /\ occurs_at sub s first = true
    /\ (forall j, (j < first)%nat -> occurs_at sub s j = false)
    /\ occurs_at sub s last = true
    /\ (forall j, (last < j)%nat -> occurs_at sub s j = false)
    /\ (first + String.length sub <= last)%nat
    /\ (last + String.length sub <= String.length s)%nat.
Proof.
  intros H. apply count_from_two in H as (p & q & Hp & Hq & Hle).
  unfold Py.find, Py.rfind.
  destruct (find_from_spec s 0) as [[_ Hn]|(f & Hf & Hfo & Hfn)];
    [now rewrite Hn in Hp|].
  destruct (rfind_from_spec s 0) as [[_ Hn]|(l & Hl & Hlo & Hln)];
    [lia|now rewrite Hn in Hp|].
  exists f, l. rewrite Hf, Hl.
  assert (f <= p)%nat.
  { destruct (Nat.le_gt_cases f p) as [|Hlt]; [assumption|].
    apply Hfn in Hlt. congruence. }
  assert (q <= l)%nat.
  { destruct (Nat.le_gt_cases q l) as [|Hlt]; [assumption|].
    apply Hln in Hlt. congruence. }
  repeat split; try assumption; try lia.
  now apply occurs_at_length.
Qed.

End Occurrences.

Lemma substring_length (s : string) :
  forall n m, (n + m <= String.length s)%nat ->
              String.length (String.substring n m s) = m.
Proof.
  induction s as [|c s IH]; intros n m; cbn [String.length].
  - intros H. assert (n = 0 /\ m = 0)%nat as [-> ->] by lia. reflexivity.
  - destruct n as [|n]; cbn [String.substring].
    + destruct m as [|m]; [reflexivity|]. intros H. cbn [String.length].
      f_equal. apply IH. lia.
    + intros H. apply IH. lia.
Qed.

Lemma slice_substring (s : string) (a b : nat) :
  (a <= b <= String.length s)%nat ->
  Py.slice s (Z.of_nat a) (Z.of_nat b) = String.substring a (b - a) s.
Proof.
  intros H. unfold Py.slice, Py.clamp.
  destruct (Z.ltb_spec (Z.of_nat a) 0); [lia|].
  destruct (Z.ltb_spec (Z.of_nat b) 0); [lia|].
  rewrite !Z.min_l by lia. f_equal; lia.
Qed.

(** What [extract_code] returns, by the number of fence markers. *)
Lemma extract_code_fences (msg : string) :
  ((2 <= Py.count msg "```")%nat ->
     exists first last : nat,
       Py.find msg "```" = Z.of_nat first
       /\ Py.rfind msg "```" = Z.of_nat last
       /\ occurs_at "```" msg first = true
       /\ (forall j, (j < first)%nat -> occurs_at "```" msg j = false)
       /\ occurs_at "```" msg last = true
       /\ (forall j, (last < j)%nat -> occurs_at "```" msg j = false)
       /\ (first + 3 <= last)%nat
       /\ extract_code msg
          = if (last =? first + 3)%nat then None
            else Some (String.substring (first + 3) (last - (first + 3)) msg))
  /\ ((Py.count msg "```" < 2)%nat -> extract_code msg = None).
Proof.
  split.
  - intros H.
    destruct (first_and_last_occurrence "`" "``" msg H)
      as (f & l & Hf & Hl & Hfo & Hfn & Hlo & Hln & Hle & Hlen).
    cbn [String.length] in Hle, Hlen.
    exists f, l. do 7 (split; [assumption|]).
    unfold extract_code.
    destruct (Nat.ltb_spec 1 (Py.count msg "```")); [|lia].
    rewrite Hf, Hl.
    replace (Z.of_nat f + 3) with (Z.of_nat (f + 3)) by lia.
    rewrite slice_substring by lia.
    rewrite substring_length by lia.
    destruct (Nat.eqb_spec (l - (f + 3)) 0), (Nat.eqb_spec l (f + 3));
      try reflexivity; lia.
  - intros H. unfold extract_code.
    destruct (Nat.ltb_spec 1 (Py.count msg "```")); [lia|reflexivity].
Qed.

(** C7. A post that passes the date filter, whose author is resolved, whose
    instant is in the years of the calendar and whose files are attached,
    is exported as a record, and the [code] field of that record is set
    from the message of the post. With at least two fence markers the
    message has a first marker at [first] and a last one at [last], found
    by [find] and [rfind], the first ending no later than the last begins;
    the [code] field is the text between the end of the first and the
    start of the last, and the record has no [code] field when that text
    is empty. With fewer than two markers the record has no [code] field.
    The record of a post with the message [hello ```code``` world] has the
    code [code]; the record of a post with six backticks has none. *)
Theorem code_block_extraction (fuel : nat) (d : Driver) (download_files : bool)
    (before after : option Z) (st : session) (i : nat) (p : post)
    (name : value) (names : gmap string value) (dt : Datetime.datetime) :
  out_of_range p before after = false ->
  resolve d (user_id_to_name st) (post_user_id p) = Ok (name, names) ->
  Datetime.utcfromtimestamp (create_at p / 1000) = Ok dt ->
  (forall fs, metadata_files p = Some fs ->
     exists r,
       attach_files fuel d download_files (file_requests st) fs [] = Ok r) ->
  exists (sp : simple_post) (st' : session),
    simplify_post fuel d download_files before after st i p = Ok (Some sp, st')
    /\ sp_message sp = message p
    /\ ((2 <= Py.count (message p) "```")%nat ->
        exists first last : nat,
          Py.find (message p) "```" = Z.of_nat first
          /\ Py.rfind (message p) "```" = Z.of_nat last
          /\ occurs_at "```" (message p) first = true
          /\ (forall j, (j < first)%nat -> occurs_at "```" (message p) j = false)
          /\ occurs_at "```" (message p) last = true
          /\ (forall j, (last < j)%nat -> occurs_at "```" (message p) j = false)
          /\ (first + 3 <= last)%nat
          /\ code sp
             = if (last =? first + 3)%nat then None
               else Some (String.substring (first + 3) (last - (first + 3))
                            (message p)))
    /\ ((Py.count (message p) "```" < 2)%nat -> code sp = None)
    /\ (message p = "hello ```code``` world" -> code sp = Some "code")
    /\ (message p = "``````" -> code sp = None).
Proof.
  intros Hrange Hres Hdt Hfiles.
  assert (Hrun : exists sp st',
             simplify_post fuel d download_files before after st i p
             = Ok (Some sp, st')
             /\ sp_message sp = message p
             /\ code sp = extract_code (message p)).
  { unfold simplify_post. rewrite Hrange, Hres. run. rewrite Hdt. run.
    destruct (metadata_files p) as [fs|] eqn:Hfs.
    - destruct (Hfiles fs eq_refl) as [[filenames n] Hr]. rewrite Hr. run.
      eexists _, _. split; [reflexivity|]. split; reflexivity.
    - eexists _, _. split; [reflexivity|]. split; reflexivity. }
  destruct Hrun as (sp & st' & Hrun & Hmsg & Hcode).
  exists sp, st'. split; [exact Hrun|]. split; [exact Hmsg|].
  rewrite Hcode.
  destruct (extract_code_fences (message p)) as [Htwo Hfew].
  split; [exact Htwo|]. split; [exact Hfew|].
  split; intros ->; reflexivity.
Qed.

(** ** The theorems at the sample data *)

Lemma fetch_all_posts_page_count_witness :
  exists all_posts,
    fetch_all_posts 4 many_driver (VStr "c1") = Ok (all_posts, [0; 1; 2]%nat)
    /\ length all_posts = 201%nat.
Proof.
  destruct (fetch_all_posts_page_count many_driver (VStr "c1")
              (numbered_posts 201) 4)
    as (all_posts & asked & Hrun & Hasked & _ & _ & _ & Hlen & _).
  - intros page. reflexivity.
  - vm_compute. lia.
  - exists all_posts. rewrite Hasked in Hrun. split; [exact Hrun|exact Hlen].
Defined.

Lemma export_chronological_witness :
  exists kept : list post,
    kept `sublist_of` reverse sample_posts
    /\ Forall2 (fun p sp => exists i, exported_as true i p sp)
         kept (out_posts sample_output)
    /\ Sorted Z.le (create_at <$> kept)
    /\ Sorted Z.le ((fun p => create_at p / 1000) <$> kept).
Proof.
  apply (export_chronological 10 utc_host sample_driver sample_session
           (mk_session sample_users 4) sample_channel true None None
           sample_output (VStr "c1") sample_posts [0; 1]%nat).
  - vm_compute. reflexivity.
  - vm_compute. reflexivity.
  - change (Sorted (flip Z.le)
              [1704240000000; 1704153600000; 1704067200000]).
    repeat first [apply Sorted_nil | apply Sorted_cons
                 | apply HdRel_nil | apply HdRel_cons];
      unfold flip; lia.
  - vm_compute. reflexivity.
Defined.

Lemma idx_is_unfiltered_position_witness :
  idx <$> out_posts bounded_output
  = fst <$> retained None (Some 1704153600) (reverse sample_posts)
  /\ StronglySorted lt (idx <$> out_posts bounded_output).
Proof.
  destruct (idx_is_unfiltered_position 10 utc_host sample_driver sample_session
              sample_session sample_channel false None (Some "2024-01-02")
              bounded_output)
    as (before' & after' & cid & all_posts & asked
        & Hb & Ha & Hcid & Hfetch & Hidx & Hsorted & _).
  - vm_compute. reflexivity.
  - split; [|exact Hsorted]. vm_compute. reflexivity.
Defined.

Lemma dm_display_name_witness :
  label_channel "u1" sample_users dm_channel
    = Ok (<["display_name" := VStr "bob"]> dm_channel)
  /\ <["display_name" := VStr "bob"]> dm_channel ∈ sample_listing.
Proof.
  apply (dm_display_name listing_driver "t1" "u1" sample_users
           [sample_channel; dm_channel] sample_listing dm_channel
           "u1__u2" "u1" "u2" (VStr "bob")).
  - vm_compute. reflexivity.
  - vm_compute. reflexivity.
  - vm_compute. reflexivity.
  - left. reflexivity.
  - vm_compute. reflexivity.
  - reflexivity.
  - right. left.
  - vm_compute. reflexivity.
Defined.

Lemma dm_name_lookup_failures_witness :
  label_channel "u1" sample_users dm_strangers
  = Ok (<["display_name" := VStr "bob"]> dm_strangers).
Proof.
  apply (dm_name_lookup_failures (fake_driver [dm_strangers] [] ∅ 0) "t1" "u1"
           sample_users [dm_strangers] dm_strangers "u2__u3" "u2" ["u3"]).
  - vm_compute. reflexivity.
  - vm_compute. reflexivity.
  - vm_compute. reflexivity.
  - reflexivity.
  - left.
Defined.

Lemma select_channel_frame_witness :
  (exists labelled,
      Forall2 frame [sample_channel; dm_channel] labelled
      /\ sample_listing ≡ₚ labelled)
  /\ length sample_listing = 2%nat
  /\ (Forall (fun channel => channel !! "type" <> Some (VStr "D"))
        [sample_channel; dm_channel] ->
      sample_listing ≡ₚ [sample_channel; dm_channel]).
Proof.
  apply (select_channel_frame listing_driver "t1" "u1" sample_users
           [sample_channel; dm_channel] sample_listing).
  - reflexivity.
  - vm_compute. reflexivity.
Defined.

Lemma code_block_extraction_witness :
  exists (sp : simple_post) (st' : session),
    simplify_post 10 sample_driver true None None sample_session 0
      (mk_post "p9" "u1" 1704067200000 "hello ```code``` world"
         (Some [mk_file "f1" "a.txt"]))
    = Ok (Some sp, st')
    /\ sp_message sp = "hello ```code``` world"
    /\ code sp = Some "code".
Proof.
  destruct (code_block_extraction 10 sample_driver true None None
              sample_session 0
              (mk_post "p9" "u1" 1704067200000 "hello ```code``` world"
                 (Some [mk_file "f1" "a.txt"]))
              (VStr "alice") sample_users
              (Datetime.mk_datetime 2024 1 1 0 0 0))
    as (sp & st' & Hrun & Hmsg & _ & _ & Hcode & _).
  - reflexivity.
  - vm_compute. reflexivity.
  - vm_compute. reflexivity.
  - intros fs [= <-]. exists (["a.txt"], 3%nat). vm_compute. reflexivity.
  - exists sp, st'. split; [exact Hrun|]. split; [exact Hmsg|].
    apply Hcode. reflexivity.
Defined.

(** * Further properties of the code *)

(** ** [get_users] *)

Lemma user_record_username (kv : string * value) :
  user_record kv !! "username" = Some (snd kv).
Proof.
  unfold user_record. rewrite lookup_insert_ne by (intros [=]).
  apply lookup_singleton_eq.
Qed.

Lemma user_record_id (kv : string * value) :
  user_record kv !! "id" = Some (VStr (fst kv)).
Proof. unfold user_record. apply lookup_insert_eq. Qed.

Lemma add_users_records (chunk : list (string * value)) :
  forall names,
    add_users (user_record <$> chunk) names = Ok (index_of chunk names).
Proof.
  induction chunk as [|kv chunk IH]; intros names; [reflexivity|].
  rewrite fmap_cons. cbn [add_users]. unfold getitem.
  rewrite user_record_username, user_record_id. run. cbn [as_key]. run.
  now rewrite IH.
Qed.

Lemma index_of_app (l1 l2 : list (string * value)) (names : gmap string value) :
  index_of (l1 ++ l2) names = index_of l2 (index_of l1 names).
Proof. unfold index_of. apply foldl_app. Qed.

Lemma index_of_not_in (pairs : list (string * value)) :
  forall names k, k ∉ fst <$> pairs -> index_of pairs names !! k = names !! k.
Proof.
  induction pairs as [|[k' v] pairs IH]; intros names k Hk; [reflexivity|].
  csimpl in Hk. apply not_elem_of_cons in Hk as [Hne Hk].
  cbn [index_of foldl fst snd]. fold (index_of pairs (<[k' := v]> names)).
  rewrite IH by exact Hk. now rewrite lookup_insert_ne.
Qed.

Lemma index_of_last (l1 l2 : list (string * value)) (k : string) (v : value)
    (names : gmap string value) :
  k ∉ fst <$> l2 -> index_of (l1 ++ (k, v) :: l2) names !! k = Some v.
Proof.
  intros Hk. rewrite index_of_app.
  cbn [index_of foldl fst snd]. fold (index_of l2 (<[k := v]> (index_of l1 names))).
  rewrite index_of_not_in by exact Hk. apply lookup_insert_eq.
Qed.

Section UserPages.

Variable c : Client.
Variable pairs : list (string * value).
Hypothesis served :
  forall page,
    list_users c 200 page = Ok (serve_users (user_record <$> pairs) 200 page).

Lemma users_pages_served (n : nat) :
  forall page names asked fuel,
    (n + page)%nat = ceil_div (length pairs) 200 ->
    (n < fuel)%nat ->
    users_pages fuel c page names asked
    = Ok (index_of (drop (page * 200) pairs) names, asked ++ seq page (S n)).
Proof.
  induction n as [|n IH]; intros page names asked fuel Hn Hfuel;
    (destruct fuel as [|fuel]; [lia|]); cbn [users_pages];
    rewrite served, bind_Ok; unfold serve_users;
    rewrite <- fmap_drop, <- fmap_take, length_fmap, length_take, length_drop.
  - pose proof (ceil_div_gt (length pairs) page) as Hc.
    destruct (Nat.eqb_spec (200 `min` (length pairs - page * 200)) 0); [|lia].
    rewrite drop_ge by lia. reflexivity.
  - pose proof (ceil_div_gt (length pairs) page) as Hc.
    destruct (Nat.eqb_spec (200 `min` (length pairs - page * 200)) 0); [lia|].
    rewrite add_users_records, bind_Ok.
    rewrite IH by lia. f_equal. f_equal.
    + rewrite <- index_of_app. f_equal.
      replace (S page * 200)%nat with (page * 200 + 200)%nat by lia.
      rewrite <- drop_drop. apply take_drop.
    + now rewrite <- app_assoc.
Qed.

End UserPages.

(** X1. Against a server that serves its users 200 to a page, [get_users]
    asks for the pages [0 .. ceil(N/200)] and returns the index built from
    all the users in the order served, with the id of the [me] record. *)
Theorem get_users_served (fuel : nat) (c : Client) (pairs : list (string * value))
    (me : gmap string value) (my_name : value) (my_id : string) :
  get_user (driver c) "me" = Ok me ->
  me !! "username" = Some my_name ->
  me !! "id" = Some (VStr my_id) ->
  (forall page,
      list_users c 200 page = Ok (serve_users (user_record <$> pairs) 200 page)) ->
  (ceil_div (length pairs) 200 < fuel)%nat ->
  users_pages fuel c 0 ∅ []
  = Ok (index_of pairs ∅, seq 0 (ceil_div (length pairs) 200 + 1))
  /\ get_users fuel c = Ok (index_of pairs ∅, my_id).
Proof.
  intros Hme Hname Hid Hserved Hfuel.
  assert (Hrun : users_pages fuel c 0 ∅ []
                 = Ok (index_of pairs ∅, seq 0 (ceil_div (length pairs) 200 + 1))).
  { rewrite (users_pages_served c pairs Hserved (ceil_div (length pairs) 200))
      by lia.
    now rewrite Nat.add_1_r. }
  split; [exact Hrun|].
  unfold get_users, getitem. rewrite Hme. run. rewrite Hname. run.
  rewrite Hid. run. cbn [as_key]. run. now rewrite Hrun.
Qed.

(** X2. In the index that [get_users] returns, an id resolves to the name of
    the last user served under that id, and an id that no served user has
    does not resolve. *)
Theorem get_users_index (fuel : nat) (c : Client) (pairs : list (string * value))
    (me : gmap string value) (my_name : value) (my_id : string) :
  get_user (driver c) "me" = Ok me ->
  me !! "username" = Some my_name ->
  me !! "id" = Some (VStr my_id) ->
  (forall page,
      list_users c 200 page = Ok (serve_users (user_record <$> pairs) 200 page)) ->
  (ceil_div (length pairs) 200 < fuel)%nat ->
  exists names,
    get_users fuel c = Ok (names, my_id)
    /\ (forall l1 l2 k v,
          pairs = l1 ++ (k, v) :: l2 -> k ∉ fst <$> l2 -> names !! k = Some v)
    /\ (forall k, k ∉ fst <$> pairs -> names !! k = None).
Proof.
  intros Hme Hname Hid Hserved Hfuel.
  exists (index_of pairs ∅). split; [|split].
  - unfold get_users, getitem. rewrite Hme. run. rewrite Hname. run.
    rewrite Hid. run. cbn [as_key]. run.
    rewrite (users_pages_served c pairs Hserved (ceil_div (length pairs) 200))
      by lia.
    reflexivity.
  - intros l1 l2 k v -> Hk. now apply index_of_last.
  - intros k Hk. rewrite index_of_not_in by exact Hk. apply lookup_empty.
Qed.

(** X3. [get_users] reads the name of the [me] record although it does not
    use it: a record without ["username"] makes it fail with [KeyError],
    whatever the pages of users hold. *)
Theorem get_users_needs_username (fuel : nat) (c : Client)
    (me : gmap string value) :
  get_user (driver c) "me" = Ok me ->
  me !! "username" = None ->
  get_users fuel c = Raise (KeyError "username").
Proof.
  intros Hme Hname. unfold get_users, getitem. rewrite Hme. run.
  now rewrite Hname.
Qed.

(** ** The order of a listing *)

Lemma ltb_asym (a b : string) : String.ltb a b = true -> String.ltb b a = false.
Proof.
  unfold String.ltb. rewrite (String.compare_antisym b a).
  now destruct (String.compare a b).
Qed.

Lemma ltb_irrefl (a : string) : String.ltb a a = false.
Proof.
  unfold String.ltb. pose proof (String.compare_antisym a a) as H.
  now destruct (String.compare a a).
Qed.

Lemma insert_by_Sorted {A : Type} (key : A -> string) (x : A) (l : list A) :
  Sorted (fun a b => key_le (key a) (key b)) l ->
  Sorted (fun a b => key_le (key a) (key b)) (Py.insert_by key x l).
Proof.
  induction 1 as [|y l Hl IH Hhd]; cbn [Py.insert_by].
  - repeat constructor.
  - destruct (String.ltb (key y) (key x)) eqn:E.
    + constructor; [exact IH|].
      destruct Hhd as [|z l Hyz]; cbn [Py.insert_by].
      * constructor. unfold key_le. now apply ltb_asym.
      * destruct (String.ltb (key z) (key x)); constructor;
          [exact Hyz|unfold key_le; now apply ltb_asym].
    + constructor; [now constructor|]. constructor. exact E.
Qed.

Lemma sorted_Sorted {A : Type} (key : A -> string) (l : list A) :
  Sorted (fun a b => key_le (key a) (key b)) (Py.sorted key l).
Proof.
  unfold Py.sorted. induction l as [|x l IH]; cbn [foldr]; [constructor|].
  now apply insert_by_Sorted.
Qed.

(** Elements with the key [k] keep their order. *)
Lemma insert_by_filter {A : Type} (key : A -> string) (k : string) (x : A)
    (l : list A) :
  List.filter (fun a => String.eqb (key a) k) (Py.insert_by key x l)
  = List.filter (fun a => String.eqb (key a) k) (x :: l).
Proof.
  induction l as [|y l IH]; [reflexivity|]. cbn [Py.insert_by].
  destruct (String.ltb (key y) (key x)) eqn:E; [|reflexivity].
  cbn [List.filter] in *. rewrite IH.
  destruct (String.eqb_spec (key y) k) as [Hy|Hy],
           (String.eqb_spec (key x) k) as [Hx|Hx]; try reflexivity.
  rewrite Hy, Hx, ltb_irrefl in E. discriminate.
Qed.

Lemma sorted_filter {A : Type} (key : A -> string) (k : string) (l : list A) :
  List.filter (fun a => String.eqb (key a) k) (Py.sorted key l)
  = List.filter (fun a => String.eqb (key a) k) l.
Proof.
  unfold Py.sorted. induction l as [|x l IH]; [reflexivity|].
  cbn [foldr]. rewrite insert_by_filter. cbn [List.filter]. now rewrite IH.
Qed.

(** The listing with its keys: what [select_channel] sorts. *)
Lemma select_channel_keys (d : Driver) (team_id my_user_id : string)
    (names : gmap string value) (listed : list (gmap string value)) :
  select_channel d team_id my_user_id names = Ok listed ->
  exists fetched labelled keyed,
    get_channels_for_user d my_user_id team_id = Ok fetched
    /\ mapM (label_channel my_user_id names) fetched = Ok labelled
    /\ snd <$> keyed = labelled
    /\ Forall (fun p => sort_key (snd p) = Ok (fst p)) keyed
    /\ listed = snd <$> Py.sorted fst keyed.
Proof.
  unfold select_channel.
  destruct (get_channels_for_user d my_user_id team_id) as [fetched| |];
    try discriminate.
  rewrite bind_Ok.
  destruct (mapM (label_channel my_user_id names) fetched) as [labelled| |]
    eqn:Hl; try discriminate.
  rewrite bind_Ok.
  destruct (mapM sort_key labelled) as [keys| |] eqn:Hk; try discriminate.
  rewrite bind_Ok. intros [= <-].
  exists fetched, labelled, (zip keys labelled).
  split; [reflexivity|]. split; [exact Hl|].
  pose proof (mapM_length _ _ _ Hk) as Hlen.
  split; [apply snd_zip; lia|]. split; [|reflexivity].
  apply mapM_Forall2 in Hk. clear -Hk.
  induction Hk as [|ch k l ks Hch _ IH]; constructor; assumption.
Qed.

Lemma mapM_keyed (keyed : list (string * gmap string value)) :
  Forall (fun p => sort_key (snd p) = Ok (fst p)) keyed ->
  mapM sort_key (snd <$> keyed) = Ok (fst <$> keyed).
Proof.
  induction 1 as [|p l Hp _ IH]; [reflexivity|].
  rewrite !fmap_cons. cbn [mapM]. rewrite Hp. run. now rewrite IH.
Qed.

(** X4. The channels of a listing come in non-decreasing order of the
    lower-cased display name. *)
Theorem select_channel_sorted (d : Driver) (team_id my_user_id : string)
    (names : gmap string value) (listed : list (gmap string value)) :
  select_channel d team_id my_user_id names = Ok listed ->
  exists keys,
    mapM sort_key listed = Ok keys /\ Sorted key_le keys.
Proof.
  intros Hsel.
  destruct (select_channel_keys _ _ _ _ _ Hsel)
    as (fetched & labelled & keyed & _ & _ & _ & Hkeyed & ->).
  exists (fst <$> Py.sorted fst keyed). split.
  - apply mapM_keyed. rewrite Forall_forall in *. intros p Hp. apply Hkeyed.
    now rewrite <- (sorted_Permutation fst keyed).
  - eapply Sorted_fmap; [|apply (sorted_Sorted fst keyed)].
    intros x y Hxy. exact Hxy.
Qed.

Lemma filter_keyed (k : string) (keyed : list (string * gmap string value)) :
  Forall (fun p => sort_key (snd p) = Ok (fst p)) keyed ->
  List.filter (has_key k) (snd <$> keyed)
  = snd <$> List.filter (fun p => String.eqb (fst p) k) keyed.
Proof.
  induction 1 as [|p l Hp _ IH]; [reflexivity|].
  rewrite fmap_cons. cbn [List.filter]. unfold has_key at 1. rewrite Hp.
  destruct (String.eqb (fst p) k); [rewrite fmap_cons|]; now rewrite IH.
Qed.

(** X5. The sort of a listing is stable: the channels that share a sort key
    come in the order in which they were fetched. *)
Theorem select_channel_stable (d : Driver) (team_id my_user_id : string)
    (names : gmap string value) (listed : list (gmap string value)) (k : string) :
  select_channel d team_id my_user_id names = Ok listed ->
  exists fetched labelled,
    get_channels_for_user d my_user_id team_id = Ok fetched
    /\ mapM (label_channel my_user_id names) fetched = Ok labelled
    /\ List.filter (has_key k) listed = List.filter (has_key k) labelled.
Proof.
  intros Hsel.
  destruct (select_channel_keys _ _ _ _ _ Hsel)
    as (fetched & labelled & keyed & Hf & Hl & <- & Hkeyed & ->).
  exists fetched, (snd <$> keyed). split; [exact Hf|]. split; [exact Hl|].
  rewrite !filter_keyed; [now rewrite sorted_filter|exact Hkeyed|].
  rewrite Forall_forall in *. intros p Hp. apply Hkeyed.
  now rewrite <- (sorted_Permutation fst keyed).
Qed.


(** X7. Labelling is idempotent: a channel that has been labelled is left
    as it is when it is labelled again for the same caller and index. *)
Theorem label_channel_idempotent (my_user_id : string) (names : gmap string value)
    (channel channel' : gmap string value) :
  label_channel my_user_id names channel = Ok channel' ->
  label_channel my_user_id names channel' = Ok channel'.
Proof.
  unfold label_channel, getitem.
  destruct (channel !! "type") as [ty|] eqn:Hty; [|discriminate]. run.
  destruct (decide (ty = VStr "D")) as [->|Hne].
  - destruct (channel !! "name") as [name|] eqn:Hname; [|discriminate]. run.
    destruct (as_str name) as [raw| |] eqn:Hraw; try discriminate. run.
    destruct (index (Py.split raw "__") 0) as [first| |] eqn:Hfirst;
      try discriminate. run.
    destruct (if decide (first = my_user_id) then _ else _) as [other| |]
      eqn:Hother; try discriminate. run.
    destruct (names !! other) as [display|] eqn:Hdisplay; [|discriminate]. run.
    intros [= <-].
    rewrite !lookup_insert_ne by (intros [=]). rewrite Hty. run.
    rewrite decide_True by reflexivity. rewrite Hname. run.
    rewrite Hraw. run. rewrite Hfirst. run. rewrite Hother. run.
    rewrite Hdisplay. run. now rewrite insert_insert_eq.
  - intros [= <-]. rewrite Hty. run. now rewrite decide_False.
Qed.

(** ** The session of an export: the user index and the file requests *)

Lemma grown_refl (d : Driver) (names : gmap string value) : grown d names names.
Proof. split; [reflexivity|]. intros k v H. now left. Qed.

Lemma grown_trans (d : Driver) (n1 n2 n3 : gmap string value) :
  grown d n1 n2 -> grown d n2 n3 -> grown d n1 n3.
Proof.
  intros [S1 H1] [S2 H2]. split; [now transitivity n2|].
  intros k v H. destruct (H2 k v H) as [H'|H']; [|now right]. now apply H1.
Qed.

Lemma resolve_spec (d : Driver) (names names' : gmap string value)
    (uid : string) (name : value) :
  resolve d names uid = Ok (name, names') ->
  grown d names names' /\ names' !! uid = Some name.
Proof.
  unfold resolve. destruct (names !! uid) as [v|] eqn:E.
  - intros [= <- <-]. split; [apply grown_refl|exact E].
  - destruct (get_user d uid) as [user| |] eqn:Hu; try discriminate. run.
    unfold getitem. destruct (user !! "username") as [v|] eqn:Hv;
      [|discriminate]. run.
    intros [= <- <-]. split; [|apply lookup_insert_eq].
    split; [now apply insert_subseteq|].
    intros k w Hk. destruct (decide (uid = k)) as [<-|Hne].
    + rewrite lookup_insert_eq in Hk. injection Hk as <-. right. eauto.
    + rewrite lookup_insert_ne in Hk by exact Hne. now left.
Qed.

Lemma get_file_retry_spec (d : Driver) (fid : string) (fuel : nat) :
  forall n n',
    get_file_retry fuel d n fid = Ok n' ->
    exists k, n' = S (n + k)
              /\ get_file d (n + k) fid = true
              /\ forall j, (j < k)%nat -> get_file d (n + j) fid = false.
Proof.
  induction fuel as [|fuel IH]; intros n n'; cbn [get_file_retry];
    [discriminate|].
  destruct (get_file d n fid) eqn:E.
  - intros [= <-]. exists 0%nat. rewrite Nat.add_0_r.
    split; [reflexivity|]. split; [exact E|]. lia.
  - intros H. apply IH in H as (k & -> & Hk & Hj). exists (S k).
    replace (n + S k)%nat with (S n + k)%nat by lia.
    split; [reflexivity|]. split; [exact Hk|].
    intros [|j] Hlt; [now rewrite Nat.add_0_r|].
    replace (n + S j)%nat with (S n + j)%nat by lia. apply Hj. lia.
Qed.

Lemma attach_files_requests (fuel : nat) (d : Driver) (fs : list file_info) :
  forall n n' acc filenames,
    attach_files fuel d true n fs acc = Ok (filenames, n') ->
    (n + length fs <= n')%nat
    /\ forall f, f ∈ fs ->
         exists m, (n <= m < n')%nat /\ get_file d m (file_id f) = true.
Proof.
  induction fs as [|file fs IH]; intros n n' acc filenames; cbn [attach_files].
  - intros [= _ <-]. split; [cbn; lia|]. intros f Hf.
    now apply elem_of_nil in Hf.
  - destruct (get_file_retry fuel d n (file_id file)) as [m| |] eqn:Hr;
      try discriminate. run.
    intros H. apply IH in H as [Hle Hfs].
    apply get_file_retry_spec in Hr as (k & -> & Hk & _).
    split; [cbn [length]; lia|].
    intros f Hf. apply elem_of_cons in Hf as [->|Hf].
    + exists (n + k)%nat. split; [lia|exact Hk].
    + destruct (Hfs f Hf) as (m & Hm & Hg). exists m. split; [lia|exact Hg].
Qed.

Lemma listed_files_nil : listed_files [] = 0%nat.
Proof. reflexivity. Qed.

Lemma listed_files_cons (sp : simple_post) (sps : list simple_post) :
  listed_files (sp :: sps)
  = (length (default [] (files sp)) + listed_files sps)%nat.
Proof. reflexivity. Qed.

(** What one turn of the loop does to the session. *)
Lemma simplify_post_session (fuel : nat) (d : Driver) (download_files : bool)
    (before after : option Z) (st st' : session) (i : nat) (p : post)
    (osp : option simple_post) :
  simplify_post fuel d download_files before after st i p = Ok (osp, st') ->
  grown d (user_id_to_name st) (user_id_to_name st')
  /\ (file_requests st + listed_files (option_list osp) <= file_requests st')%nat
  /\ (download_files = false -> file_requests st' = file_requests st)
  /\ (forall sp, osp = Some sp ->
        user_id_to_name st' !! post_user_id p = Some (username sp))
  /\ (download_files = true ->
      forall fs f, osp <> None -> metadata_files p = Some fs -> f ∈ fs ->
        exists m, (file_requests st <= m < file_requests st')%nat
                  /\ get_file d m (file_id f) = true).
Proof.
  unfold simplify_post.
  destruct (out_of_range p before after).
  { intros [= <- <-]. split; [apply grown_refl|].
    split; [cbn; lia|]. split; [reflexivity|]. split; [discriminate|].
    intros _ fs f H. now contradict H. }
  destruct (resolve d (user_id_to_name st) (post_user_id p))
    as [[name names]| |] eqn:Hres; try discriminate. run.
  apply resolve_spec in Hres as [Hgrown Hname].
  destruct (Datetime.utcfromtimestamp (create_at p / 1000)) as [dt| |];
    try discriminate. run.
  destruct (metadata_files p) as [fs|] eqn:Hfs.
  - destruct (attach_files fuel d download_files (file_requests st) fs [])
      as [[filenames n]| |] eqn:Hat; try discriminate. run.
    intros [= <- <-]. cbn [user_id_to_name file_requests].
    split; [exact Hgrown|].
    pose proof (attach_files_spec _ _ _ _ _ _ _ _ Hat) as Hnames.
    rewrite app_nil_l in Hnames.
    destruct download_files.
    + apply attach_files_requests in Hat as [Hle Hall].
      split; [|split; [discriminate|split]].
      * cbn. rewrite Hnames, length_fmap. lia.
      * now intros sp [= <-].
      * intros _ fs' f _ [= <-] Hf. now apply Hall.
    + rewrite attach_files_without_download in Hat. injection Hat as _ <-.
      split; [|split; [reflexivity|split]].
      * cbn. rewrite Hnames. cbn. lia.
      * now intros sp [= <-].
      * discriminate.
  - intros [= <- <-]. cbn [user_id_to_name file_requests].
    split; [exact Hgrown|]. split; [cbn; lia|]. split; [reflexivity|].
    split; [now intros sp [= <-]|]. intros _ fs f _ H. discriminate.
Qed.

Lemma enumerate_from_elem {A : Type} (l : list A) :
  forall i k x, l !! k = Some x -> ((i + k)%nat, x) ∈ enumerate_from i l.
Proof.
  induction l as [|y l IH]; intros i k x; [discriminate|].
  cbn [enumerate_from]. destruct k as [|k]; cbn.
  - intros [= ->]. rewrite Nat.add_0_r. left.
  - intros H. right. replace (i + S k)%nat with (S i + k)%nat by lia.
    now apply IH.
Qed.

(** What the whole loop does to the session. *)
Lemma simplify_posts_session (fuel : nat) (d : Driver) (download_files : bool)
    (before after : option Z) (ps : list post) :
  forall (st st' : session) (i : nat) (acc out : list simple_post),
    simplify_posts fuel d download_files before after st i ps acc = Ok (out, st') ->
    exists new,
      out = acc ++ new
      /\ grown d (user_id_to_name st) (user_id_to_name st')
      /\ (file_requests st + listed_files new <= file_requests st')%nat
      /\ (download_files = false -> file_requests st' = file_requests st)
      /\ Forall2 (fun ip sp =>
                    user_id_to_name st' !! post_user_id (snd ip)
                    = Some (username sp))
           (List.filter (fun ip => negb (out_of_range (snd ip) before after))
                        (enumerate_from i ps))
           new
      /\ (download_files = true ->
          forall ip fs f,
            ip ∈ List.filter (fun ip => negb (out_of_range (snd ip) before after))
                   (enumerate_from i ps) ->
            metadata_files (snd ip) = Some fs -> f ∈ fs ->
            exists m, (file_requests st <= m < file_requests st')%nat
                      /\ get_file d m (file_id f) = true).
Proof.
  induction ps as [|p ps IH]; intros st st' i acc out; cbn [simplify_posts].
  - intros [= <- <-]. exists []. split; [now rewrite app_nil_r|].
    split; [apply grown_refl|]. split; [cbn; lia|]. split; [reflexivity|].
    split; [constructor|]. intros _ ip fs f H. now apply elem_of_nil in H.
  - destruct (simplify_post fuel d download_files before after st i p)
      as [[osp st1]| |] eqn:Hp; try discriminate. run.
    intros H. apply IH in H as (new & -> & Hg & Hreq & Hno & HF & Hdl).
    pose proof (simplify_post_spec _ _ _ _ _ _ _ _ _ _ Hp) as Hosp.
    apply simplify_post_session in Hp as (Hg1 & Hreq1 & Hno1 & Hname1 & Hdl1).
    cbn [enumerate_from List.filter snd].
    destruct (out_of_range p before after); cbn [negb].
    + subst osp. exists new. split; [reflexivity|].
      split; [eapply grown_trans; eassumption|].
      split; [cbn in Hreq1; lia|].
      split; [intros E; rewrite (Hno E); now apply Hno1|].
      split; [exact HF|].
      intros E ip fs f Hip Hfs Hf.
      destruct (Hdl E ip fs f Hip Hfs Hf) as (m & Hm & Hget).
      exists m. split; [cbn in Hreq1; lia|exact Hget].
    + destruct Hosp as (sp & -> & _). exists (sp :: new).
      split; [now rewrite <- app_assoc|].
      split; [eapply grown_trans; eassumption|].
      split.
      { rewrite listed_files_cons.
        change (option_list (Some sp)) with [sp] in Hreq1.
        rewrite listed_files_cons, listed_files_nil in Hreq1. lia. }
      split; [intros E; rewrite (Hno E); now apply Hno1|].
      split.
      { constructor; [|exact HF]. cbn [snd].
        eapply lookup_weaken; [now apply Hname1|apply Hg]. }
      intros E ip fs f Hip Hfs Hf.
      apply elem_of_cons in Hip as [->|Hip].
      * destruct (Hdl1 E fs f ltac:(discriminate) Hfs Hf) as (m & Hm & Hget).
        exists m. split; [lia|exact Hget].
      * destruct (Hdl E ip fs f Hip Hfs Hf) as (m & Hm & Hget).
        exists m. split; [lia|exact Hget].
Qed.

(** X8. An export only adds to the user index: every entry it had is kept
    as it was, and an entry that is new holds the name that [get_user]
    gives for that id. *)
Theorem export_channel_index_grows (fuel : nat) (h : Host) (d : Driver)
    (st st' : session) (channel : gmap string value) (download_files : bool)
    (before after : option string) (out : output) :
  export_channel fuel h d st channel download_files before after = Ok (out, st') ->
  user_id_to_name st ⊆ user_id_to_name st'
  /\ forall k v, user_id_to_name st' !! k = Some v ->
       user_id_to_name st !! k = Some v
       \/ exists user, get_user d k = Ok user /\ user !! "username" = Some v.
Proof.
  intros Hexp.
  destruct (export_channel_inv _ _ _ _ _ _ _ _ _ _ Hexp)
    as (before' & after' & cid & all_posts & asked & now
        & _ & _ & _ & _ & Hsimp & _).
  apply simplify_posts_session in Hsimp as (new & _ & Hg & _).
  exact Hg.
Qed.

(** X9. The name in an exported record is the entry of the post's author in
    the user index as the export leaves it; for an author that the index
    knew before the export it is the name the index had. *)
Theorem export_channel_usernames (fuel : nat) (h : Host) (d : Driver)
    (st st' : session) (channel : gmap string value) (download_files : bool)
    (before after : option string) (out : output) (cid : value)
    (all_posts : list post) (asked : list nat) :
  channel !! "id" = Some cid ->
  fetch_all_posts fuel d cid = Ok (all_posts, asked) ->
  export_channel fuel h d st channel download_files before after = Ok (out, st') ->
  exists kept : list post,
    kept `sublist_of` reverse all_posts
    /\ Forall2 (fun p sp =>
                  id sp = post_id p
                  /\ user_id_to_name st' !! post_user_id p = Some (username sp)
                  /\ forall v, user_id_to_name st !! post_user_id p = Some v ->
                               username sp = v)
         kept (out_posts out).
Proof.
  intros Hcid Hfetch Hexp.
  destruct (export_channel_inv _ _ _ _ _ _ _ _ _ _ Hexp)
    as (before' & after' & cid' & all' & asked' & now
        & _ & _ & Hcid' & Hfetch' & Hsimp & _).
  rewrite Hcid in Hcid'. injection Hcid' as <-.
  rewrite Hfetch in Hfetch'. injection Hfetch' as <- <-.
  pose proof (simplify_posts_spec _ _ _ _ _ _ _ _ _ _ _ Hsimp)
    as (new & Hnew & HF).
  apply simplify_posts_session in Hsimp as (new' & Hnew' & [Hsub _] & _ & _ & HU & _).
  rewrite app_nil_l in Hnew, Hnew'. subst new new'.
  exists (snd <$> List.filter
                    (fun ip => negb (out_of_range (snd ip) before' after'))
                    (enumerate_from 0 (reverse all_posts))).
  split; [apply kept_sublist|].
  apply Forall2_fmap_l.
  revert HF HU. generalize (out_posts out).
  induction (List.filter _ _) as [|ip l IH]; intros sps HF HU;
    inversion HF; inversion HU; subst; try discriminate; constructor.
  - match goal with H : _ :: _ = _ :: _ |- _ => injection H as <- <- end.
    match goal with H : exported_as _ _ _ _ |- _ => destruct H as (_ & Hid & _) end.
    split; [exact Hid|]. split; [assumption|].
    intros v Hv. eapply lookup_weaken in Hv; [|exact Hsub]. congruence.
  - match goal with H : _ :: _ = _ :: _ |- _ => injection H as <- <- end.
    now apply IH.
Qed.

(** X10. An export without downloads issues no file request; with downloads
    it issues at least one request for every file name that it lists. *)
Theorem export_channel_file_requests (fuel : nat) (h : Host) (d : Driver)
    (st st' : session) (channel : gmap string value) (download_files : bool)
    (before after : option string) (out : output) :
  export_channel fuel h d st channel download_files before after = Ok (out, st') ->
  (file_requests st + listed_files (out_posts out) <= file_requests st')%nat
  /\ (download_files = false -> file_requests st' = file_requests st).
Proof.
  intros Hexp.
  destruct (export_channel_inv _ _ _ _ _ _ _ _ _ _ Hexp)
    as (before' & after' & cid & all_posts & asked & now
        & _ & _ & _ & _ & Hsimp & _).
  apply simplify_posts_session in Hsimp as (new & Hnew & _ & Hreq & Hno & _).
  rewrite app_nil_l in Hnew. subst new. split; assumption.
Qed.

(** X11. An export with downloads returns only after every file of every
    exported post has been fetched: for each such file one of the requests
    issued during the export, for its id, has succeeded. *)
Theorem export_channel_downloads (fuel : nat) (h : Host) (d : Driver)
    (st st' : session) (channel : gmap string value)
    (before after : option string) (out : output) (cid : value)
    (all_posts : list post) (asked : list nat)
    (before' after' : option Z) (p : post) (fs : list file_info) (f : file_info) :
  channel !! "id" = Some cid ->
  fetch_all_posts fuel d cid = Ok (all_posts, asked) ->
  to_instant h before = Ok before' ->
  to_instant h after = Ok after' ->
  export_channel fuel h d st channel true before after = Ok (out, st') ->
  p ∈ all_posts ->
  out_of_range p before' after' = false ->
  metadata_files p = Some fs ->
  f ∈ fs ->
  exists m, (file_requests st <= m < file_requests st')%nat
            /\ get_file d m (file_id f) = true.
Proof.
  intros Hcid Hfetch Hb Ha Hexp Hp Hrange Hfs Hf.
  destruct (export_channel_inv _ _ _ _ _ _ _ _ _ _ Hexp)
    as (b' & a' & cid' & all' & asked' & now
        & Hb' & Ha' & Hcid' & Hfetch' & Hsimp & _).
  rewrite Hcid in Hcid'. injection Hcid' as <-.
  rewrite Hfetch in Hfetch'. injection Hfetch' as <- <-.
  rewrite Hb in Hb'. injection Hb' as <-.
  rewrite Ha in Ha'. injection Ha' as <-.
  apply simplify_posts_session in Hsimp as (new & _ & _ & _ & _ & _ & Hdl).
  apply elem_of_reverse, list_elem_of_lookup_1 in Hp as [i Hi].
  apply (Hdl eq_refl (i, p) fs f); [|exact Hfs|exact Hf].
  rewrite list_elem_of_In. apply filter_In. split.
  - rewrite <- list_elem_of_In.
    exact (enumerate_from_elem (reverse all_posts) 0 i p Hi).
  - cbn [snd]. now rewrite Hrange.
Qed.

(** ** Loops that wait for the collaborator *)

(** X12. The download of a file returns right after the first request that
    succeeds, however many requests fail before it. *)
Theorem get_file_retry_first_success (fuel : nat) (d : Driver) (fid : string)
    (n k : nat) :
  (forall j, (j < k)%nat -> get_file d (n + j) fid = false) ->
  get_file d (n + k) fid = true ->
  (k < fuel)%nat ->
  get_file_retry fuel d n fid = Ok (S (n + k)).
Proof.
  revert n fuel. induction k as [|k IH]; intros n fuel Hfail Hok Hfuel;
    (destruct fuel as [|fuel]; [lia|]); cbn [get_file_retry].
  - rewrite Nat.add_0_r in Hok. rewrite Hok. now rewrite Nat.add_0_r.
  - rewrite <- (Nat.add_0_r n) at 1. rewrite (Hfail 0%nat) by lia.
    replace (n + S k)%nat with (S n + k)%nat in * by lia.
    apply IH; [|exact Hok|lia].
    intros j Hj. replace (S n + j)%nat with (n + S j)%nat by lia.
    apply Hfail. lia.
Qed.

(** X13. The download of a file is never given up: while every request
    fails, the loop goes on, whatever the number of turns allowed. *)
Theorem get_file_retry_never_gives_up (d : Driver) (fid : string) (n : nat) :
  (forall j, get_file d (n + j) fid = false) ->
  forall fuel, get_file_retry fuel d n fid = OutOfFuel.
Proof.
  intros Hfail fuel. revert n Hfail.
  induction fuel as [|fuel IH]; intros n Hfail; cbn [get_file_retry];
    [reflexivity|].
  rewrite <- (Nat.add_0_r n) at 1. rewrite Hfail. apply IH.
  intros j. replace (S n + j)%nat with (n + S j)%nat by lia. apply Hfail.
Qed.

(** X14. The aggregation has no limit of pages: while the collaborator
    keeps returning pages that hold posts, the loop goes on. *)
Theorem fetch_all_posts_unbounded (d : Driver) (cid : value) :
  (forall page, exists resp fetched,
      get_posts_for_channel d cid 200 page = Ok resp
      /\ size (posts resp) <> 0%nat
      /\ mapM (getitem (posts resp)) (order resp) = Ok fetched) ->
  forall fuel, fetch_all_posts fuel d cid = OutOfFuel.
Proof.
  intros Hpages fuel. unfold fetch_all_posts.
  generalize 0%nat (@nil post) (@nil nat).
  induction fuel as [|fuel IH]; intros page all_posts asked;
    cbn [fetch_pages]; [reflexivity|].
  destruct (Hpages page) as (resp & fetched & -> & Hsize & Hm). run.
  destruct (Nat.eqb_spec (size (posts resp)) 0); [contradiction|].
  rewrite Hm. run. apply IH.
Qed.

Lemma fetch_pages_fails (d : Driver) (cid : value) (e : exn) (k : nat) :
  forall page all_posts asked fuel,
    (forall j, (j < k)%nat -> exists resp fetched,
        get_posts_for_channel d cid 200 (page + j) = Ok resp
        /\ size (posts resp) <> 0%nat
        /\ mapM (getitem (posts resp)) (order resp) = Ok fetched) ->
    (get_posts_for_channel d cid 200 (page + k) = Raise e
     \/ exists resp,
          get_posts_for_channel d cid 200 (page + k) = Ok resp
          /\ size (posts resp) <> 0%nat
          /\ mapM (getitem (posts resp)) (order resp) = Raise e) ->
    (k < fuel)%nat ->
    fetch_pages fuel d cid page all_posts asked = Raise e.
Proof.
  induction k as [|k IH]; intros page all_posts asked fuel Hok Hfail Hfuel;
    (destruct fuel as [|fuel]; [lia|]); cbn [fetch_pages].
  - rewrite Nat.add_0_r in Hfail.
    destruct Hfail as [->|(resp & -> & Hsize & Hm)]; [reflexivity|]. run.
    destruct (Nat.eqb_spec (size (posts resp)) 0); [contradiction|].
    now rewrite Hm.
  - destruct (Hok 0%nat) as (resp & fetched & Hresp & Hsize & Hm); [lia|].
    rewrite Nat.add_0_r in Hresp. rewrite Hresp. run.
    destruct (Nat.eqb_spec (size (posts resp)) 0); [contradiction|].
    rewrite Hm. run. apply IH; [| |lia].
    + intros j Hj. replace (S page + j)%nat with (page + S j)%nat by lia.
      apply Hok. lia.
    + now replace (S page + k)%nat with (page + S k)%nat by lia.
Qed.

(** X15. A page that cannot be fetched, or whose ordering array names a post
    that the page does not hold, aborts the export of the channel with that
    error: the posts of the pages before it are not exported. *)
Theorem export_channel_fetch_failed (fuel : nat) (h : Host) (d : Driver)
    (st : session) (channel : gmap string value) (download_files : bool)
    (before after : option string) (before' after' : option Z)
    (display_name : string) (cid : value) (k : nat) (e : exn) :
  channel !! "display_name" = Some (VStr display_name) ->
  channel !! "id" = Some cid ->
  to_instant h before = Ok before' ->
  to_instant h after = Ok after' ->
  (forall j, (j < k)%nat -> exists resp fetched,
      get_posts_for_channel d cid 200 j = Ok resp
      /\ size (posts resp) <> 0%nat
      /\ mapM (getitem (posts resp)) (order resp) = Ok fetched) ->
  (get_posts_for_channel d cid 200 k = Raise e
   \/ exists resp,
        get_posts_for_channel d cid 200 k = Ok resp
        /\ size (posts resp) <> 0%nat
        /\ mapM (getitem (posts resp)) (order resp) = Raise e) ->
  (k < fuel)%nat ->
  fetch_all_posts fuel d cid = Raise e
  /\ export_channel fuel h d st channel download_files before after = Raise e.
Proof.
  intros Hdn Hcid Hb Ha Hok Hfail Hfuel.
  assert (Hfetch : fetch_all_posts fuel d cid = Raise e).
  { unfold fetch_all_posts. now apply (fetch_pages_fails d cid e k). }
  split; [exact Hfetch|].
  unfold export_channel, getitem. rewrite Hdn. run. rewrite Ha. run.
  rewrite Hb. run. rewrite Hcid. run. now rewrite Hfetch.
Qed.

(** X16. A boundary that is not a date aborts the export before anything is
    asked of the collaborator: the error of the conversion comes back
    whatever server the export is run against, [after] being converted
    first. *)
Theorem export_channel_bad_boundary (fuel : nat) (h : Host) (d : Driver)
    (st : session) (channel : gmap string value) (download_files : bool)
    (before after : option string) (display_name : string) (e : exn) :
  channel !! "display_name" = Some (VStr display_name) ->
  (to_instant h after = Raise e
   \/ (exists after', to_instant h after = Ok after')
      /\ to_instant h before = Raise e) ->
  export_channel fuel h d st channel download_files before after = Raise e.
Proof.
  intros Hdn Hbad. unfold export_channel, getitem. rewrite Hdn. run.
  destruct Hbad as [->|[[after' ->] ->]]; reflexivity.
Qed.

(** ** The shape of a message with a code block *)

Lemma drop_empty (n : nat) : Py.drop n EmptyString = EmptyString.
Proof. now destruct n. Qed.

Lemma drop_add (a b : nat) :
  forall s, Py.drop (a + b) s = Py.drop b (Py.drop a s).
Proof.
  induction a as [|a IH]; intros s; [reflexivity|].
  destruct s as [|c s]; cbn [Nat.add Py.drop]; [now rewrite drop_empty|].
  apply IH.
Qed.

Lemma substring_drop (n m : nat) :
  forall s, String.substring n m s = String.substring 0 m (Py.drop n s).
Proof.
  induction n as [|n IH]; intros s; [reflexivity|].
  destruct s as [|c s]; cbn [String.substring Py.drop]; [now destruct m|].
  apply IH.
Qed.

Lemma substring_0_0 (s : string) : String.substring 0 0 s = EmptyString.
Proof. now destruct s. Qed.

Lemma substring_then_drop (n : nat) :
  forall s, s = String.substring 0 n s +:+ Py.drop n s.
Proof.
  induction n as [|n IH]; intros s; [now rewrite substring_0_0|].
  destruct s as [|c s]; cbn [String.substring Py.drop]; [reflexivity|].
  rewrite append_cons. f_equal. apply IH.
Qed.

Lemma startswith_drop (sub : string) :
  forall s, Py.startswith sub s = true ->
            s = sub +:+ Py.drop (String.length sub) s.
Proof.
  unfold Py.startswith.
  induction sub as [|a sub IH]; intros s; [reflexivity|].
  destruct s as [|c s]; cbn [String.prefix String.length Py.drop];
    [discriminate|].
  destruct (ascii_dec a c) as [->|]; [|discriminate].
  intros H. rewrite append_cons. f_equal. now apply IH.
Qed.

(** X17. A code block that is extracted is not empty, and the message is
    made of some text, a fence, the code, a fence, and some text. *)
Theorem extract_code_between_fences (msg c : string) :
  extract_code msg = Some c ->
  c <> EmptyString
  /\ exists pre post, msg = pre +:+ "```" +:+ c +:+ "```" +:+ post.
Proof.
  unfold extract_code.
  destruct (Nat.ltb_spec 1 (Py.count msg "```")) as [Hcount|]; [|discriminate].
  destruct (first_and_last_occurrence "`" "``" msg Hcount)
    as (f & l & Hf & Hl & Hfo & _ & Hlo & _ & Hle & Hlen).
  cbn [String.length] in Hle, Hlen.
  rewrite Hf, Hl.
  replace (Z.of_nat f + 3) with (Z.of_nat (f + 3)) by lia.
  rewrite slice_substring by lia.
  destruct (String.length _ =? 0)%nat eqn:Hempty; [discriminate|].
  intros [= <-]. split.
  - intros E. rewrite E in Hempty. discriminate.
  - exists (String.substring 0 f msg), (Py.drop (l + 3) msg).
    rewrite (substring_then_drop f msg) at 1. f_equal.
    unfold occurs_at in Hfo, Hlo.
    rewrite (startswith_drop _ _ Hfo) at 1. f_equal.
    cbn [String.length]. rewrite <- drop_add.
    rewrite (substring_then_drop (l - (f + 3)) (Py.drop (f + 3) msg)) at 1.
    rewrite <- substring_drop. f_equal.
    rewrite <- drop_add. replace (f + 3 + (l - (f + 3)))%nat with l by lia.
    rewrite (startswith_drop _ _ Hlo) at 1. f_equal.
    cbn [String.length]. now rewrite <- drop_add.
Qed.

(** ** The channel block *)

Lemma assemble_block (fuel : nat) (h : Host) (d : Driver)
    (st st' : session) (channel : gmap string value) (download_files : bool)
    (before after : option string) (out : output) :
  export_channel fuel h d st channel download_files before after = Ok (out, st') ->
  channel !! "name" = Some (cb_name (out_channel out))
  /\ channel !! "display_name" = Some (cb_display_name (out_channel out))
  /\ channel !! "header" = Some (cb_header (out_channel out))
  /\ channel !! "id" = Some (cb_id (out_channel out))
  /\ channel !! "team_id" = Some (cb_team_id (out_channel out))
  /\ exists team,
       get_team d (cb_team_id (out_channel out)) = Ok team
       /\ team !! "name" = Some (cb_team (out_channel out)).
Proof.
  unfold export_channel, assemble, getitem.
  destruct (channel !! "display_name") as [dn|]; [|discriminate]. run.
  destruct (as_str dn) as [?| |]; try discriminate. run.
  destruct (to_instant h after) as [after'| |]; try discriminate. run.
  destruct (to_instant h before) as [before'| |]; try discriminate. run.
  destruct (channel !! "id") as [cid|]; [|discriminate]. run.
  destruct (fetch_all_posts fuel d cid) as [[all_posts asked]| |];
    try discriminate. run.
  destruct (simplify_posts _ _ _ _ _ _ _ _ _) as [[sps st1]| |];
    try discriminate. run.
  destruct (channel !! "name"); [|discriminate]. run.
  destruct (channel !! "header"); [|discriminate]. run.
  destruct (channel !! "team_id") as [tid|]; [|discriminate]. run.
  destruct (get_team d tid) as [team| |] eqn:Hteam; try discriminate. run.
  destruct (team !! "name") eqn:Hname; [|discriminate]. run.
  destruct (Datetime.fromtimestamp (utcoffset h (clock h)) (clock h)) as [now| |];
    try discriminate. run.
  intros [= <- <-]. cbn.
  repeat split; try reflexivity. now exists team.
Qed.

(** X18. The channel block of a document carries the name, display name,
    header, id and team id of the channel as they are, and the name of the
    team that [get_team] gives for that team id. *)
Theorem export_channel_block (fuel : nat) (h : Host) (d : Driver)
    (st st' : session) (channel : gmap string value) (download_files : bool)
    (before after : option string) (out : output) :
  export_channel fuel h d st channel download_files before after = Ok (out, st') ->
  channel !! "name" = Some (cb_name (out_channel out))
  /\ channel !! "display_name" = Some (cb_display_name (out_channel out))
  /\ channel !! "header" = Some (cb_header (out_channel out))
  /\ channel !! "id" = Some (cb_id (out_channel out))
  /\ channel !! "team_id" = Some (cb_team_id (out_channel out))
  /\ exists team,
       get_team d (cb_team_id (out_channel out)) = Ok team
       /\ team !! "name" = Some (cb_team (out_channel out)).
Proof. apply assemble_block. Qed.

(** ** The endpoint *)

Lemma export_loop_spec (fuel : nat) (hosts : nat -> Host) (c : Client)
    (cfg : config) (channels : list string) :
  forall (st st' : session) (i : nat) (acc results : list output),
    export_loop fuel hosts c cfg st i channels acc = Ok (results, st') ->
    exists new,
      results = acc ++ new
      /\ Forall2 (fun cid out =>
                    exists channel,
                      get_channel c cid = Ok channel
                      /\ channel !! "id" = Some (cb_id (out_channel out))
                      /\ channel !! "name" = Some (cb_name (out_channel out)))
           channels new.
Proof.
  induction channels as [|cid channels IH]; intros st st' i acc results;
    cbn [export_loop].
  - intros [= <- _]. exists []. split; [now rewrite app_nil_r|constructor].
  - destruct (get_channel c cid) as [channel| |] eqn:Hch; try discriminate. run.
    destruct (cfg_download_files cfg) as [dl|]; [|discriminate].
    cbn [required]. run.
    destruct (export_channel _ _ _ _ _ _ _ _) as [[out st1]| |] eqn:Hexp;
      try discriminate. run.
    intros H. apply IH in H as (new & -> & HF).
    exists (out :: new). split; [now rewrite <- app_assoc|].
    constructor; [|exact HF].
    apply assemble_block in Hexp as (Hname & _ & _ & Hid & _).
    now exists channel.
Qed.

Lemma export_loop_app (fuel : nat) (hosts : nat -> Host) (c : Client)
    (cfg : config) (pre rest : list string) :
  forall (st : session) (i : nat) (acc : list output),
    export_loop fuel hosts c cfg st i (pre ++ rest) acc
    = '(outs, st1) ← export_loop fuel hosts c cfg st i pre acc;
      export_loop fuel hosts c cfg st1 (i + length pre) rest outs.
Proof.
  induction pre as [|cid pre IH]; intros st i acc.
  - cbn [app export_loop length]. run. now rewrite Nat.add_0_r.
  - cbn [app export_loop length].
    destruct (get_channel c cid) as [channel| |]; try reflexivity. run.
    destruct (required "download_files" (cfg_download_files cfg))
      as [dl| |]; try reflexivity. run.
    destruct (export_channel _ _ _ _ _ _ _ _) as [[out st1]| |];
      try reflexivity. run.
    rewrite IH. now replace (S i + length pre)%nat with (i + S (length pre))%nat by lia.
Qed.

(** X19. A request that succeeds returns one document per requested channel
    id, in the order of the request: the [i]-th document carries the id and
    the name of the channel that [get_channel] gives for the [i]-th id. *)
Theorem export_one_document_per_channel (fuel : nat) (net : Network)
    (hosts : nat -> Host) (data : job) (results : list output) :
  export fuel net hosts data = Ok results ->
  exists cfg host channels,
    job_config data = Some cfg
    /\ cfg_host cfg = Some host
    /\ job_channels data = Some channels
    /\ Forall2 (fun cid out =>
                  exists channel,
                    get_channel (net host (cfg_token cfg) (cfg_username cfg)
                                   (cfg_password cfg)) cid = Ok channel
                    /\ channel !! "id" = Some (cb_id (out_channel out))
                    /\ channel !! "name" = Some (cb_name (out_channel out)))
         channels results.
Proof.
  unfold export, connect.
  destruct (job_config data) as [cfg|] eqn:Hcfg; [|discriminate]. run.
  destruct (cfg_host cfg) as [host|] eqn:Hhost; [|discriminate].
  cbn [required]. run.
  set (c := net host (cfg_token cfg) (cfg_username cfg) (cfg_password cfg)).
  destruct (login c) as [[]| |]; try discriminate. run.
  destruct (get_users fuel c) as [[names my_id]| |]; try discriminate. run.
  destruct (job_channels data) as [channels|] eqn:Hchannels; [|discriminate].
  run.
  destruct (export_loop _ _ _ _ _ _ _ _) as [[outs st']| |] eqn:Hloop;
    try discriminate. run.
  intros [= <-]. exists cfg, host, channels.
  split; [reflexivity|]. split; [exact Hhost|]. split; [reflexivity|].
  apply export_loop_spec in Hloop as (new & Hnew & HF).
  rewrite app_nil_l in Hnew. now subst new.
Qed.

(** X20. The option [download_files] is read when a channel is exported, not
    before: a request without it fails with [KeyError] once its first
    channel has been fetched, and returns the empty list when it asks for
    no channel. *)
Theorem export_download_files_required (fuel : nat) (net : Network)
    (hosts : nat -> Host) (data : job) (cfg : config) (host : string)
    (names : gmap string value) (my_id : string) :
  job_config data = Some cfg ->
  cfg_host cfg = Some host ->
  cfg_download_files cfg = None ->
  login (net host (cfg_token cfg) (cfg_username cfg) (cfg_password cfg)) = Ok tt ->
  get_users fuel (net host (cfg_token cfg) (cfg_username cfg) (cfg_password cfg))
  = Ok (names, my_id) ->
  match job_channels data with
  | None => export fuel net hosts data = Raise TypeError
  | Some [] => export fuel net hosts data = Ok []
  | Some (cid :: _) =>
      export fuel net hosts data
      = match get_channel (net host (cfg_token cfg) (cfg_username cfg)
                             (cfg_password cfg)) cid with
        | Ok _ => Raise (KeyError "download_files")
        | Raise e => Raise e
        | OutOfFuel => OutOfFuel
        end
  end.
Proof.
  intros Hcfg Hhost Hdl Hlogin Husers. unfold export, connect.
  rewrite Hcfg. run. rewrite Hhost. cbn [required]. run.
  rewrite Hlogin. run. rewrite Husers. run.
  destruct (job_channels data) as [[|cid rest]|]; [reflexivity| |reflexivity].
  run. cbn [export_loop].
  destruct (get_channel _ cid) as [channel| |]; try reflexivity. run.
  now rewrite Hdl.
Qed.

(** X21. A channel that cannot be exported fails the whole request: the
    documents of the channels exported before it are not returned. *)
Theorem export_first_failure_aborts (fuel : nat) (net : Network)
    (hosts : nat -> Host) (data : job) (cfg : config) (host : string)
    (names : gmap string value) (my_id : string)
    (pre post : list string) (cid : string) (outs : list output)
    (st1 : session) (e : exn) :
  job_config data = Some cfg ->
  cfg_host cfg = Some host ->
  login (net host (cfg_token cfg) (cfg_username cfg) (cfg_password cfg)) = Ok tt ->
  get_users fuel (net host (cfg_token cfg) (cfg_username cfg) (cfg_password cfg))
  = Ok (names, my_id) ->
  job_channels data = Some (pre ++ cid :: post) ->
  export_loop fuel hosts
    (net host (cfg_token cfg) (cfg_username cfg) (cfg_password cfg)) cfg
    (mk_session names 0) 0 pre [] = Ok (outs, st1) ->
  (get_channel (net host (cfg_token cfg) (cfg_username cfg) (cfg_password cfg))
     cid = Raise e
   \/ exists channel download_files,
        get_channel (net host (cfg_token cfg) (cfg_username cfg)
                       (cfg_password cfg)) cid = Ok channel
        /\ cfg_download_files cfg = Some download_files
        /\ export_channel fuel (hosts (length pre))
             (driver (net host (cfg_token cfg) (cfg_username cfg)
                        (cfg_password cfg)))
             st1 channel download_files (cfg_before cfg) (cfg_after cfg)
           = Raise e) ->
  export fuel net hosts data = Raise e.
Proof.
  intros Hcfg Hhost Hlogin Husers Hchannels Hpre Hfail.
  unfold export, connect.
  rewrite Hcfg. run. rewrite Hhost. cbn [required]. run.
  rewrite Hlogin. run. rewrite Husers. run. rewrite Hchannels. run.
  rewrite export_loop_app, Hpre. run. cbn [export_loop Nat.add].
  destruct Hfail as [->|(channel & dl & -> & -> & Hexp)]; [reflexivity|].
  cbn [required]. run. now rewrite Hexp.
Qed.

(** ** When an export returns *)

Lemma get_file_retry_total (d : Driver) (fid : string) (fuel : nat) :
  forall n,
    (exists k, (k < fuel)%nat /\ get_file d (n + k) fid = true) ->
    exists n', get_file_retry fuel d n fid = Ok n'.
Proof.
  induction fuel as [|fuel IH]; intros n (k & Hk & Hget); [lia|].
  cbn [get_file_retry]. destruct (get_file d n fid) eqn:E; [eauto|].
  destruct k as [|k]; [rewrite Nat.add_0_r in Hget; congruence|].
  apply IH. exists k. split; [lia|].
  now replace (S n + k)%nat with (n + S k)%nat by lia.
Qed.

Lemma attach_files_total (fuel : nat) (d : Driver) (download_files : bool)
    (fs : list file_info) :
  (download_files = true ->
   forall n fid, exists k, (k < fuel)%nat /\ get_file d (n + k) fid = true) ->
  forall n acc, exists filenames n',
    attach_files fuel d download_files n fs acc = Ok (filenames, n').
Proof.
  intros Hget. induction fs as [|file fs IH]; intros n acc; cbn [attach_files];
    [eauto|].
  destruct download_files; [|apply IH].
  destruct (get_file_retry_total d (file_id file) fuel n (Hget eq_refl _ _))
    as [n' ->].
  run. apply IH.
Qed.

Lemma simplify_posts_total (fuel : nat) (d : Driver) (download_files : bool)
    (before after : option Z) (names0 : gmap string value) (ps : list post) :
  (download_files = true ->
   forall n fid, exists k, (k < fuel)%nat /\ get_file d (n + k) fid = true) ->
  (forall p, p ∈ ps ->
     (is_Some (names0 !! post_user_id p)
      \/ exists user name, get_user d (post_user_id p) = Ok user
                           /\ user !! "username" = Some name)
     /\ exists dt, Datetime.utcfromtimestamp (create_at p / 1000) = Ok dt) ->
  forall st i acc,
    names0 ⊆ user_id_to_name st ->
    exists out st',
      simplify_posts fuel d download_files before after st i ps acc
      = Ok (out, st').
Proof.
  intros Hget. induction ps as [|p ps IH]; intros Hps st i acc Hsub;
    cbn [simplify_posts]; [eauto|].
  assert (Hstep : exists osp st1,
             simplify_post fuel d download_files before after st i p
             = Ok (osp, st1)).
  { destruct (Hps p) as [Huser [dt Hdt]]; [left|].
    unfold simplify_post. destruct (out_of_range p before after); [eauto|].
    assert (Hres : exists name names,
               resolve d (user_id_to_name st) (post_user_id p)
               = Ok (name, names)).
    { unfold resolve.
      destruct (user_id_to_name st !! post_user_id p) as [v|] eqn:E; [eauto|].
      destruct Huser as [[v Hv]|(user & name & -> & Hname)].
      - eapply lookup_weaken in Hv; [|exact Hsub]. congruence.
      - run. unfold getitem. rewrite Hname. run. eauto. }
    destruct Hres as (name & names & ->). run. rewrite Hdt. run.
    destruct (metadata_files p) as [fs|]; [|eauto].
    destruct (attach_files_total fuel d download_files fs Hget
                (file_requests st) []) as (filenames & n' & ->).
    run. eauto. }
  destruct Hstep as (osp & st1 & Hstep). rewrite Hstep. run.
  apply IH.
  - intros q Hq. apply Hps. now right.
  - apply simplify_post_session in Hstep as [[Hsub1 _] _].
    now transitivity (user_id_to_name st).
Qed.

(** X22. An export returns a document when the channel has its five fields,
    each boundary is absent or a date that the host converts to an instant
    (the conversion raises for the first day of the year 1, and wherever
    the zone of the host takes it outside the years 1 to 9999), the server
    holds the posts (with distinct
    ids) and the team, every author is in the user index or known to the
    server, every instant falls in the years 1 to 9999, every file request
    goes through within the turns allowed when files are downloaded, and
    the turns allowed exceed the number of pages. *)
Theorem export_channel_returns (fuel : nat) (h : Host) (d : Driver)
    (st : session) (channel : gmap string value) (download_files : bool)
    (before after : option string) (before' after' : option Z)
    (ps : list post) (display_name : string) (name header cid tid tname : value)
    (team : gmap string value) (now : Datetime.datetime) :
  channel !! "display_name" = Some (VStr display_name) ->
  channel !! "name" = Some name ->
  channel !! "header" = Some header ->
  channel !! "id" = Some cid ->
  channel !! "team_id" = Some tid ->
  get_team d tid = Ok team ->
  team !! "name" = Some tname ->
  to_instant h before = Ok before' ->
  to_instant h after = Ok after' ->
  Datetime.fromtimestamp (utcoffset h (clock h)) (clock h) = Ok now ->
  (forall page, get_posts_for_channel d cid 200 page = Ok (serve ps 200 page)) ->
  NoDup (post_id <$> ps) ->
  (ceil_div (length ps) 200 < fuel)%nat ->
  (forall p, p ∈ ps ->
     (is_Some (user_id_to_name st !! post_user_id p)
      \/ exists user uname, get_user d (post_user_id p) = Ok user
                            /\ user !! "username" = Some uname)
     /\ exists dt, Datetime.utcfromtimestamp (create_at p / 1000) = Ok dt) ->
  (download_files = true ->
   forall n fid, exists k, (k < fuel)%nat /\ get_file d (n + k) fid = true) ->
  exists out st',
    export_channel fuel h d st channel download_files before after
    = Ok (out, st')
    /\ out_channel out
       = mk_block name (VStr display_name) header cid tname tid
           (Datetime.strftime now).
Proof.
  intros Hdn Hname Hheader Hcid Htid Hteam Htname Hb Ha Hnow Hserved Hnodup
    Hfuel Hps Hget.
  destruct (fetch_pages_served d cid ps Hserved (ceil_div (length ps) 200)
              0%nat [] [] fuel) as (all_posts & Hfetch & _ & Hall); [lia|lia|].
  rewrite (Hall Hnodup), app_nil_l, drop_0 in Hfetch.
  destruct (simplify_posts_total fuel d download_files before' after'
              (user_id_to_name st) (reverse ps) Hget) with (st := st)
              (i := 0%nat) (acc := @nil simple_post)
    as (sps & st' & Hsimp); [|reflexivity|].
  { intros p Hp. apply Hps. now apply elem_of_reverse. }
  eexists _, st'.
  unfold export_channel, fetch_all_posts, assemble, getitem.
  rewrite Hdn. run. rewrite Ha. run. rewrite Hb. run. rewrite Hcid. run.
  rewrite Hfetch. run. rewrite Hsimp. run. rewrite Hname. run.
  rewrite Hheader. run. rewrite Htid. run. rewrite Hteam. run.
  rewrite Htname. run. rewrite Hnow. run.
  split; reflexivity.
Qed.

(** ** Splitting and joining *)

Lemma split_from_nonempty (sep : string) (s : string) :
  forall skip cur, Py.split_from sep skip cur s <> [].
Proof.
  induction s as [|c s IH]; intros skip cur; cbn [Py.split_from];
    [discriminate|].
  destruct skip; [destruct (Py.startswith sep (String c s))|];
    try discriminate; apply IH.
Qed.

Lemma join_cons (sep x : string) (xs : list string) :
  xs <> [] -> join sep (x :: xs) = x +:+ sep +:+ join sep xs.
Proof. destruct xs; [contradiction|reflexivity]. Qed.

Lemma drop_length (k : nat) :
  forall s, (String.length (Py.drop k s) <= String.length s)%nat.
Proof.
  induction k as [|k IH]; intros s; [reflexivity|].
  destruct s as [|c s]; cbn [Py.drop String.length]; [lia|].
  specialize (IH s). lia.
Qed.

Lemma split_from_skip (sep : string) (k : nat) :
  forall cur s, (k <= String.length s)%nat ->
    Py.split_from sep k cur s = Py.split_from sep 0 cur (Py.drop k s).
Proof.
  induction k as [|k IH]; intros cur s Hk; [reflexivity|].
  destruct s as [|c s]; cbn [String.length] in Hk; [lia|].
  cbn [Py.split_from Py.drop]. apply IH. lia.
Qed.

Lemma join_split_from (a : ascii) (sep' : string) (n : nat) :
  forall s cur, (String.length s <= n)%nat ->
    join (String a sep') (Py.split_from (String a sep') 0 cur s)
    = string_of_list_ascii (rev cur) +:+ s.
Proof.
  induction n as [|n IH]; intros s cur Hn.
  - destruct s; [|cbn [String.length] in Hn; lia].
    cbn. now rewrite append_empty_r.
  - destruct s as [|c s]; [cbn; now rewrite append_empty_r|].
    cbn [String.length] in Hn. cbn [Py.split_from].
    destruct (Py.startswith (String a sep') (String c s)) eqn:E.
    + pose proof (startswith_length _ _ E) as Hlen.
      apply startswith_drop in E.
      cbn [String.length Py.drop] in E, Hlen. rewrite append_cons in E.
      injection E as <- Hs.
      cbn [String.length].
      replace (S (String.length sep') - 1)%nat with (String.length sep') by lia.
      rewrite split_from_skip by lia.
      rewrite join_cons by apply split_from_nonempty.
      rewrite IH.
      * cbn [rev string_of_list_ascii]. rewrite append_empty_l.
        f_equal. rewrite append_cons. f_equal. symmetry. exact Hs.
      * pose proof (drop_length (String.length sep') s). lia.
    + rewrite IH by lia. cbn [rev]. apply string_of_list_ascii_snoc.
Qed.

(** X23. Joining the parts of a split with the separator gives the string
    back: no character of a channel name is lost or added by the split. *)
Theorem join_split (s sep : string) :
  sep <> EmptyString -> join sep (Py.split s sep) = s.
Proof.
  intros Hsep. destruct sep as [|a sep']; [contradiction|].
  unfold Py.split. now rewrite (join_split_from a sep' (String.length s)).
Qed.

(** ** Instants and their rendering *)

Lemma days_from_civil_from_days (z : Z) :
  let '(y, m, d) := Datetime.civil_from_days z in
  Datetime.days_from_civil y m d = z
  /\ 1 <= m <= 12 /\ 1 <= d <= 31.
Proof.
  unfold Datetime.civil_from_days, Datetime.days_from_civil.
  set (z' := z + 719468).
  set (era := z' / 146097).
  set (doe := z' - era * 146097).
  assert (Hdoe : 0 <= doe < 146097).
  { subst doe era. Z.div_mod_to_equations. lia. }
  set (yoe := (doe - doe / 1460 + doe / 36524 - doe / 146096) / 365).
  set (doy := doe - (365 * yoe + yoe / 4 - yoe / 100)).
  assert (Hb : 0 <= yoe <= 399 /\ 0 <= doy <= 365).
  { subst yoe doy. split; Z.div_mod_to_equations; lia. }
  set (mp := (5 * doy + 2) / 153).
  assert (Hmp : 0 <= mp <= 11).
  { subst mp. Z.div_mod_to_equations. lia. }
  assert (Hd : 1 <= doy - (153 * mp + 2) / 5 + 1 <= 31).
  { subst mp. Z.div_mod_to_equations. lia. }
  cbv zeta.
  assert (Hera : (yoe + era * 400) / 400 = era).
  { rewrite Z.div_add by lia. rewrite Z.div_small by lia. lia. }
  destruct (Z.ltb_spec mp 10).
  - destruct (Z.leb_spec (mp + 3) 2); [lia|].
    destruct (Z.ltb_spec 2 (mp + 3)); [|lia].
    rewrite Hera.
    replace (yoe + era * 400 - era * 400) with yoe by lia.
    replace (mp + 3 - 3) with mp by lia.
    split; [subst doy z'; lia|]. split; [lia|exact Hd].
  - destruct (Z.leb_spec (mp - 9) 2); [|lia].
    destruct (Z.ltb_spec 2 (mp - 9)); [lia|].
    replace (yoe + era * 400 + 1 - 1) with (yoe + era * 400) by lia.
    rewrite Hera.
    replace (yoe + era * 400 - era * 400) with yoe by lia.
    replace (mp - 9 + 9) with mp by lia.
    split; [subst doy z'; lia|]. split; [lia|exact Hd].
Qed.

(** The fields of a broken-down time are in their ranges. *)
Lemma fromtimestamp_ranges (offset t : Z) (dt : Datetime.datetime) :
  Datetime.fromtimestamp offset t = Ok dt ->
  1 <= Datetime.year dt <= 9999
  /\ 1 <= Datetime.month dt <= 12
  /\ 1 <= Datetime.day dt <= 31
  /\ 0 <= Datetime.hour dt <= 23
  /\ 0 <= Datetime.minute dt <= 59
  /\ 0 <= Datetime.second dt <= 59.
Proof.
  unfold Datetime.fromtimestamp.
  pose proof (days_from_civil_from_days ((t + offset) / 86400)) as Hd.
  destruct (Datetime.civil_from_days ((t + offset) / 86400)) as [[y m] d].
  destruct Hd as (_ & Hm & Hday).
  destruct (Z.leb_spec 1 y), (Z.leb_spec y 9999); try discriminate.
  intros [= <-]. cbn [Datetime.year Datetime.month Datetime.day Datetime.hour
                      Datetime.minute Datetime.second].
  repeat split; try lia; Z.div_mod_to_equations; lia.
Qed.

(** The seconds of a broken-down time are those of the clock it was read
    from. *)
Lemma seconds_from_epoch_fromtimestamp (offset t : Z) (dt : Datetime.datetime) :
  Datetime.fromtimestamp offset t = Ok dt ->
  Datetime.seconds_from_epoch dt = t + offset.
Proof.
  unfold Datetime.fromtimestamp, Datetime.seconds_from_epoch.
  pose proof (days_from_civil_from_days ((t + offset) / 86400)) as Hd.
  destruct (Datetime.civil_from_days ((t + offset) / 86400)) as [[y m] d].
  destruct Hd as (Hd & _).
  destruct ((1 <=? y) && (y <=? 9999)); [|discriminate].
  intros [= <-]. cbn [Datetime.year Datetime.month Datetime.day Datetime.hour
                      Datetime.minute Datetime.second].
  rewrite Hd. Z.div_mod_to_equations. lia.
Qed.

(** The days from 1 January of the year 1 to 31 December 9999 are those of
    the years 1 to 9999. *)
Lemma civil_from_days_year (z : Z) :
  -719162 <= z <= 2932896 ->
  1 <= (Datetime.civil_from_days z).1.1 <= 9999.
Proof.
  intros Hz.
  pose proof (days_from_civil_from_days z) as Hd.
  destruct (Datetime.civil_from_days z) as [[y m] d].
  destruct Hd as (Hd & Hm & Hday). cbn [fst].
  unfold Datetime.days_from_civil in Hd.
  destruct (Z.leb_spec m 2), (Z.ltb_spec 2 m); try lia;
    Z.div_mod_to_equations; lia.
Qed.

Lemma fromtimestamp_Ok (offset t : Z) :
  -62135596800 <= t + offset <= 253402300799 ->
  exists dt, Datetime.fromtimestamp offset t = Ok dt.
Proof.
  intros Ht. unfold Datetime.fromtimestamp.
  pose proof (civil_from_days_year ((t + offset) / 86400)) as Hy.
  destruct (Datetime.civil_from_days ((t + offset) / 86400)) as [[y m] d].
  cbn [fst] in Hy.
  assert (1 <= y <= 9999) as Hr by (apply Hy; Z.div_mod_to_equations; lia).
  destruct (Z.leb_spec 1 y); [|lia]. destruct (Z.leb_spec y 9999); [|lia].
  cbn [andb]. eauto.
Qed.

(** [local] adds the offset in force, within the years of the calendar. *)
Lemma local_Ok (tz : Datetime.zone) (u : Z) :
  -62135596800 <= u + tz u <= 253402300799 ->
  Datetime.local tz u = Ok (u + tz u).
Proof.
  intros Hu. unfold Datetime.local.
  destruct (fromtimestamp_Ok (tz u) u Hu) as [dt Hdt]. rewrite Hdt.
  cbn [fmap result_fmap]. f_equal.
  now apply seconds_from_epoch_fromtimestamp.
Qed.

(** The day before 1 January of the year 1 is in no year of the calendar. *)
Lemma local_before_calendar (tz : Datetime.zone) (u : Z) :
  -62135683200 <= u + tz u < -62135596800 ->
  Datetime.local tz u = Raise ValueError.
Proof.
  intros Hu. unfold Datetime.local, Datetime.fromtimestamp.
  assert ((u + tz u) / 86400 = -719163) as -> by (Z.div_mod_to_equations; lia).
  reflexivity.
Qed.

Lemma to_instant_first_day (h : Host) (c : Z) :
  (forall u, utcoffset h u = c) -> -86400 < c < 86400 ->
  to_instant h (Some "0001-01-01") = Raise ValueError.
Proof.
  intros Hfix Hc. unfold to_instant.
  change (Datetime.strptime "0001-01-01")
    with (Ok (A := Datetime.datetime) (Datetime.mk_datetime 1 1 1 0 0 0)).
  rewrite bind_Ok. unfold Datetime.timestamp.
  change (Datetime.seconds_from_epoch (Datetime.mk_datetime 1 1 1 0 0 0))
    with (-62135596800).
  destruct (Z.lt_ge_cases c 0) as [Hneg|Hpos].
  - rewrite local_before_calendar by (rewrite Hfix; lia). reflexivity.
  - rewrite (local_Ok _ (-62135596800)) by (rewrite Hfix; lia).
    rewrite bind_Ok. cbv beta zeta. rewrite Hfix.
    replace (-62135596800 - (-62135596800 + c - -62135596800))
      with (-62135596800 - c) by lia.
    rewrite (local_Ok _ (-62135596800 - c)) by (rewrite Hfix; lia).
    rewrite bind_Ok. cbv beta zeta. rewrite Hfix.
    replace (-62135596800 - c + c) with (-62135596800) by lia.
    rewrite Z.eqb_refl.
    rewrite (local_before_calendar _ (-62135596800 - c - 86400))
      by (rewrite Hfix; lia).
    reflexivity.
Qed.

(** X24. On a host whose zone has a fixed offset, of less than a day, an
    export with the boundary [0001-01-01] fails with [ValueError], be it
    the [after] or the [before] boundary: the date is parsed, but its
    conversion to an instant looks at the local time of the day before,
    which is in no year of the calendar. *)
Theorem export_channel_first_day (fuel : nat) (h : Host) (d : Driver)
    (st : session) (channel : gmap string value) (download_files : bool)
    (before : option string) (display_name : string) (c : Z) :
  channel !! "display_name" = Some (VStr display_name) ->
  (forall u, utcoffset h u = c) ->
  -86400 < c < 86400 ->
  Datetime.strptime "0001-01-01" = Ok (Datetime.mk_datetime 1 1 1 0 0 0)
  /\ export_channel fuel h d st channel download_files before
       (Some "0001-01-01")
     = Raise ValueError
  /\ export_channel fuel h d st channel download_files (Some "0001-01-01")
       None
     = Raise ValueError.
Proof.
  intros Hdn Hfix Hc. split; [reflexivity|].
  pose proof (to_instant_first_day h c Hfix Hc) as Hraise.
  split; unfold export_channel, getitem; rewrite Hdn; run.
  - now rewrite Hraise.
  - change (to_instant h None) with (Ok (A := option Z) None). run.
    now rewrite Hraise.
Qed.

Lemma digit_inj (a b : Z) :
  Datetime.digit a = Datetime.digit b -> a mod 10 = b mod 10.
Proof.
  unfold Datetime.digit. intros H. apply (f_equal nat_of_ascii) in H.
  pose proof (Z.mod_pos_bound a 10). pose proof (Z.mod_pos_bound b 10).
  rewrite !nat_ascii_embedding in H by lia. lia.
Qed.

Lemma pad2_inj (a b : Z) :
  0 <= a <= 99 -> 0 <= b <= 99 -> Datetime.pad2 a = Datetime.pad2 b -> a = b.
Proof.
  unfold Datetime.pad2. intros Ha Hb [= H1 H2].
  apply digit_inj in H1, H2. Z.div_mod_to_equations. lia.
Qed.

Lemma digit_not_dash (k : Z) : Datetime.digit k <> "-"%char.
Proof.
  unfold Datetime.digit. intros H. apply (f_equal nat_of_ascii) in H.
  pose proof (Z.mod_pos_bound k 10 ltac:(lia)).
  rewrite nat_ascii_embedding in H by lia.
  change (nat_of_ascii "-") with 45%nat in H. lia.
Qed.

(** The numeral of a year ends where the first [-] stands. *)
Lemma year_text_inj (y1 y2 : Z) (r1 r2 : string) :
  1 <= y1 <= 9999 -> 1 <= y2 <= 9999 ->
  Datetime.year_text y1 +:+ "-" +:+ r1 = Datetime.year_text y2 +:+ "-" +:+ r2 ->
  y1 = y2 /\ r1 = r2.
Proof.
  intros H1 H2. unfold Datetime.year_text.
  destruct (Z.ltb_spec y1 10), (Z.ltb_spec y1 100), (Z.ltb_spec y1 1000),
    (Z.ltb_spec y2 10), (Z.ltb_spec y2 100), (Z.ltb_spec y2 1000); try lia.
  all: unfold Datetime.pad4, Datetime.pad2;
    cbv beta iota fix delta [String.append]; intros Heq; injection Heq; intros.
  all: try (exfalso;
            match goal with
            | H : Datetime.digit _ = "-"%char |- _ => exact (digit_not_dash _ H)
            | H : "-"%char = Datetime.digit _ |- _ =>
                exact (digit_not_dash _ (eq_sym H))
            end).
  all: repeat match goal with
         | H : Datetime.digit _ = Datetime.digit _ |- _ => apply digit_inj in H
         end.
  all: split; [Z.div_mod_to_equations; lia | assumption].
Qed.

Lemma strftime_inj (dt1 dt2 : Datetime.datetime) (offset1 offset2 t1 t2 : Z) :
  Datetime.fromtimestamp offset1 t1 = Ok dt1 ->
  Datetime.fromtimestamp offset2 t2 = Ok dt2 ->
  Datetime.strftime dt1 = Datetime.strftime dt2 ->
  dt1 = dt2.
Proof.
  intros H1 H2 Heq.
  apply fromtimestamp_ranges in H1 as (Hy1 & Hm1 & Hd1 & Hh1 & Hmi1 & Hs1).
  apply fromtimestamp_ranges in H2 as (Hy2 & Hm2 & Hd2 & Hh2 & Hmi2 & Hs2).
  destruct dt1 as [y1 m1 d1 h1 mi1 s1], dt2 as [y2 m2 d2 h2 mi2 s2].
  cbn [Datetime.year Datetime.month Datetime.day Datetime.hour
       Datetime.minute Datetime.second] in *.
  unfold Datetime.strftime in Heq.
  cbn [Datetime.year Datetime.month Datetime.day Datetime.hour
       Datetime.minute Datetime.second] in Heq.
  apply year_text_inj in Heq as [Hy Heq]; [|lia|lia].
  assert (Hrest : Datetime.pad2 m1 = Datetime.pad2 m2
                  /\ Datetime.pad2 d1 = Datetime.pad2 d2
                  /\ Datetime.pad2 h1 = Datetime.pad2 h2
                  /\ Datetime.pad2 mi1 = Datetime.pad2 mi2
                  /\ Datetime.pad2 s1 = Datetime.pad2 s2).
  { unfold Datetime.pad2 in *.
    cbv beta iota fix delta [String.append] in Heq.
    injection Heq as -> -> -> -> -> -> -> -> -> ->.
    repeat split. }
  destruct Hrest as (Hm & Hd & Hh & Hmi & Hs).
  apply pad2_inj in Hm; [|lia|lia]. apply pad2_inj in Hd; [|lia|lia].
  apply pad2_inj in Hh; [|lia|lia]. apply pad2_inj in Hmi; [|lia|lia].
  apply pad2_inj in Hs; [|lia|lia]. now subst.
Qed.

(** X25. The [created] field tells the second of creation: two posts that
    are exported with the same [created] text were created in the same
    second, so the rendering loses the milliseconds and nothing else. *)
Theorem created_identifies_second (fuel : nat) (d : Driver)
    (download_files : bool) (before after : option Z)
    (st1 st1' st2 st2' : session) (i1 i2 : nat) (p1 p2 : post)
    (sp1 sp2 : simple_post) :
  simplify_post fuel d download_files before after st1 i1 p1
  = Ok (Some sp1, st1') ->
  simplify_post fuel d download_files before after st2 i2 p2
  = Ok (Some sp2, st2') ->
  created sp1 = created sp2 ->
  create_at p1 / 1000 = create_at p2 / 1000.
Proof.
  intros H1 H2 Heq.
  apply simplify_post_spec in H1, H2.
  destruct (out_of_range p1 before after); [discriminate|].
  destruct (out_of_range p2 before after); [discriminate|].
  destruct H1 as (? & [= <-] & _ & _ & Hc1 & _).
  destruct H2 as (? & [= <-] & _ & _ & Hc2 & _).
  unfold Datetime.utcfromtimestamp in *.
  destruct (Datetime.fromtimestamp 0 (create_at p1 / 1000)) as [dt1| |] eqn:E1;
    try discriminate.
  destruct (Datetime.fromtimestamp 0 (create_at p2 / 1000)) as [dt2| |] eqn:E2;
    try discriminate.
  injection Hc1 as Hc1. injection Hc2 as Hc2.
  assert (dt1 = dt2) as ->.
  { eapply strftime_inj; [exact E1|exact E2|congruence]. }
  apply seconds_from_epoch_fromtimestamp in E1, E2. lia.
Qed.

(** ** Boundaries and the rendering of instants *)

Lemma civil_from_days_from_civil (y m d : Z) :
  1 <= m <= 12 -> 1 <= d <= Datetime.days_in_month y m ->
  Datetime.civil_from_days (Datetime.days_from_civil y m d) = (y, m, d).
Proof.
  intros Hm Hd.
  unfold Datetime.days_in_month, Datetime.is_leap in Hd.
  unfold Datetime.days_from_civil.
  set (y' := if m <=? 2 then y - 1 else y).
  set (era := y' / 400).
  set (yoe := y' - era * 400).
  assert (Hyoe : 0 <= yoe <= 399).
  { subst yoe era. Z.div_mod_to_equations. lia. }
  set (mp := if 2 <? m then m - 3 else m + 9).
  assert (Hmp : 0 <= mp <= 11).
  { subst mp. destruct (Z.ltb_spec 2 m); lia. }
  set (doy := (153 * mp + 2) / 5 + d - 1).
  (* the day of the year is within the year that starts in March *)
  assert (Hleap : y mod 4 = (if m <=? 2 then (yoe + 1) mod 4 else yoe mod 4)
                  /\ y mod 100 = (if m <=? 2 then (yoe + 1) mod 100 else yoe mod 100)
                  /\ y mod 400 = (if m <=? 2 then (yoe + 1) mod 400 else yoe mod 400)).
  { subst yoe era y'. destruct (Z.leb_spec m 2); Z.div_mod_to_equations; lia. }
  assert (Hdoy : 0 <= doy <= 365 /\ (doy = 365 -> (yoe + 1) mod 4 = 0 /\ ((yoe + 1) mod 100 <> 0 \/ (yoe + 1) mod 400 = 0))
                 /\ (5 * doy + 2) / 153 = mp
                 /\ doy - (153 * mp + 2) / 5 + 1 = d).
  { destruct Hleap as (H4 & H100 & H400).
    subst doy mp.
    assert (m = 1 \/ m = 2 \/ m = 3 \/ m = 4 \/ m = 5 \/ m = 6 \/ m = 7
            \/ m = 8 \/ m = 9 \/ m = 10 \/ m = 11 \/ m = 12) as Hcase by lia.
    repeat destruct Hcase as [->|Hcase]; try subst m; cbn in *;
      repeat match goal with
             | H : context [?a =? ?b] |- _ => destruct (Z.eqb_spec a b)
             end; cbn in *; try lia.
    all: Z.div_mod_to_equations; lia. }
  destruct Hdoy as (Hdoy & H365 & Hmpinv & Hdinv).
  set (doe := yoe * 365 + yoe / 4 - yoe / 100 + doy).
  assert (Hyinv : (doe - doe / 1460 + doe / 36524 - doe / 146096) / 365 = yoe
                  /\ 0 <= doe < 146097).
  { subst doe. split; Z.div_mod_to_equations; lia. }
  destruct Hyinv as [Hyinv Hdoe].
  unfold Datetime.civil_from_days.
  replace (era * 146097 + doe - 719468 + 719468) with (doe + era * 146097) by lia.
  rewrite Z.div_add by lia. rewrite (Z.div_small doe) by lia.
  replace (doe + era * 146097 - (0 + era) * 146097) with doe by lia.
  cbv zeta. rewrite Hyinv.
  replace (doe - (365 * yoe + yoe / 4 - yoe / 100)) with doy by (subst doe; lia).
  rewrite Hmpinv, Hdinv.
  subst mp y' yoe era.
  destruct (Z.ltb_spec 2 m).
  - destruct (Z.ltb_spec (m - 3) 10); [|lia].
    replace (m - 3 + 3) with m by lia.
    destruct (Z.leb_spec m 2); [lia|]. f_equal. f_equal. lia.
  - destruct (Z.ltb_spec (m + 9) 10); [lia|].
    replace (m + 9 - 9) with m by lia.
    destruct (Z.leb_spec m 2); [|lia]. f_equal. f_equal. lia.
Qed.

Lemma digit_val_digit (k : Z) :
  Datetime.digit_val (Datetime.digit k) = Some (k mod 10).
Proof.
  unfold Datetime.digit_val, Datetime.digit.
  pose proof (Z.mod_pos_bound k 10 ltac:(lia)) as Hk.
  rewrite nat_ascii_embedding by lia.
  destruct (Nat.leb_spec 48 (48 + Z.to_nat (k mod 10))); [|lia].
  destruct (Nat.leb_spec (48 + Z.to_nat (k mod 10)) 57); [|lia].
  cbn [andb]. f_equal. lia.
Qed.

Lemma parse_year_pad4 (y : Z) (rest : string) :
  0 <= y <= 9999 ->
  Datetime.parse_year (Datetime.pad4 y +:+ rest) = Some (y, rest).
Proof.
  intros Hy. unfold Datetime.pad4, Datetime.pad2.
  rewrite !append_cons, append_empty_l. cbn [Datetime.parse_year].
  rewrite !digit_val_digit. f_equal. f_equal.
  Z.div_mod_to_equations. lia.
Qed.

Lemma parse_upto_pad2 (hi n : Z) (rest : string) :
  1 <= n <= hi -> hi <= 99 ->
  Datetime.parse_upto hi (Datetime.pad2 n +:+ rest) = Some (n, rest).
Proof.
  intros Hn Hhi. unfold Datetime.pad2.
  rewrite !append_cons, append_empty_l. cbn [Datetime.parse_upto].
  rewrite !digit_val_digit.
  assert (10 * ((n / 10) mod 10) + n mod 10 = n) as ->
    by (Z.div_mod_to_equations; lia).
  destruct (Z.leb_spec 1 n); [|lia]. destruct (Z.leb_spec n hi); [|lia].
  reflexivity.
Qed.

Lemma expect_dash (rest : string) :
  Datetime.expect "-" ("-" +:+ rest) = Some rest.
Proof. reflexivity. Qed.

Lemma strptime_iso_date (y m d : Z) :
  1 <= y <= 9999 -> 1 <= m <= 12 -> 1 <= d <= Datetime.days_in_month y m ->
  Datetime.strptime (iso_date y m d) = Ok (Datetime.mk_datetime y m d 0 0 0).
Proof.
  intros Hy Hm Hd.
  assert (Hd31 : d <= 31).
  { unfold Datetime.days_in_month in Hd.
    repeat match type of Hd with
           | context [if ?b then _ else _] => destruct b
           end; lia. }
  unfold Datetime.strptime, iso_date.
  rewrite parse_year_pad4 by lia. cbn [mbind option_bind].
  rewrite expect_dash. cbn [mbind option_bind].
  rewrite parse_upto_pad2 by lia. cbn [mbind option_bind].
  rewrite expect_dash. cbn [mbind option_bind].
  assert (Hday : Datetime.parse_day (Datetime.pad2 d)
                 = Some (d, EmptyString)).
  { unfold Datetime.parse_day.
    rewrite <- (append_empty_r (Datetime.pad2 d)).
    now rewrite parse_upto_pad2 by lia. }
  rewrite Hday. cbn [mbind option_bind].
  destruct (Z.leb_spec 1 y); [|lia].
  destruct (Z.leb_spec d (Datetime.days_in_month y m)); [|lia].
  reflexivity.
Qed.

(** The seconds of a four-digit year. *)
Lemma seconds_from_epoch_bounds (y m d : Z) :
  1000 <= y <= 9999 -> 1 <= m <= 12 -> 1 <= d <= 31 ->
  -30610224000 <= Datetime.days_from_civil y m d * 86400 <= 253402214400.
Proof.
  intros Hy Hm Hd. unfold Datetime.days_from_civil.
  destruct (Z.leb_spec m 2), (Z.ltb_spec 2 m); try lia;
    Z.div_mod_to_equations; lia.
Qed.

(** Where the offset is the same at the instants that [timestamp] looks
    at, the local time is that many seconds ahead of the result. *)
Lemma timestamp_steady (tz : Datetime.zone) (dt : Datetime.datetime) (c : Z) :
  let t := Datetime.seconds_from_epoch dt in
  -62135596800 <= t + c <= 253402300799 ->
  -62135596800 <= t <= 253402300799 ->
  -62135596800 <= t - 86400 ->
  tz t = c -> tz (t - c) = c -> tz (t - c - 86400) = c ->
  Datetime.timestamp tz dt = Ok (t - c).
Proof.
  intros t H1 H2 H3 Ha Hb Hc. unfold Datetime.timestamp. fold t.
  rewrite (local_Ok tz t) by (rewrite Ha; lia). rewrite bind_Ok, Ha.
  replace (t - (t + c - t)) with (t - c) by lia.
  rewrite (local_Ok tz (t - c)) by (rewrite Hb; lia). rewrite bind_Ok, Hb.
  replace (t - c + c) with t by lia. rewrite Z.eqb_refl.
  rewrite (local_Ok tz (t - c - 86400)) by (rewrite Hc; lia).
  rewrite bind_Ok, Hc.
  replace (t + c - t) with c by lia.
  replace (t - c - 86400 + c - (t - c - 86400)) with c by lia.
  now rewrite Z.eqb_refl.
Qed.

(** X26. A boundary written as [YYYY-MM-DD], for a year of four digits, is
    midnight of that day on the clock of the host, provided the zone of
    the host has one offset, of less than a day, at the three instants
    that the conversion looks at: the boundary read as UTC, the boundary
    on the local clock, and the day before that. It is then converted to
    the instant at which the host shows that date at [00:00:00]. A host
    with a fixed offset meets the condition on every date; a host whose
    clock is moved at that midnight does not ([timestamp_skipped_midnight]). *)
Theorem boundary_is_local_midnight (h : Host) (y m d c : Z) :
  1000 <= y <= 9999 -> 1 <= m <= 12 -> 1 <= d <= Datetime.days_in_month y m ->
  -86400 < c < 86400 ->
  let t := Datetime.seconds_from_epoch (Datetime.mk_datetime y m d 0 0 0) in
  utcoffset h t = c -> utcoffset h (t - c) = c ->
  utcoffset h (t - c - 86400) = c ->
  to_instant h (Some (iso_date y m d)) = Ok (Some (t - c))
  /\ Datetime.strftime <$> Datetime.fromtimestamp (utcoffset h (t - c)) (t - c)
     = Ok (iso_date y m d +:+ "T00:00:00Z").
Proof.
  intros Hy Hm Hd Hc t Ha Hb Hc'.
  assert (Hd31 : d <= 31).
  { unfold Datetime.days_in_month in Hd.
    repeat match type of Hd with
           | context [if ?b then _ else _] => destruct b
           end; lia. }
  assert (Ht : t = Datetime.days_from_civil y m d * 86400).
  { subst t. unfold Datetime.seconds_from_epoch.
    cbn [Datetime.year Datetime.month Datetime.day Datetime.hour
         Datetime.minute Datetime.second]. lia. }
  pose proof (seconds_from_epoch_bounds y m d Hy Hm ltac:(lia)) as Hb'.
  split.
  - unfold to_instant.
    assert (Hne : exists a s, iso_date y m d = String a s).
    { unfold iso_date, Datetime.pad4. rewrite append_cons. eauto. }
    destruct Hne as (a & s & Hs). rewrite Hs, <- Hs.
    rewrite strptime_iso_date by (assumption || lia). rewrite bind_Ok.
    rewrite (timestamp_steady (utcoffset h) _ c); fold t;
      [reflexivity|lia|lia|lia|assumption|assumption|assumption].
  - rewrite Hb. unfold Datetime.fromtimestamp.
    replace (t - c + c) with (Datetime.days_from_civil y m d * 86400) by lia.
    rewrite Z.div_mul by lia. rewrite Z.mod_mul by lia.
    rewrite civil_from_days_from_civil by assumption.
    destruct (Z.leb_spec 1 y); [|lia]. destruct (Z.leb_spec y 9999); [|lia].
    cbn [andb fmap result_fmap]. unfold Datetime.strftime, Datetime.year_text.
    cbn [Datetime.year Datetime.month Datetime.day Datetime.hour
         Datetime.minute Datetime.second].
    destruct (Z.ltb_spec y 10); [lia|]. destruct (Z.ltb_spec y 100); [lia|].
    destruct (Z.ltb_spec y 1000); [lia|]. reflexivity.
Qed.

(** ** The further properties at the sample data *)

Lemma get_users_served_witness :
  users_pages 3 sample_client 0 ∅ []
  = Ok (index_of sample_pairs ∅, seq 0 (ceil_div (length sample_pairs) 200 + 1))
  /\ get_users 3 sample_client = Ok (index_of sample_pairs ∅, "u1").
Proof.
  apply (get_users_served 3 sample_client sample_pairs
           (user_record ("u1", VStr "alice")) (VStr "alice") "u1").
  - reflexivity.
  - vm_compute. reflexivity.
  - vm_compute. reflexivity.
  - intros page. reflexivity.
  - vm_compute. lia.
Defined.

Lemma get_users_index_witness :
  exists names,
    get_users 3 sample_client = Ok (names, "u1")
    /\ names !! "u2" = Some (VStr "bob")
    /\ names !! "u9" = None.
Proof.
  destruct (get_users_index 3 sample_client sample_pairs
              (user_record ("u1", VStr "alice")) (VStr "alice") "u1")
    as (names & Hrun & Hin & Hout).
  - reflexivity.
  - vm_compute. reflexivity.
  - vm_compute. reflexivity.
  - intros page. reflexivity.
  - vm_compute. lia.
  - exists names. split; [exact Hrun|]. split.
    + apply (Hin [("u1", VStr "alice")] [] "u2" (VStr "bob")); [reflexivity|].
      apply not_elem_of_nil.
    + apply Hout. vm_compute. intros H.
      repeat (apply elem_of_cons in H as [H|H]; [discriminate|]).
      now apply elem_of_nil in H.
Defined.

Lemma get_users_needs_username_witness :
  get_users 3 nameless_client = Raise (KeyError "username").
Proof.
  apply (get_users_needs_username 3 nameless_client {[ "id" := VStr "u1" ]}).
  - reflexivity.
  - vm_compute. reflexivity.
Defined.

Lemma select_channel_sorted_witness :
  exists keys, mapM sort_key accent_listing = Ok keys /\ Sorted key_le keys.
Proof.
  apply (select_channel_sorted accent_driver "t1" "u1" sample_users
           accent_listing).
  vm_compute. reflexivity.
Defined.

Lemma select_channel_stable_witness :
  exists fetched labelled,
    get_channels_for_user accent_driver "u1" "t1" = Ok fetched
    /\ mapM (label_channel "u1" sample_users) fetched = Ok labelled
    /\ List.filter (has_key e_acute) accent_listing
       = List.filter (has_key e_acute) labelled.
Proof.
  apply (select_channel_stable accent_driver "t1" "u1" sample_users
           accent_listing e_acute).
  vm_compute. reflexivity.
Defined.


Lemma label_channel_idempotent_witness :
  label_channel "u1" sample_users (<["display_name" := VStr "bob"]> dm_channel)
  = Ok (<["display_name" := VStr "bob"]> dm_channel).
Proof.
  apply (label_channel_idempotent "u1" sample_users dm_channel).
  vm_compute. reflexivity.
Defined.

Lemma export_channel_index_grows_witness :
  (∅ : gmap string value) ⊆ sample_users
  /\ forall k v, sample_users !! k = Some v ->
       (∅ : gmap string value) !! k = Some v
       \/ exists user, get_user sample_driver k = Ok user
                       /\ user !! "username" = Some v.
Proof.
  apply (export_channel_index_grows 10 utc_host sample_driver
           (mk_session ∅ 0) (mk_session sample_users 0) sample_channel false
           None None plain_output).
  vm_compute. reflexivity.
Defined.

Lemma export_channel_usernames_witness :
  exists kept : list post,
    kept `sublist_of` reverse sample_posts
    /\ Forall2 (fun p sp =>
                  id sp = post_id p
                  /\ sample_users !! post_user_id p = Some (username sp)
                  /\ forall v, sample_users !! post_user_id p = Some v ->
                               username sp = v)
         kept (out_posts plain_output).
Proof.
  apply (export_channel_usernames 10 utc_host sample_driver sample_session
           sample_session sample_channel false None None plain_output
           (VStr "c1") sample_posts [0; 1]%nat).
  - vm_compute. reflexivity.
  - vm_compute. reflexivity.
  - vm_compute. reflexivity.
Defined.

Lemma export_channel_file_requests_witness :
  (0 + listed_files (out_posts sample_output) <= 4)%nat
  /\ (true = false -> 4%nat = 0%nat).
Proof.
  apply (export_channel_file_requests 10 utc_host sample_driver sample_session
           (mk_session sample_users 4) sample_channel true None None
           sample_output).
  vm_compute. reflexivity.
Defined.

Lemma export_channel_downloads_witness :
  exists m, (0 <= m < 4)%nat /\ get_file sample_driver m "f1" = true.
Proof.
  apply (export_channel_downloads 10 utc_host sample_driver sample_session
           (mk_session sample_users 4) sample_channel None None sample_output
           (VStr "c1") sample_posts [0; 1]%nat None None
           (mk_post "p2" "u1" 1704153600000 "two files"
              (Some [mk_file "f1" "a.txt"; mk_file "f2" "b.png"]))
           [mk_file "f1" "a.txt"; mk_file "f2" "b.png"] (mk_file "f1" "a.txt")).
  - vm_compute. reflexivity.
  - vm_compute. reflexivity.
  - reflexivity.
  - reflexivity.
  - vm_compute. reflexivity.
  - right. left.
  - reflexivity.
  - reflexivity.
  - left.
Defined.

Lemma get_file_retry_first_success_witness :
  get_file_retry 5 sample_driver 0 "f1" = Ok 3%nat.
Proof.
  apply (get_file_retry_first_success 5 sample_driver "f1" 0 2).
  - intros j Hj. destruct j as [|[|j]]; [reflexivity|reflexivity|lia].
  - reflexivity.
  - lia.
Defined.

Lemma get_file_retry_never_gives_up_witness :
  get_file_retry 1000 offline_files_driver 0 "f1" = OutOfFuel.
Proof.
  apply (get_file_retry_never_gives_up offline_files_driver "f1" 0).
  intros j. reflexivity.
Defined.

Lemma fetch_all_posts_unbounded_witness :
  fetch_all_posts 50 endless_driver (VStr "c1") = OutOfFuel.
Proof.
  apply (fetch_all_posts_unbounded endless_driver (VStr "c1")).
  intros page. eexists _, _. split; [reflexivity|]. split.
  - vm_compute. lia.
  - vm_compute. reflexivity.
Defined.

Lemma export_channel_fetch_failed_witness :
  fetch_all_posts 10 failing_driver (VStr "c1")
  = Raise (DriverError "FetchFailed")
  /\ export_channel 10 utc_host failing_driver sample_session sample_channel
       false None None
     = Raise (DriverError "FetchFailed").
Proof.
  apply (export_channel_fetch_failed 10 utc_host failing_driver sample_session
           sample_channel false None None None None "Town Square" (VStr "c1") 1).
  - vm_compute. reflexivity.
  - vm_compute. reflexivity.
  - reflexivity.
  - reflexivity.
  - intros j Hj. assert (j = 0%nat) as -> by lia.
    eexists _, _. split; [reflexivity|]. split.
    + vm_compute. lia.
    + vm_compute. reflexivity.
  - left. reflexivity.
  - lia.
Defined.

Lemma export_channel_bad_boundary_witness :
  export_channel 10 utc_host sample_driver sample_session sample_channel
    false (Some "2024-01-02") (Some "yesterday")
  = Raise ValueError.
Proof.
  apply (export_channel_bad_boundary 10 utc_host sample_driver sample_session
           sample_channel false (Some "2024-01-02") (Some "yesterday")
           "Town Square").
  - vm_compute. reflexivity.
  - left. vm_compute. reflexivity.
Defined.

Lemma extract_code_between_fences_witness :
  "x = 1"%string <> EmptyString
  /\ exists pre post,
       "see ```x = 1``` above"%string
       = pre +:+ "```" +:+ "x = 1" +:+ "```" +:+ post.
Proof.
  apply (extract_code_between_fences "see ```x = 1``` above" "x = 1").
  vm_compute. reflexivity.
Defined.

Lemma export_channel_block_witness :
  sample_channel !! "name" = Some (cb_name (out_channel sample_output))
  /\ sample_channel !! "display_name"
     = Some (cb_display_name (out_channel sample_output))
  /\ sample_channel !! "header" = Some (cb_header (out_channel sample_output))
  /\ sample_channel !! "id" = Some (cb_id (out_channel sample_output))
  /\ sample_channel !! "team_id" = Some (cb_team_id (out_channel sample_output))
  /\ exists team,
       get_team sample_driver (cb_team_id (out_channel sample_output)) = Ok team
       /\ team !! "name" = Some (cb_team (out_channel sample_output)).
Proof.
  apply (export_channel_block 10 utc_host sample_driver sample_session
           (mk_session sample_users 4) sample_channel true None None).
  vm_compute. reflexivity.
Defined.

Lemma export_one_document_per_channel_witness :
  exists cfg host channels,
    job_config (mk_job (Some (sample_config (Some true))) (Some "t1")
                  (Some ["c1"])) = Some cfg
    /\ cfg_host cfg = Some host
    /\ job_channels (mk_job (Some (sample_config (Some true))) (Some "t1")
                       (Some ["c1"])) = Some channels
    /\ Forall2 (fun cid out =>
                  exists channel,
                    get_channel (sample_network host (cfg_token cfg)
                                   (cfg_username cfg) (cfg_password cfg)) cid
                    = Ok channel
                    /\ channel !! "id" = Some (cb_id (out_channel out))
                    /\ channel !! "name" = Some (cb_name (out_channel out)))
         channels [sample_output].
Proof.
  apply (export_one_document_per_channel 10 sample_network (fun _ => utc_host)).
  vm_compute. reflexivity.
Defined.

Lemma export_download_files_required_witness :
  export 10 sample_network (fun _ => utc_host)
    (mk_job (Some (sample_config None)) (Some "t1") (Some ["c1"]))
  = Raise (KeyError "download_files").
Proof.
  apply (export_download_files_required 10 sample_network (fun _ => utc_host)
           (mk_job (Some (sample_config None)) (Some "t1") (Some ["c1"]))
           (sample_config None) "chat.example.org"
           (index_of sample_pairs ∅) "u1").
  - reflexivity.
  - reflexivity.
  - reflexivity.
  - reflexivity.
  - vm_compute. reflexivity.
Defined.

Lemma export_first_failure_aborts_witness :
  export 10 sample_network (fun _ => utc_host)
    (mk_job (Some (sample_config (Some true))) (Some "t1") (Some ["c1"; "c9"]))
  = Raise (DriverError "NotFound").
Proof.
  apply (export_first_failure_aborts 10 sample_network (fun _ => utc_host)
           (mk_job (Some (sample_config (Some true))) (Some "t1")
              (Some ["c1"; "c9"]))
           (sample_config (Some true)) "chat.example.org"
           (index_of sample_pairs ∅) "u1" ["c1"] [] "c9" [sample_output]
           (mk_session sample_users 4)).
  - reflexivity.
  - reflexivity.
  - reflexivity.
  - vm_compute. reflexivity.
  - reflexivity.
  - vm_compute. reflexivity.
  - left. reflexivity.
Defined.

Lemma export_channel_returns_witness :
  exists out st',
    export_channel 10 utc_host sample_driver sample_session sample_channel
      true (Some "2024-01-02") None = Ok (out, st')
    /\ out_channel out
       = mk_block (VStr "town-square") (VStr "Town Square") (VStr "news")
           (VStr "c1") (VStr "team") (VStr "t1")
           (Datetime.strftime (Datetime.mk_datetime 1970 1 1 0 0 0)).
Proof.
  apply (export_channel_returns 10 utc_host sample_driver sample_session
           sample_channel true (Some "2024-01-02") None (Some 1704153600) None
           sample_posts "Town Square"
           (VStr "town-square") (VStr "news") (VStr "c1") (VStr "t1")
           (VStr "team") {[ "name" := VStr "team" ]}
           (Datetime.mk_datetime 1970 1 1 0 0 0)).
  - vm_compute. reflexivity.
  - vm_compute. reflexivity.
  - vm_compute. reflexivity.
  - vm_compute. reflexivity.
  - vm_compute. reflexivity.
  - reflexivity.
  - vm_compute. reflexivity.
  - reflexivity.
  - reflexivity.
  - vm_compute. reflexivity.
  - intros page. reflexivity.
  - vm_compute. repeat constructor; intros H;
      repeat (apply elem_of_cons in H as [H|H]; [discriminate|]);
      now apply elem_of_nil in H.
  - vm_compute. lia.
  - intros p Hp.
    repeat (apply elem_of_cons in Hp as [->|Hp]);
      [| | |now apply elem_of_nil in Hp];
      (split; [left; vm_compute; eauto|vm_compute; eauto]).
  - intros _ n fid. exists (2 - n)%nat. split; [lia|].
    change ((2 <=? (n + (2 - n)))%nat = true). apply Nat.leb_le. lia.
Defined.

Lemma join_split_witness : join "__" (Py.split "u1__u2" "__") = "u1__u2".
Proof. apply (join_split "u1__u2" "__"). discriminate. Defined.

Lemma export_channel_first_day_witness :
  Datetime.strptime "0001-01-01" = Ok (Datetime.mk_datetime 1 1 1 0 0 0)
  /\ export_channel 10 cet_host sample_driver sample_session sample_channel
       false (Some "2024-01-02") (Some "0001-01-01")
     = Raise ValueError
  /\ export_channel 10 cet_host sample_driver sample_session sample_channel
       false (Some "0001-01-01") None
     = Raise ValueError.
Proof.
  apply (export_channel_first_day 10 cet_host sample_driver sample_session
           sample_channel false (Some "2024-01-02") "Town Square" 3600).
  - vm_compute. reflexivity.
  - intros u. reflexivity.
  - lia.
Defined.

Lemma created_identifies_second_witness :
  1704067200000 / 1000 = 1704067200999 / 1000.
Proof.
  apply (created_identifies_second 10 sample_driver false None None
           sample_session sample_session sample_session sample_session 0 7
           (mk_post "p1" "u1" 1704067200000 "hello" None)
           (mk_post "p7" "u1" 1704067200999 "later" None)
           (mk_simple 0 "p1" "2024-01-01T00:00:00Z" (VStr "alice") "hello"
              None None)
           (mk_simple 7 "p7" "2024-01-01T00:00:00Z" (VStr "alice") "later"
              None None)).
  - vm_compute. reflexivity.
  - vm_compute. reflexivity.
  - reflexivity.
Defined.

Lemma boundary_is_local_midnight_witness :
  to_instant cet_host (Some (iso_date 2024 1 2)) = Ok (Some (1704153600 - 3600))
  /\ Datetime.strftime
       <$> Datetime.fromtimestamp (utcoffset cet_host (1704153600 - 3600))
             (1704153600 - 3600)
     = Ok (iso_date 2024 1 2 +:+ "T00:00:00Z").
Proof.
  apply (boundary_is_local_midnight cet_host 2024 1 2 3600).
  - lia.
  - lia.
  - change (1 <= 2 <= 31). lia.
  - lia.
  - reflexivity.
  - reflexivity.
  - reflexivity.
Defined.
